(** * SBO-MCP-HANA: the tool handlers, the connectors and the CSV formatter

    A shallow embedding of [sap_mcp/csv_utils.py], [sap_mcp/connectors/hana.py],
    [sap_mcp/connectors/odbc.py] and the three handlers under [sap_mcp/tools/],
    with the properties the specification states about them.

    Conventions of the embedding.
    - A Python [str] is a [string]. Which characters are white space and
      what the upper-case form of a character is are the interpreter's
      tables, not this program's: [str.strip] and [str.upper] take them as
      the parameter [py : PyStr.tables], and so does every function that
      calls one of the two. [PyStr.seven_bit] holds the tables of the 7-bit
      characters, and [PyStr.lawful] says what is assumed of the tables
      where a property needs it.
    - A Python function that can raise returns an [outcome]; a method of an
      object with mutable attributes is a state transformer [M S A] over the
      attributes, and the state survives a raised exception as in Python.
    - A [dict] is an association list in insertion order with unique keys. *)

From Stdlib Require Import List String Ascii Bool Arith ZArith Lia.
From Stdlib Require Import Numbers.DecimalString.
Import ListNotations.
Open Scope string_scope.

Set Implicit Arguments.

(** ** Python strings *)

Module PyStr.
Definition dquote : ascii := "034"%char.
Definition LF : ascii := "010"%char.
Definition CR : ascii := "013"%char.

(** The tables of the interpreter: [c.isspace()] for one character, and the
    upper-case form of one character, which can be longer than one
    character. *)
Record tables : Type := {
  isspace : ascii -> bool;
  upper_char : ascii -> string
}.

Section Tables.

Variable py : tables.

(** [s.upper()]: the upper-case forms of the characters, one after the
    other. *)
Fixpoint upper (s : string) : string :=
  match s with
  | EmptyString => EmptyString
  | String c s' => upper_char py c ++ upper s'
  end.

(** [s.lstrip()] *)
Fixpoint lstrip (s : string) : string :=
  match s with
  | EmptyString => EmptyString
  | String c s' => if isspace py c then lstrip s' else s
  end.

(** [s.rstrip()]: a character is dropped when it is white space and
    everything after it has been dropped. *)
Fixpoint rstrip (s : string) : string :=
  match s with
  | EmptyString => EmptyString
  | String c s' =>
      match rstrip s' with
      | EmptyString =>
          if isspace py c then EmptyString else String c EmptyString
      | r => String c r
      end
  end.

(** [s.strip()] *)
Definition strip (s : string) : string := rstrip (lstrip s).

(** Every character of [s] is white space. *)
Fixpoint all_space (s : string) : bool :=
  match s with
  | EmptyString => true
  | String c s' => isspace py c && all_space s'
  end.

End Tables.

(** The tables on the 7-bit characters. White space is TAB, LF, VT, FF, CR,
    FS, GS, RS, US and space; the letters a to z have the upper-case forms A
    to Z and every other character is its own. *)
Definition seven_bit_isspace (c : ascii) : bool :=
  let n := nat_of_ascii c in
  (((9 <=? n) && (n <=? 13)) || ((28 <=? n) && (n <=? 32)))%nat.

Definition seven_bit_upper (c : ascii) : ascii :=
  let n := nat_of_ascii c in
  if ((97 <=? n) && (n <=? 122))%nat then ascii_of_nat (n - 32) else c.

(** Tables that know the 7-bit characters only: every other character is
    neither white space nor a letter. *)
Definition seven_bit : tables :=
  {| isspace := seven_bit_isspace;
     upper_char := fun c => String (seven_bit_upper c) EmptyString |}.

(** Tables that know two characters more, as the interpreter's know many
    more: character 160, the no-break space, is white space, and character
    253 stands for the dotless i, whose upper-case form is I. *)
Definition with_wide_characters : tables :=
  {| isspace := fun c => seven_bit_isspace c || Ascii.eqb c "160"%char;
     upper_char := fun c =>
       if Ascii.eqb c "253"%char then "I"
       else String (seven_bit_upper c) EmptyString |}.

(** What is assumed of the interpreter's tables: on the 7-bit characters
    they are the ones above, and a white-space character is its own
    upper-case form. Nothing is assumed of the case of the other
    characters. *)
Definition lawful (py : tables) : Prop :=
  (forall c, (nat_of_ascii c < 128)%nat ->
             isspace py c = seven_bit_isspace c) /\
  (forall c, (nat_of_ascii c < 128)%nat ->
             upper_char py c = String (seven_bit_upper c) EmptyString) /\
  (forall c, isspace py c = true -> upper_char py c = String c EmptyString).

(** [s.isascii()]: every character of [s] is a 7-bit character. *)
Fixpoint isascii (s : string) : bool :=
  match s with
  | EmptyString => true
  | String c s' => (nat_of_ascii c <? 128)%nat && isascii s'
  end.

(** [s.startswith(p)] *)
Fixpoint startswith (s p : string) {struct p} : bool :=
  match p, s with
  | EmptyString, _ => true
  | String _ _, EmptyString => false
  | String a p', String b s' => Ascii.eqb a b && startswith s' p'
  end.

(** [k in s] *)
Fixpoint contains (k s : string) : bool :=
  startswith s k ||
  match s with
  | EmptyString => false
  | String _ s' => contains k s'
  end.

(** [bool(s)] *)
Definition nonempty (s : string) : bool :=
  match s with
  | EmptyString => false
  | String _ _ => true
  end.

(** [sep.join(parts)] *)
Fixpoint join (sep : string) (parts : list string) : string :=
  match parts with
  | [] => EmptyString
  | [p] => p
  | p :: rest => p ++ sep ++ join sep rest
  end.

(** [str(n)] for an [int] *)
Definition of_Z (n : Z) : string := NilZero.string_of_int (Z.to_int n).

End PyStr.

(** ** Exceptions and state *)

(** An instance of [Exception]: its class and the text [str(e)] gives. *)
Record exn : Type := mk_exn { exn_class : string; exn_text : string }.

Inductive outcome (A : Type) : Type :=
| Ok (a : A)
| Raise (e : exn).

Arguments Raise {A} e.

(** A method over the attributes [S] of [self]. *)
Definition M (S A : Type) : Type := S -> outcome A * S.

Definition ret {S A : Type} (a : A) : M S A := fun s => (Ok a, s).

Definition bind {S A B : Type} (m : M S A) (k : A -> M S B) : M S B :=
  fun s =>
    match m s with
    | (Ok a, s') => k a s'
    | (Raise e, s') => (Raise e, s')
    end.

(** A call that reads or changes no attribute. *)
Definition lift {S A : Type} (o : outcome A) : M S A := fun s => (o, s).

(** [try: body except Exception as e: handler(e)] *)
Definition try_except {S A : Type} (body : M S A) (handler : exn -> M S A)
  : M S A :=
  fun s =>
    match body s with
    | (Ok a, s') => (Ok a, s')
    | (Raise e, s') => handler e s'
    end.

Notation "x <- m ;; k" := (bind m (fun x => k))
  (at level 61, m at next level, right associativity).

(** ** Values, keyword arguments and dictionaries *)

Inductive value : Type :=
| VNone
| VBool (b : bool)
| VStr (s : string)
| VInt (n : Z).

(** [bool(v)] *)
Definition truthy (v : value) : bool :=
  match v with
  | VNone => false
  | VBool b => b
  | VStr s => PyStr.nonempty s
  | VInt n => negb (n =? 0)%Z
  end.

(** [str(v)] *)
Definition py_str (v : value) : string :=
  match v with
  | VNone => "None"
  | VBool true => "True"
  | VBool false => "False"
  | VStr s => s
  | VInt n => PyStr.of_Z n
  end.

(** [v or d] *)
Definition py_or (v d : value) : value := if truthy v then v else d.

(** An [Optional[str]] argument as a value. *)
Definition of_optional (o : option string) : value :=
  match o with
  | None => VNone
  | Some s => VStr s
  end.

Definition dict : Type := list (string * value).

(** [d[k] = v]: an existing key keeps its place, a new key goes last. *)
Fixpoint dict_set (k : string) (v : value) (d : dict) : dict :=
  match d with
  | [] => [(k, v)]
  | (k', v') :: d' =>
      if String.eqb k' k then (k', v) :: d' else (k', v') :: dict_set k v d'
  end.

Fixpoint dict_lookup (k : string) (d : dict) : option value :=
  match d with
  | [] => None
  | (k', v') :: d' => if String.eqb k' k then Some v' else dict_lookup k d'
  end.

(** [d.get(k, default)] *)
Definition dict_get (k : string) (d : dict) (default : value) : value :=
  match dict_lookup k d with
  | Some v => v
  | None => default
  end.

(** [list(d.keys())] *)
Definition keys (d : dict) : list string := map fst d.

(** The keyword arguments of a call, in the order they are written. *)
Definition kwargs : Type := list (string * value).

(** The parameters of a [def] after [self]: the name and the default, [None]
    for a parameter without one. *)
Definition signature : Type := list (string * option value).

Definition has_param (sig : signature) (name : string) : bool :=
  existsb (fun p => String.eqb (fst p) name) sig.

(** The first keyword of the call that the signature does not have. *)
Definition unexpected_keyword (sig : signature) (kw : kwargs) : option string :=
  option_map fst (find (fun a => negb (has_param sig (fst a))) kw).

Definition TypeError (text : string) : exn := mk_exn "TypeError" text.
Definition IndexError (text : string) : exn := mk_exn "IndexError" text.
Definition ImportError (text : string) : exn := mk_exn "ImportError" text.

(** Each parameter gets the value passed for it or its default. *)
Fixpoint fill_params (qualname : string) (sig : signature) (kw : kwargs)
  : outcome dict :=
  match sig with
  | [] => Ok []
  | (name, default) :: sig' =>
      match dict_lookup name kw, default with
      | None, None =>
          Raise (TypeError (qualname
                   ++ "() missing 1 required positional argument: '"
                   ++ name ++ "'"))
      | Some v, _ | None, Some v =>
          match fill_params qualname sig' kw with
          | Raise e => Raise e
          | Ok args => Ok ((name, v) :: args)
          end
      end
  end.

(** Binding the keyword arguments of a call to a signature, which Python does
    before the body runs: a keyword outside the signature is a [TypeError]. *)
Definition bind_keywords (qualname : string) (sig : signature) (kw : kwargs)
  : outcome dict :=
  match unexpected_keyword sig kw with
  | Some k =>
      Raise (TypeError (qualname ++ "() got an unexpected keyword argument '"
                          ++ k ++ "'"))
  | None => fill_params qualname sig kw
  end.

(** ** csv_utils.py *)

(** The [csv] module's writer with [quoting=csv.QUOTE_ALL] and the default
    dialect: comma as delimiter, the double quote as quote character,
    [doublequote] on and CR LF as line terminator. [rec] is the record under
    construction. *)
Fixpoint join_append_data (field rec : string) : string :=
  match field with
  | EmptyString => rec
  | String c field' =>
      if Ascii.eqb c PyStr.dquote
      then join_append_data field'
             (rec ++ String PyStr.dquote (String PyStr.dquote EmptyString))
      else join_append_data field' (rec ++ String c EmptyString)
  end.

Definition join_append (field : string) (st : string * nat) : string * nat :=
  let '(rec, num_fields) := st in
  let rec := if (0 <? num_fields)%nat then rec ++ "," else rec in
  let rec := rec ++ String PyStr.dquote EmptyString in
  let rec := join_append_data field rec in
  let rec := rec ++ String PyStr.dquote EmptyString in
  (rec, S num_fields).

(** The text the writer gives a field: [None] is empty, a [str] is itself,
    anything else goes through [str()]. *)
Definition field_text (v : value) : string :=
  match v with
  | VNone => EmptyString
  | VStr s => s
  | _ => py_str v
  end.

Definition lineterminator : string :=
  String PyStr.CR (String PyStr.LF EmptyString).

(** [writer.writerow(fields)] onto the [StringIO] buffer [output]. *)
Definition writer_writerow (fields : list value) (output : string) : string :=
  let '(rec, _) :=
    fold_left (fun st f => join_append (field_text f) st) fields
      (EmptyString, 0%nat) in
  output ++ rec ++ lineterminator.

(** [DictWriter.writerow(rowdict)] with [extrasaction="ignore"] and the
    default [restval]. *)
Definition DictWriter_writerow (fieldnames : list string) (rowdict : dict)
    (output : string) : string :=
  writer_writerow
    (map (fun key => dict_get key rowdict (VStr EmptyString)) fieldnames)
    output.

(** [DictWriter.writeheader()]: the row [dict(zip(fieldnames, fieldnames))]. *)
Definition DictWriter_writeheader (fieldnames : list string) (output : string)
  : string :=
  writer_writerow (map VStr fieldnames) output.

Definition to_csv (rows : list dict) (columns : option (list string)) : string :=
  match rows with
  | [] => EmptyString
  | row0 :: _ =>
      let output := EmptyString in
      let columns :=
        match columns with
        | None => keys row0
        | Some cs => cs
        end in
      let output := DictWriter_writeheader columns output in
      fold_left (fun output row => DictWriter_writerow columns row output)
        rows output
  end.

(** A list built by appending one dictionary per row, where building a
    dictionary can raise. *)
Fixpoint collect {A : Type} (f : A -> outcome dict) (rows : list A)
  : outcome (list dict) :=
  match rows with
  | [] => Ok []
  | row :: rows' =>
      match f row with
      | Raise e => Raise e
      | Ok d =>
          match collect f rows' with
          | Raise e => Raise e
          | Ok ds => Ok (d :: ds)
          end
      end
  end.

(** The loop shared by [cursor_to_rows] and both [execute_query] methods:
    [row_dict[column_names[i]] = value] for each [i, value] of the row. *)
Fixpoint fill_row (column_names : list string) (i : nat) (row : list value)
    (row_dict : dict) : outcome dict :=
  match row with
  | [] => Ok row_dict
  | v :: row' =>
      match nth_error column_names i with
      | None => Raise (IndexError "list index out of range")
      | Some name => fill_row column_names (S i) row' (dict_set name v row_dict)
      end
  end.

Definition rows_to_dicts (column_names : list string)
    (rows : list (list value)) : outcome (list dict) :=
  collect (fun row => fill_row column_names 0 row []) rows.

(** ** The native drivers, as the connectors use them *)

(** What [cursor.execute] leaves on the cursor: the first component of each
    entry of [cursor.description] ([None] when the statement produced no
    result set) and the rows that iterating the cursor yields. *)
Record result_set : Type := {
  description : option (list string);
  fetched : list (list value)
}.

(** A row of pyodbc's [cursor.tables()]. *)
Record tables_row : Type := {
  table_cat : value;
  table_schem : value;
  table_name : value;
  table_type : value;
  remarks : value
}.

(** A row of pyodbc's [cursor.columns()]; [col_remarks] is [None] when the row
    has no attribute [remarks]. *)
Record columns_row : Type := {
  col_table_cat : value;
  col_table_schem : value;
  col_table_name : value;
  column_name : value;
  type_name : value;
  col_remarks : option value
}.

(** A live connection object: the outcome of each call the connectors make on
    it or on its cursor. *)
Record Connection : Type := {
  cursor : outcome unit;
  execute : string -> list value -> outcome result_set;
  fetchone : outcome unit;
  cursor_close : outcome unit;
  tables : value -> value -> outcome (list tables_row);
  columns : value -> value -> value -> outcome (list columns_row)
}.

(** A driver library: whether [import] finds it, and what its [connect]
    answers to the parameters of type [P]. *)
Record Driver (P : Type) : Type := {
  installed : bool;
  driver_connect : P -> outcome Connection
}.

(** [[desc[0] for desc in cursor.description]] *)
Definition column_names_of (rs : result_set) : outcome (list string) :=
  match description rs with
  | None => Raise (TypeError "'NoneType' object is not iterable")
  | Some names => Ok names
  end.

(** [row[i]] *)
Definition row_index (row : list value) (i : nat) : outcome value :=
  match nth_error row i with
  | None => Raise (IndexError "tuple index out of range")
  | Some v => Ok v
  end.

(** ** connectors/hana.py *)

Module HanaConnector.

Record self_t : Type := {
  host : string;
  port : Z;
  user : string;
  password : string;
  database_name : option string;
  encrypt : bool;
  ssl_validate : bool;
  _connection : option Connection;
  _last_error : option string
}.

Definition set_connection (c : option Connection) (self : self_t) : self_t :=
  {| host := host self; port := port self; user := user self;
     password := password self; database_name := database_name self;
     encrypt := encrypt self; ssl_validate := ssl_validate self;
     _connection := c; _last_error := _last_error self |}.

Definition set_last_error (m : option string) (self : self_t) : self_t :=
  {| host := host self; port := port self; user := user self;
     password := password self; database_name := database_name self;
     encrypt := encrypt self; ssl_validate := ssl_validate self;
     _connection := _connection self; _last_error := m |}.

(** [__init__] *)
Definition init (host : string) (port : Z) (user password : string)
    (database_name : option string) (encrypt ssl_validate : bool) : self_t :=
  {| host := host; port := port; user := user; password := password;
     database_name := database_name; encrypt := encrypt;
     ssl_validate := ssl_validate; _connection := None; _last_error := None |}.

Section Methods.

(** The interpreter's tables, which [search.upper()] reads, and the driver
    library. *)
Variable py : PyStr.tables.
Variable hdbcli : Driver kwargs.

Definition connect : M self_t Connection := fun self =>
  if negb (installed hdbcli) then
    (Raise (ImportError
       "hdbcli is required for HANA connections. Install with: pip install hdbcli"),
     self)
  else
    let connect_params :=
      [("address", VStr (host self)); ("port", VInt (port self));
       ("user", VStr (user self)); ("password", VStr (password self))] in
    let connect_params :=
      if truthy (of_optional (database_name self))
      then dict_set "databaseName" (of_optional (database_name self))
             connect_params
      else connect_params in
    let connect_params :=
      if encrypt self
      then dict_set "sslValidateCertificate" (VBool (ssl_validate self))
             (dict_set "encrypt" (VBool true) connect_params)
      else connect_params in
    match driver_connect hdbcli connect_params with
    | Raise e => (Raise e, self)
    | Ok c => (Ok c, set_connection (Some c) self)
    end.

Definition _get_connection : M self_t Connection := fun self =>
  match _connection self with
  | Some c => (Ok c, self)
  | None => connect self
  end.

Definition nl : string := String PyStr.LF EmptyString.

Definition quoted (s : string) : string :=
  String PyStr.dquote (s ++ String PyStr.dquote EmptyString).

Definition get_tables_signature : signature :=
  [("catalog", Some VNone); ("schema", Some VNone); ("search", Some VNone);
   ("limit", Some (VInt 50))].

Definition get_tables (kw : kwargs) : M self_t (list dict) :=
  args <- lift (bind_keywords "HanaConnector.get_tables"
                  get_tables_signature kw) ;;
  let schema := dict_get "schema" args VNone in
  let search := dict_get "search" args VNone in
  let limit := dict_get "limit" args VNone in
  conn <- _get_connection ;;
  _ <- lift (cursor conn) ;;
  let sql :=
    nl ++ "            SELECT" ++ nl ++
    "                SCHEMA_NAME as " ++ quoted "Schema" ++ "," ++ nl ++
    "                TABLE_NAME as " ++ quoted "Table" ++ "," ++ nl ++
    "                COMMENTS as " ++ quoted "Description" ++ nl ++
    "            FROM SYS.TABLES" ++ nl ++
    "            WHERE 1=1" ++ nl ++
    "        " in
  let params : list value := [] in
  let '(sql, params) :=
    if truthy schema
    then (sql ++ " AND SCHEMA_NAME = ?", (params ++ [schema])%list)
    else (sql, params) in
  let '(sql, params) :=
    if truthy search
    then (sql ++ " AND upper(TABLE_NAME) LIKE ?",
          (params
             ++ [VStr ("%" ++ PyStr.upper py (py_str search) ++ "%")])%list)
    else (sql, params) in
  let sql := sql ++ " ORDER BY SCHEMA_NAME, TABLE_NAME" in
  let sql := sql ++ " LIMIT " ++ py_str limit in
  rs <- lift (execute conn sql params) ;;
  tables <- lift (collect
    (fun row =>
       match row_index row 0, row_index row 1, row_index row 2 with
       | Ok r0, Ok r1, Ok r2 =>
           Ok [("Schema", r0); ("Table", r1);
               ("Description", py_or r2 (VStr EmptyString))]
       | Raise e, _, _ | _, Raise e, _ | _, _, Raise e => Raise e
       end)
    (fetched rs)) ;;
  _ <- lift (cursor_close conn) ;;
  ret tables.

Definition get_columns_signature : signature :=
  [("table", None); ("catalog", Some VNone); ("schema", Some VNone)].

Definition get_columns (kw : kwargs) : M self_t (list dict) :=
  args <- lift (bind_keywords "HanaConnector.get_columns"
                  get_columns_signature kw) ;;
  let table := dict_get "table" args VNone in
  let schema := dict_get "schema" args VNone in
  conn <- _get_connection ;;
  _ <- lift (cursor conn) ;;
  let sql :=
    nl ++ "            SELECT" ++ nl ++
    "                SCHEMA_NAME as " ++ quoted "Schema" ++ "," ++ nl ++
    "                TABLE_NAME as " ++ quoted "Table" ++ "," ++ nl ++
    "                COLUMN_NAME as " ++ quoted "Column" ++ "," ++ nl ++
    "                DATA_TYPE_NAME as " ++ quoted "DataType" ++ "," ++ nl ++
    "                COMMENTS as " ++ quoted "Description" ++ nl ++
    "            FROM SYS.TABLE_COLUMNS" ++ nl ++
    "            WHERE TABLE_NAME = ?" ++ nl ++
    "        " in
  let params := [table] in
  let '(sql, params) :=
    if truthy schema
    then (sql ++ " AND SCHEMA_NAME = ?", (params ++ [schema])%list)
    else (sql, params) in
  let sql := sql ++ " ORDER BY POSITION" in
  rs <- lift (execute conn sql params) ;;
  columns <- lift (collect
    (fun row =>
       match row_index row 0, row_index row 1, row_index row 2,
             row_index row 3, row_index row 4 with
       | Ok r0, Ok r1, Ok r2, Ok r3, Ok r4 =>
           Ok [("Schema", r0); ("Table", r1); ("Column", r2);
               ("DataType", r3);
               ("Description", py_or r4 (VStr EmptyString))]
       | Raise e, _, _, _, _ | _, Raise e, _, _, _ | _, _, Raise e, _, _
       | _, _, _, Raise e, _ | _, _, _, _, Raise e => Raise e
       end)
    (fetched rs)) ;;
  _ <- lift (cursor_close conn) ;;
  ret columns.

Definition execute_query (sql : string) : M self_t (list dict) :=
  conn <- _get_connection ;;
  _ <- lift (cursor conn) ;;
  rs <- lift (execute conn sql []) ;;
  column_names <- lift (column_names_of rs) ;;
  rows <- lift (rows_to_dicts column_names (fetched rs)) ;;
  _ <- lift (cursor_close conn) ;;
  ret rows.

(** The [try] block of [test_connection]. *)
Definition test_connection_try : M self_t bool :=
  conn <- _get_connection ;;
  _ <- lift (cursor conn) ;;
  _ <- lift (execute conn "SELECT 1 FROM DUMMY" []) ;;
  _ <- lift (fetchone conn) ;;
  _ <- lift (cursor_close conn) ;;
  ret true.

Definition test_connection : M self_t bool :=
  try_except test_connection_try
    (fun e self => (Ok false, set_last_error (Some (exn_text e)) self)).

End Methods.

(** [getattr(self, '_last_error', 'Unknown error')] *)
Definition get_last_error (self : self_t) : string :=
  match _last_error self with
  | Some m => m
  | None => "Unknown error"
  end.

End HanaConnector.

(** ** connectors/odbc.py *)

Module OdbcConnector.

Record self_t : Type := {
  connection_string : string;
  _connection : option Connection
}.

Definition set_connection (c : option Connection) (self : self_t) : self_t :=
  {| connection_string := connection_string self; _connection := c |}.

(** [__init__] *)
Definition init (connection_string : string) : self_t :=
  {| connection_string := connection_string; _connection := None |}.

Section Methods.

Variable pyodbc : Driver string.

Definition connect : M self_t Connection := fun self =>
  if negb (installed pyodbc) then
    (Raise (ImportError
       "pyodbc is required for ODBC connections. Install with: pip install pyodbc"),
     self)
  else
    match driver_connect pyodbc (connection_string self) with
    | Raise e => (Raise e, self)
    | Ok c => (Ok c, set_connection (Some c) self)
    end.

Definition _get_connection : M self_t Connection := fun self =>
  match _connection self with
  | Some c => (Ok c, self)
  | None => connect self
  end.

Definition get_tables_signature : signature :=
  [("catalog", Some VNone); ("schema", Some VNone)].

Definition get_tables (kw : kwargs) : M self_t (list dict) :=
  args <- lift (bind_keywords "OdbcConnector.get_tables"
                  get_tables_signature kw) ;;
  let catalog := dict_get "catalog" args VNone in
  let schema := dict_get "schema" args VNone in
  conn <- _get_connection ;;
  _ <- lift (cursor conn) ;;
  tables_cursor <- lift (tables conn catalog schema) ;;
  let tables :=
    map (fun row =>
           [("Catalog", py_or (table_cat row) (VStr EmptyString));
            ("Schema", py_or (table_schem row) (VStr EmptyString));
            ("Table", table_name row);
            ("Description", py_or (remarks row) (VStr EmptyString))])
      tables_cursor in
  _ <- lift (cursor_close conn) ;;
  ret tables.

Definition get_columns_signature : signature :=
  [("table", None); ("catalog", Some VNone); ("schema", Some VNone)].

Definition get_columns (kw : kwargs) : M self_t (list dict) :=
  args <- lift (bind_keywords "OdbcConnector.get_columns"
                  get_columns_signature kw) ;;
  let table := dict_get "table" args VNone in
  let catalog := dict_get "catalog" args VNone in
  let schema := dict_get "schema" args VNone in
  conn <- _get_connection ;;
  _ <- lift (cursor conn) ;;
  columns_cursor <- lift (columns conn table catalog schema) ;;
  let columns :=
    map (fun row =>
           [("Catalog", py_or (col_table_cat row) (VStr EmptyString));
            ("Schema", py_or (col_table_schem row) (VStr EmptyString));
            ("Table", col_table_name row);
            ("Column", column_name row);
            ("DataType", type_name row);
            ("Description",
             py_or (match col_remarks row with
                    | Some v => v
                    | None => VStr EmptyString
                    end) (VStr EmptyString))])
      columns_cursor in
  _ <- lift (cursor_close conn) ;;
  ret columns.

Definition execute_query (sql : string) : M self_t (list dict) :=
  conn <- _get_connection ;;
  _ <- lift (cursor conn) ;;
  rs <- lift (execute conn sql []) ;;
  column_names <- lift (column_names_of rs) ;;
  rows <- lift (rows_to_dicts column_names (fetched rs)) ;;
  _ <- lift (cursor_close conn) ;;
  ret rows.

(** The [try] block of [test_connection]. *)
Definition test_connection_try : M self_t bool :=
  conn <- _get_connection ;;
  _ <- lift (cursor conn) ;;
  _ <- lift (execute conn "SELECT 1" []) ;;
  _ <- lift (fetchone conn) ;;
  _ <- lift (cursor_close conn) ;;
  ret true.

Definition test_connection : M self_t bool :=
  try_except test_connection_try (fun _ => ret false).

End Methods.

End OdbcConnector.

(** ** connectors/base.py and the two variants behind it *)

Module BaseConnector.

(** The methods of a connector over its attributes [C]. [get_last_error] is
    [None] for a class without that method ([hasattr] is false). *)
Record t (C : Type) : Type := {
  get_tables : kwargs -> M C (list dict);
  get_columns : kwargs -> M C (list dict);
  execute_query : string -> M C (list dict);
  test_connection : M C bool;
  get_last_error : option (C -> string)
}.

End BaseConnector.

Definition hana_connector (py : PyStr.tables) (hdbcli : Driver kwargs)
  : BaseConnector.t HanaConnector.self_t :=
  {| BaseConnector.get_tables := HanaConnector.get_tables py hdbcli;
     BaseConnector.get_columns := HanaConnector.get_columns hdbcli;
     BaseConnector.execute_query := HanaConnector.execute_query hdbcli;
     BaseConnector.test_connection := HanaConnector.test_connection hdbcli;
     BaseConnector.get_last_error := Some HanaConnector.get_last_error |}.

Definition odbc_connector (pyodbc : Driver string)
  : BaseConnector.t OdbcConnector.self_t :=
  {| BaseConnector.get_tables := OdbcConnector.get_tables pyodbc;
     BaseConnector.get_columns := OdbcConnector.get_columns pyodbc;
     BaseConnector.execute_query := OdbcConnector.execute_query pyodbc;
     BaseConnector.test_connection := OdbcConnector.test_connection pyodbc;
     BaseConnector.get_last_error := None |}.

(** ** tools/get_tables.py, tools/get_columns.py, tools/run_query.py *)

Module Tools.

(** A call a handler makes on its connector, with the arguments passed. *)
Inductive call : Type :=
| get_tables_call (kw : kwargs)
| get_columns_call (kw : kwargs)
| execute_query_call (sql : string).

Section Handlers.

(** The interpreter's tables, which [sql.strip().upper()] reads. *)
Variable py : PyStr.tables.

Variable C : Type.
Variable connector : BaseConnector.t C.

(** The state a handler runs in: the connector's attributes and the log of the
    calls made on the connector so far. *)
Definition world : Type := (C * list call)%type.

(** A connector method called from a handler: the call is logged, whatever its
    outcome. *)
Definition invoke {A : Type} (ev : call) (m : M C A) : M world A :=
  fun w =>
    let '(r, c') := m (fst w) in
    (r, (c', (snd w ++ [ev])%list)).

Definition get_tables (catalog schema search : option string) (limit : Z)
  : M world string :=
  try_except
    (let kw := [("catalog", of_optional catalog);
                ("schema", of_optional schema);
                ("search", of_optional search);
                ("limit", VInt limit)] in
     tables <- invoke (get_tables_call kw)
                 (BaseConnector.get_tables connector kw) ;;
     match tables with
     | [] => ret "No tables found."
     | _ :: _ =>
         let columns : list string := [] in
         let columns :=
           if existsb (fun t => truthy (dict_get "Catalog" t VNone)) tables
           then (columns ++ ["Catalog"])%list else columns in
         let columns :=
           if existsb (fun t => truthy (dict_get "Schema" t VNone)) tables
           then (columns ++ ["Schema"])%list else columns in
         let columns := (columns ++ ["Table"; "Description"])%list in
         ret (to_csv tables (Some columns))
     end)
    (fun e => ret ("ERROR: " ++ exn_text e)).

Definition get_columns (table catalog schema : option string)
  : M world string :=
  match table with
  | None | Some EmptyString => ret "ERROR: table parameter is required"
  | Some table =>
      try_except
        (let kw := [("table", VStr table);
                    ("catalog", of_optional catalog);
                    ("schema", of_optional schema)] in
         columns <- invoke (get_columns_call kw)
                      (BaseConnector.get_columns connector kw) ;;
         match columns with
         | [] => ret ("No columns found for table: " ++ table)
         | _ :: _ =>
             let output_columns : list string := [] in
             let output_columns :=
               if existsb (fun c => truthy (dict_get "Catalog" c VNone)) columns
               then (output_columns ++ ["Catalog"])%list
               else output_columns in
             let output_columns :=
               if existsb (fun c => truthy (dict_get "Schema" c VNone)) columns
               then (output_columns ++ ["Schema"])%list
               else output_columns in
             let output_columns :=
               (output_columns
                  ++ ["Table"; "Column"; "DataType"; "Description"])%list in
             ret (to_csv columns (Some output_columns))
         end)
        (fun e => ret ("ERROR: " ++ exn_text e))
  end.

Definition dangerous_keywords : list string :=
  ["INSERT"; "UPDATE"; "DELETE"; "DROP"; "CREATE"; "ALTER"; "TRUNCATE"].

(** The [for keyword in dangerous_keywords] loop: the keyword it returns
    on, if any. *)
Fixpoint first_dangerous (keywords : list string) (sql_upper : string)
  : option string :=
  match keywords with
  | [] => None
  | keyword :: keywords' =>
      if PyStr.contains keyword sql_upper then Some keyword
      else first_dangerous keywords' sql_upper
  end.

Definition limit_note : string :=
  "Note: Query result limited to 50 rows for performance. Use explicit LIMIT to change this."
  ++ String PyStr.LF (String PyStr.LF EmptyString).

Definition run_query (sql : option string) : M world string :=
  match sql with
  | None | Some EmptyString => ret "ERROR: sql parameter is required"
  | Some sql =>
      let sql_upper := PyStr.upper py (PyStr.strip py sql) in
      if negb (PyStr.startswith sql_upper "SELECT") then
        ret "ERROR: Only SELECT statements are allowed"
      else
        match first_dangerous dangerous_keywords sql_upper with
        | Some keyword =>
            ret ("ERROR: " ++ keyword ++ " statements are not allowed")
        | None =>
            try_except
              (let limit_applied :=
                 negb (PyStr.contains "LIMIT" sql_upper)
                 && negb (PyStr.contains "TOP" sql_upper) in
               let sql := if limit_applied then sql ++ " LIMIT 50" else sql in
               rows <- invoke (execute_query_call sql)
                         (BaseConnector.execute_query connector sql) ;;
               match rows with
               | [] => ret "Query returned no results."
               | _ :: _ =>
                   let result_csv := to_csv rows None in
                   if limit_applied then ret (limit_note ++ result_csv)
                   else ret result_csv
               end)
              (fun e => ret ("ERROR: " ++ exn_text e))
        end
  end.

End Handlers.

End Tools.

(** ** The vocabulary of the specification *)

(** [s] begins with [p]. *)
Definition begins_with (s p : string) : Prop := exists rest, s = p ++ rest.

(** [k] occurs in [s] as a substring. *)
Definition substring (k s : string) : Prop := exists a b, s = a ++ k ++ b.

(** A field between quotes, each embedded double quote doubled. *)
Fixpoint double_quotes (s : string) : string :=
  match s with
  | EmptyString => EmptyString
  | String c s' =>
      if Ascii.eqb c PyStr.dquote
      then String PyStr.dquote (String PyStr.dquote (double_quotes s'))
      else String c (double_quotes s')
  end.

Definition quoted_field (s : string) : string :=
  String PyStr.dquote (double_quotes s ++ String PyStr.dquote EmptyString).

(** One line of output: the fields quoted, separated by commas, then the line
    terminator. *)
Definition csv_line (fields : list string) : string :=
  PyStr.join "," (map quoted_field fields) ++ lineterminator.

(** The fields of a row under the columns: the text of the value under each
    column, empty where the row has no such key. *)
Definition row_fields (columns : list string) (row : dict) : list string :=
  map (fun c =>
         match dict_lookup c row with
         | Some v => field_text v
         | None => EmptyString
         end)
    columns.

(** The value of the last pair under the key [k]. *)
Definition last_value (k : string) (pairs : list (string * value))
  : option value :=
  fold_left (fun acc p => if String.eqb (fst p) k then Some (snd p) else acc)
    pairs None.

(** The text of a response of run-query, given what the connector answered:
    [note] is what precedes the formatted table. *)
Definition query_response (note : string) (answer : outcome (list dict))
  : string :=
  match answer with
  | Raise e => "ERROR: " ++ exn_text e
  | Ok [] => "Query returned no results."
  | Ok rows => note ++ to_csv rows None
  end.

(** A word: no white space at either end, and not empty. *)
Definition word (py : PyStr.tables) (k : string) : Prop :=
  (exists c rest, k = String c rest /\ PyStr.isspace py c = false) /\
  (forall a q, k = a ++ q -> PyStr.all_space py q = true -> q = EmptyString).

(** The last character of [s] is white space. *)
Fixpoint ends_in_space (py : PyStr.tables) (s : string) : bool :=
  match s with
  | EmptyString => false
  | String c EmptyString => PyStr.isspace py c
  | String _ s' => ends_in_space py s'
  end.

(** [d[k] = v] for the pair [(k, v)]. *)
Definition set_pair (d : dict) (p : string * value) : dict :=
  dict_set (fst p) (snd p) d.

(** [dict(pairs)]: the pairs set one after the other into an empty dict. *)
Definition from_pairs (pairs : list (string * value)) : dict :=
  fold_left set_pair pairs [].

(** The fields after the first: each preceded by a comma. *)
Fixpoint more_fields (fields : list string) : string :=
  match fields with
  | [] => EmptyString
  | f :: fields' => "," ++ quoted_field f ++ more_fields fields'
  end.

(** The double quote as a string. *)
Definition q : string := String PyStr.dquote EmptyString.

(** The record [r] has a non-empty value under [k]: a value that Python
    takes as true, which for text is a string that is not empty. *)
Definition filled (k : string) (r : dict) : Prop :=
  exists v, dict_lookup k r = Some v /\ truthy v = true.

(** The optional columns a handler puts first. *)
Definition optional_columns (batch : list dict) : list string :=
  ((if existsb (fun r => truthy (dict_get "Catalog" r VNone)) batch
    then ["Catalog"] else []) ++
   (if existsb (fun r => truthy (dict_get "Schema" r VNone)) batch
    then ["Schema"] else []))%list.

(** ** Sample backends *)

Definition sample_result : result_set :=
  {| description := Some ["ItemCode"; "ItemName"];
     fetched := [[VStr "A001"; VStr "Bolt, M8"]; [VStr "A002"; VNone]] |}.

(** A result set two of whose columns have the same name. *)
Definition duplicate_result : result_set :=
  {| description := Some ["A"; "A"];
     fetched := [[VInt 1; VInt 2]] |}.

(** What the catalogue query of the vendor variant can return: schema,
    table and comment of two tables, the second without comment. *)
Definition sample_listing : result_set :=
  {| description := Some ["Schema"; "Table"; "Description"];
     fetched := [[VStr "SBODEMO"; VStr "OITM"; VStr "Items"];
                 [VStr "SBODEMO"; VStr "ORDR"; VNone]] |}.

Definition sample_connection (rs : result_set) : Connection :=
  {| cursor := Ok tt;
     execute := fun _ _ => Ok rs;
     fetchone := Ok tt;
     cursor_close := Ok tt;
     tables := fun _ _ =>
       Ok [ {| table_cat := VNone; table_schem := VStr "SBODEMO";
               table_name := VStr "OITM"; table_type := VStr "TABLE";
               remarks := VNone |} ];
     columns := fun _ _ _ => Ok [] |}.

Definition reachable (P : Type) (rs : result_set) : Driver P :=
  {| installed := true;
     driver_connect := fun _ => Ok (sample_connection rs) |}.

Definition connection_refused : exn :=
  mk_exn "Error" "Connection refused".

Definition unreachable (P : Type) : Driver P :=
  {| installed := true;
     driver_connect := fun _ => Raise connection_refused |}.

(** A backend that refuses with an exception whose text is empty. *)
Definition silent (P : Type) : Driver P :=
  {| installed := true;
     driver_connect := fun _ => Raise (mk_exn "Exception" EmptyString) |}.

Definition sample_hana : HanaConnector.self_t :=
  HanaConnector.init "hana.local" 30015 "SYSTEM" "secret" None false true.

Definition sample_odbc : OdbcConnector.self_t :=
  OdbcConnector.init "DSN=SBO".

(** A connector without attributes that answers every call with [answer]. *)
Definition fixed_connector (answer : outcome (list dict))
  : BaseConnector.t unit :=
  {| BaseConnector.get_tables := fun _ => lift answer;
     BaseConnector.get_columns := fun _ => lift answer;
     BaseConnector.execute_query := fun _ => lift answer;
     BaseConnector.test_connection := ret true;
     BaseConnector.get_last_error := None |}.

Definition sample_tables : list dict :=
  [ [("Schema", VStr "SBODEMO"); ("Table", VStr "OITM");
     ("Description", VStr "Items")];
    [("Schema", VStr "SBODEMO"); ("Table", VStr "ORDR");
     ("Description", VStr EmptyString)] ].

Definition start (C : Type) (c : C) : Tools.world C := (c, []).

(** ** csv_utils.py: cursors *)

(** [cursor_to_rows(cursor, column_names)]: the cursor is what a
    [result_set] holds of it. *)
Definition cursor_to_rows (cursor : result_set)
    (column_names : option (list string)) : outcome (list dict) :=
  match
    match column_names with
    | None => column_names_of cursor
    | Some names => Ok names
    end
  with
  | Raise e => Raise e
  | Ok column_names => rows_to_dicts column_names (fetched cursor)
  end.

(** The inner loop of [cursor_to_csv]:
    [renamed[display_name] = row.get(db_col)] for each pair of the mapping. *)
Definition rename_row (column_mapping : list (string * string)) (row : dict)
  : dict :=
  fold_left
    (fun renamed m => dict_set (snd m) (dict_get (fst m) row VNone) renamed)
    column_mapping [].

Definition cursor_to_csv (cursor : result_set)
    (column_mapping : option (list (string * string))) : outcome string :=
  match column_mapping with
  | Some (m :: ms) =>
      let column_mapping := m :: ms in
      let db_columns := map fst column_mapping in
      let display_names := map snd column_mapping in
      match cursor_to_rows cursor (Some db_columns) with
      | Raise e => Raise e
      | Ok rows =>
          let renamed_rows := map (rename_row column_mapping) rows in
          Ok (to_csv renamed_rows (Some display_names))
      end
  | Some [] | None =>
      match cursor_to_rows cursor None with
      | Raise e => Raise e
      | Ok rows => Ok (to_csv rows None)
      end
  end.

(** ** connectors/base.py: quote_identifier *)

(** [s.replace(old, new)] for a one-character [old]. *)
Fixpoint replace_char (old : ascii) (new s : string) : string :=
  match s with
  | EmptyString => EmptyString
  | String c s' =>
      if Ascii.eqb c old then new ++ replace_char old new s'
      else String c (replace_char old new s')
  end.

Definition quote_identifier (identifier : string) : string :=
  let escaped :=
    replace_char PyStr.dquote
      (String PyStr.dquote (String PyStr.dquote EmptyString)) identifier in
  String PyStr.dquote EmptyString ++ escaped ++ String PyStr.dquote EmptyString.

(** Reading back what follows an opening double quote: the text up to the
    closing quote, a doubled quote standing for one, and what follows the
    closing quote. *)
Fixpoint read_quoted (s : string) : option (string * string) :=
  match s with
  | EmptyString => None
  | String c s' =>
      if Ascii.eqb c PyStr.dquote then
        match s' with
        | String d s'' =>
            if Ascii.eqb d PyStr.dquote then
              match read_quoted s'' with
              | Some (text, rest) => Some (String PyStr.dquote text, rest)
              | None => None
              end
            else Some (EmptyString, s')
        | EmptyString => Some (EmptyString, EmptyString)
        end
      else
        match read_quoted s' with
        | Some (text, rest) => Some (String c text, rest)
        | None => None
        end
  end.

(** [s] does not start with a double quote. *)
Definition no_quote_ahead (s : string) : Prop :=
  forall rest, s <> String PyStr.dquote rest.

(** The columns [to_csv] writes for [rows]: those asked for, or the keys of
    the first row. *)
Definition header_of (rows : list dict) (columns : option (list string))
  : list string :=
  match columns, rows with
  | Some cs, _ => cs
  | None, row0 :: _ => keys row0
  | None, [] => []
  end.

(** The character [ch] occurs in [s]. *)
Fixpoint has_char (ch : ascii) (s : string) : bool :=
  match s with
  | EmptyString => false
  | String c s' => Ascii.eqb c ch || has_char ch s'
  end.

(** The statements run-query can send: [sql] itself or [sql] with the row
    cap, begun by SELECT once trimmed and upper-cased, without a denylisted
    word and with LIMIT or TOP in their upper-cased form. *)
Definition guarded (py : PyStr.tables) (sql statement : string) : Prop :=
  (statement = sql \/ statement = sql ++ " LIMIT 50") /\
  begins_with (PyStr.upper py (PyStr.strip py statement)) "SELECT" /\
  (forall k, In k Tools.dangerous_keywords ->
             ~ substring k (PyStr.upper py statement)) /\
  (substring "LIMIT" (PyStr.upper py statement) \/
   substring "TOP" (PyStr.upper py statement)).

(** The method [m], run at the attributes [s], leaves them as they are. *)
Definition keeps {S A : Type} (s : S) (m : M S A) : Prop := snd (m s) = s.

(** A driver library that is not installed. *)
Definition not_installed (P : Type) : Driver P :=
  {| installed := false;
     driver_connect := fun _ => Ok (sample_connection sample_result) |}.

(** How often the character [ch] occurs in [s]. *)
Fixpoint count_char (ch : ascii) (s : string) : nat :=
  match s with
  | EmptyString => 0
  | String c s' => (if Ascii.eqb c ch then 1 else 0) + count_char ch s'
  end.

(** The method [m] of the vendor variant has the statement [sql] executed
    with the parameters [params]: on a connector that holds a connection
    whose cursor opens, what [execute] raises for them is what [m] raises. *)
Definition hana_executes (m : Driver kwargs -> M HanaConnector.self_t (list dict))
    (sql : string) (params : list value) : Prop :=
  forall hdbcli self conn e,
    HanaConnector._connection self = Some conn ->
    cursor conn = Ok tt ->
    execute conn sql params = Raise e ->
    m hdbcli self = (Raise e, self).

(** A connection that refuses every statement, naming the statement and the
    number of parameters it was given. *)
Definition refusing_connection : Connection :=
  {| cursor := Ok tt;
     execute := fun sql params =>
       Raise (mk_exn "Error"
                (PyStr.of_Z (Z.of_nat (List.length params))
                   ++ " parameters for:" ++ sql));
     fetchone := Ok tt;
     cursor_close := Ok tt;
     tables := fun _ _ => Ok [];
     columns := fun _ _ _ => Ok [] |}.

(** ** config.py *)

(** The dataclasses of [config.py]. A field holds whatever value the
    configuration gave it: the annotations are not enforced. *)
Module ServerConfig.
Record t : Type := {
  name : value;
  prefix : value;
  version : value;
  http_port : value
}.
End ServerConfig.

Module HanaConnectorConfig.
Record t : Type := {
  type : value;
  host : value;
  port : value;
  user : value;
  password : value;
  database_name : value;
  encrypt : value;
  sslValidateCertificate : value
}.
End HanaConnectorConfig.

Module OdbcConnectorConfig.
Record t : Type := {
  type : value;
  connection_string : value
}.
End OdbcConnectorConfig.

Module Config.

Record t : Type := {
  server : ServerConfig.t;
  connector : dict;
  tables : list value;
  log_file : value
}.

Definition connector_type (self : t) : value :=
  dict_get "type" (connector self) (VStr "hana").

Definition get_hana_config (self : t) : HanaConnectorConfig.t :=
  {| HanaConnectorConfig.type := VStr "hana";
     HanaConnectorConfig.host :=
       dict_get "host" (connector self) (VStr EmptyString);
     HanaConnectorConfig.port := dict_get "port" (connector self) (VInt 30013);
     HanaConnectorConfig.user :=
       dict_get "user" (connector self) (VStr EmptyString);
     HanaConnectorConfig.password :=
       dict_get "password" (connector self) (VStr EmptyString);
     HanaConnectorConfig.database_name :=
       dict_get "database_name" (connector self) (VStr EmptyString);
     HanaConnectorConfig.encrypt :=
       dict_get "encrypt" (connector self) (VBool false);
     HanaConnectorConfig.sslValidateCertificate :=
       dict_get "sslValidateCertificate" (connector self) (VBool true) |}.

Definition get_odbc_config (self : t) : OdbcConnectorConfig.t :=
  {| OdbcConnectorConfig.type := VStr "odbc";
     OdbcConnectorConfig.connection_string :=
       dict_get "connection_string" (connector self) (VStr EmptyString) |}.

End Config.

(** [v == s] for a string literal [s]. *)
Definition eq_str (v : value) (s : string) : bool :=
  match v with
  | VStr t => String.eqb t s
  | _ => false
  end.

Definition validate_config (config : Config.t) : list string :=
  let errors : list string := [] in
  let errors :=
    if negb (truthy (ServerConfig.name (Config.server config)))
    then (errors ++ ["Server name is required"])%list else errors in
  let errors :=
    if negb (truthy (ServerConfig.prefix (Config.server config)))
    then (errors ++ ["Server prefix is required"])%list else errors in
  let connector_type := Config.connector_type config in
  if eq_str connector_type "hana" then
    let hana := Config.get_hana_config config in
    let errors :=
      if negb (truthy (HanaConnectorConfig.host hana))
      then (errors ++ ["HANA host is required"])%list else errors in
    let errors :=
      if negb (truthy (HanaConnectorConfig.user hana))
      then (errors ++ ["HANA user is required"])%list else errors in
    let errors :=
      if negb (truthy (HanaConnectorConfig.password hana))
      then (errors ++ ["HANA password is required"])%list else errors in
    errors
  else if eq_str connector_type "odbc" then
    let odbc := Config.get_odbc_config config in
    let errors :=
      if negb (truthy (OdbcConnectorConfig.connection_string odbc))
      then (errors ++ ["ODBC connection_string is required"])%list
      else errors in
    errors
  else
    (errors
       ++ [("Unknown connector type: " ++ py_str connector_type)%string])%list.

(** ** connectors/__init__.py *)

(** The constructor call [create_connector] makes, with the arguments it
    passes. *)
Inductive constructed : Type :=
| HanaConnector_call
    (host port user password database_name encrypt ssl_validate : value)
| OdbcConnector_call (connection_string : value).

Definition ValueError (text : string) : exn := mk_exn "ValueError" text.

Definition create_connector (config : Config.t) : outcome constructed :=
  let connector_type := Config.connector_type config in
  if eq_str connector_type "hana" then
    let hana_config := Config.get_hana_config config in
    Ok (HanaConnector_call
          (HanaConnectorConfig.host hana_config)
          (HanaConnectorConfig.port hana_config)
          (HanaConnectorConfig.user hana_config)
          (HanaConnectorConfig.password hana_config)
          (py_or (HanaConnectorConfig.database_name hana_config) VNone)
          (HanaConnectorConfig.encrypt hana_config)
          (HanaConnectorConfig.sslValidateCertificate hana_config))
  else if eq_str connector_type "odbc" then
    let odbc_config := Config.get_odbc_config config in
    Ok (OdbcConnector_call
          (OdbcConnectorConfig.connection_string odbc_config))
  else
    Raise (ValueError ("Unknown connector type: " ++ py_str connector_type)).

(** ** server.py: the connection test of create_server *)

Definition ConnectionError (text : string) : exn :=
  mk_exn "ConnectionError" text.

(** [create_server], from [if not connector.test_connection():] to the
    [raise ConnectionError(error_msg)]: the connector is the one just
    created, [hasattr(connector, 'get_last_error')] is whether the class has
    the accessor. *)
Definition test_connection_or_raise {C : Type} (connector : BaseConnector.t C)
  : M C unit :=
  ok <- BaseConnector.test_connection connector ;;
  if negb ok then
    fun c =>
      let error_msg := "Failed to connect to database." in
      let error_msg :=
        match BaseConnector.get_last_error connector with
        | Some get_last_error =>
            error_msg ++ String PyStr.LF "Details: " ++ get_last_error c
        | None => error_msg
        end in
      let error_msg :=
        error_msg
          ++ String PyStr.LF (String PyStr.LF "Please check your configuration.")
      in
      (Raise (ConnectionError error_msg), c)
  else ret tt.

(** ** close *)

(** [close] of both variants. [connection_close] is what the [close()] of
    the connection object answers; a connection object counts as true. *)
Definition hana_close (connection_close : Connection -> outcome unit)
  : M HanaConnector.self_t unit :=
  fun self =>
    match HanaConnector._connection self with
    | Some c =>
        match connection_close c with
        | Raise e => (Raise e, self)
        | Ok _ => (Ok tt, HanaConnector.set_connection None self)
        end
    | None => (Ok tt, self)
    end.

Definition odbc_close (connection_close : Connection -> outcome unit)
  : M OdbcConnector.self_t unit :=
  fun self =>
    match OdbcConnector._connection self with
    | Some c =>
        match connection_close c with
        | Raise e => (Raise e, self)
        | Ok _ => (Ok tt, OdbcConnector.set_connection None self)
        end
    | None => (Ok tt, self)
    end.

(* ================================================================== *)
(** * Properties *)

(** ** Python strings *)

Lemma startswith_begins_with (s p : string) :
  PyStr.startswith s p = true <-> begins_with s p.
Proof.
  revert s. induction p as [|a p IH]; intros s.
  - split; [intros _; now exists s | reflexivity].
  - destruct s as [|b s]; simpl.
    + split; [discriminate | intros [rest H]; discriminate H].
    + rewrite andb_true_iff, IH, Ascii.eqb_eq. split.
      * intros [-> [rest ->]]. now exists rest.
      * intros [rest H]. injection H as -> ->. split; [reflexivity | now exists rest].
Qed.

Lemma startswith_append (p rest : string) :
  PyStr.startswith (p ++ rest) p = true.
Proof. apply startswith_begins_with. now exists rest. Qed.

Lemma contains_unfold (k s : string) :
  PyStr.contains k s =
  PyStr.startswith s k ||
  match s with
  | EmptyString => false
  | String _ s' => PyStr.contains k s'
  end.
Proof. destruct s; reflexivity. Qed.

Lemma contains_substring (k s : string) :
  PyStr.contains k s = true <-> substring k s.
Proof.
  split.
  - induction s as [|c s IH]; rewrite contains_unfold, orb_true_iff.
    + intros [H | H]; [|discriminate].
      apply startswith_begins_with in H. destruct H as [rest ->].
      now exists EmptyString, rest.
    + intros [H | H].
      * apply startswith_begins_with in H. destruct H as [rest ->].
        now exists EmptyString, rest.
      * destruct (IH H) as (a & b & ->). now exists (String c a), b.
  - intros (a & b & ->). induction a as [|c a IH].
    + rewrite contains_unfold. simpl. now rewrite startswith_append.
    + change (String c a ++ k ++ b) with (String c (a ++ k ++ b)).
      rewrite contains_unfold, IH. apply orb_true_r.
Qed.

Lemma contains_false_iff (k s : string) :
  PyStr.contains k s = false <-> ~ substring k s.
Proof.
  rewrite <- contains_substring. destruct (PyStr.contains k s); split;
    intros H; try reflexivity; try discriminate; try congruence.
Qed.

Lemma lstrip_all_space (py : PyStr.tables) (s : string) :
  PyStr.all_space py s = true -> PyStr.lstrip py s = EmptyString.
Proof.
  induction s as [|c s IH]; [reflexivity|].
  cbn [PyStr.all_space PyStr.lstrip]. rewrite andb_true_iff.
  intros [-> H]. now apply IH.
Qed.

Lemma strip_all_space (py : PyStr.tables) (s : string) :
  PyStr.all_space py s = true -> PyStr.strip py s = EmptyString.
Proof.
  intros H. unfold PyStr.strip. now rewrite lstrip_all_space.
Qed.

(** ** The guards of run-query *)

Lemma first_dangerous_none (keywords : list string) (sql_upper : string) :
  Tools.first_dangerous keywords sql_upper = None <->
  (forall k, In k keywords -> ~ substring k sql_upper).
Proof.
  induction keywords as [|k0 ks IH]; simpl.
  - split; [intros _ k [] | reflexivity].
  - destruct (PyStr.contains k0 sql_upper) eqn:E.
    + split; [discriminate|]. intros H. exfalso.
      apply (H k0); [now left | now apply contains_substring].
    + rewrite IH. split.
      * intros H k [<- | Hk]; [now apply contains_false_iff | now apply H].
      * intros H k Hk. apply H. now right.
Qed.

Lemma first_dangerous_some (keywords : list string) (sql_upper keyword : string) :
  Tools.first_dangerous keywords sql_upper = Some keyword <->
  exists before after,
    keywords = (before ++ keyword :: after)%list /\
    substring keyword sql_upper /\
    (forall k, In k before -> ~ substring k sql_upper).
Proof.
  induction keywords as [|k0 ks IH]; simpl.
  - split; [discriminate|]. intros (before & after & H & _).
    now destruct before.
  - destruct (PyStr.contains k0 sql_upper) eqn:E.
    + split.
      * intros [= <-]. exists [], ks. repeat split.
        -- now apply contains_substring.
        -- intros k [].
      * intros (before & after & H & Hk & Hb).
        destruct before as [|b before]; simpl in H; injection H as H1 H2.
        -- now rewrite H1.
        -- exfalso. apply (Hb k0); [now left | now apply contains_substring].
    + rewrite IH. split.
      * intros (before & after & -> & Hk & Hb).
        exists (k0 :: before), after. repeat split; [assumption|].
        intros k [<- | Hin]; [now apply contains_false_iff | now apply Hb].
      * intros (before & after & H & Hk & Hb).
        destruct before as [|b before]; simpl in H; injection H as H1 H2.
        -- apply contains_false_iff in E. rewrite H1 in E. contradiction.
        -- exists before, after. repeat split; [assumption..|].
           intros k Hin. apply Hb. now right.
Qed.

Lemma first_dangerous_in (keywords : list string) (sql_upper keyword : string) :
  Tools.first_dangerous keywords sql_upper = Some keyword -> In keyword keywords.
Proof.
  intros H. apply first_dangerous_some in H.
  destruct H as (before & after & -> & _). apply in_elt.
Qed.

Section RunQuery.

Variable py : PyStr.tables.
Variable C : Type.
Variable connector : BaseConnector.t C.

(** What run-query does with a statement that passes both guards. *)
Lemma run_query_dispatch (sql : string) (w : Tools.world C) :
  let sql_upper := PyStr.upper py (PyStr.strip py sql) in
  let limit_applied :=
    negb (PyStr.contains "LIMIT" sql_upper)
    && negb (PyStr.contains "TOP" sql_upper) in
  let sent := if limit_applied then sql ++ " LIMIT 50" else sql in
  let answer := BaseConnector.execute_query connector sent (fst w) in
  PyStr.startswith sql_upper "SELECT" = true ->
  Tools.first_dangerous Tools.dangerous_keywords sql_upper = None ->
  Tools.run_query py connector (Some sql) w =
  (Ok (query_response (if limit_applied then Tools.limit_note else EmptyString)
         (fst answer)),
   (snd answer, (snd w ++ [Tools.execute_query_call sent])%list)).
Proof.
  intros sql_upper limit_applied sent answer Hsel Hkw.
  destruct sql as [|c s]; [discriminate Hsel|].
  unfold Tools.run_query. fold sql_upper. rewrite Hsel, Hkw.
  change (negb true) with false. cbv iota.
  subst answer sent limit_applied.
  destruct (negb (PyStr.contains "LIMIT" sql_upper)
            && negb (PyStr.contains "TOP" sql_upper));
    unfold try_except, bind, Tools.invoke;
    destruct (BaseConnector.execute_query connector _ (fst w))
      as [[[|row rows]|e] c'];
    reflexivity.
Qed.

End RunQuery.

Lemma run_query_rejects_keyword (py : PyStr.tables) (C : Type)
    (connector : BaseConnector.t C)
    (sql keyword : string) (w : Tools.world C) :
  PyStr.startswith (PyStr.upper py (PyStr.strip py sql)) "SELECT" = true ->
  Tools.first_dangerous Tools.dangerous_keywords
    (PyStr.upper py (PyStr.strip py sql)) = Some keyword ->
  Tools.run_query py connector (Some sql) w =
  (Ok ("ERROR: " ++ keyword ++ " statements are not allowed"), w).
Proof.
  intros Hsel Hkw. destruct sql as [|c s]; [discriminate Hsel|].
  unfold Tools.run_query. now rewrite Hsel, Hkw.
Qed.

Lemma run_query_rejects_non_select (py : PyStr.tables) (C : Type)
    (connector : BaseConnector.t C)
    (sql : string) (w : Tools.world C) :
  sql <> EmptyString ->
  PyStr.startswith (PyStr.upper py (PyStr.strip py sql)) "SELECT" = false ->
  Tools.run_query py connector (Some sql) w =
  (Ok "ERROR: Only SELECT statements are allowed", w).
Proof.
  intros Hne Hsel. destruct sql as [|c s]; [contradiction|].
  unfold Tools.run_query. now rewrite Hsel.
Qed.

(** C1 (amended). For every non-empty [sql] whose trimmed, upper-cased form
    does not begin with SELECT, run-query answers exactly
    [ERROR: Only SELECT statements are allowed], whatever else the statement
    contains, and the connector is not called. For every [sql] whose trimmed,
    upper-cased form begins with SELECT and contains one of INSERT, UPDATE,
    DELETE, DROP, CREATE, ALTER, TRUNCATE, the answer is
    [ERROR: <keyword> statements are not allowed] for the first keyword of
    that list that occurs in it, and the connector is not called. The
    trimmed, upper-cased form is [sql.strip().upper()] under the
    interpreter's tables [py], whatever they are. *)
Theorem run_query_statement_guards (py : PyStr.tables) :
  forall (C : Type) (connector : BaseConnector.t C) (sql : string)
         (w : Tools.world C),
    let sql_upper := PyStr.upper py (PyStr.strip py sql) in
    (sql <> EmptyString ->
     ~ begins_with sql_upper "SELECT" ->
     Tools.run_query py connector (Some sql) w =
     (Ok "ERROR: Only SELECT statements are allowed", w)) /\
    (begins_with sql_upper "SELECT" ->
     (exists k, In k Tools.dangerous_keywords /\ substring k sql_upper) ->
     exists before keyword after,
       Tools.dangerous_keywords = (before ++ keyword :: after)%list /\
       substring keyword sql_upper /\
       (forall k, In k before -> ~ substring k sql_upper) /\
       Tools.run_query py connector (Some sql) w =
       (Ok ("ERROR: " ++ keyword ++ " statements are not allowed"), w)).
Proof.
  intros C connector sql w sql_upper. split.
  - intros Hne Hsel. apply run_query_rejects_non_select; [assumption|].
    fold sql_upper. destruct (PyStr.startswith sql_upper "SELECT") eqn:E;
      [|reflexivity].
    apply startswith_begins_with in E. contradiction.
  - intros Hsel (k & Hin & Hk).
    apply startswith_begins_with in Hsel.
    destruct (Tools.first_dangerous Tools.dangerous_keywords sql_upper)
      as [keyword|] eqn:E.
    + pose proof E as E'. apply first_dangerous_some in E'.
      destruct E' as (before & after & Hsplit & Hkw & Hbefore).
      exists before, keyword, after. repeat split; try assumption.
      now apply run_query_rejects_keyword.
    + exfalso. rewrite first_dangerous_none in E. now apply (E k).
Qed.

(** The two statements the specification gives as examples of C1. *)
Lemma run_query_statement_guards_witness :
  Tools.run_query PyStr.seven_bit (fixed_connector (Ok sample_tables))
    (Some "DROP TABLE X") (start tt) =
  (Ok "ERROR: Only SELECT statements are allowed", start tt) /\
  exists before keyword after,
    Tools.dangerous_keywords = (before ++ keyword :: after)%list /\
    substring keyword
      (PyStr.upper PyStr.seven_bit
         (PyStr.strip PyStr.seven_bit "SELECT * FROM T; DELETE FROM T")) /\
    (forall k, In k before ->
       ~ substring k
           (PyStr.upper PyStr.seven_bit
              (PyStr.strip PyStr.seven_bit
                 "SELECT * FROM T; DELETE FROM T"))) /\
    Tools.run_query PyStr.seven_bit (fixed_connector (Ok sample_tables))
      (Some "SELECT * FROM T; DELETE FROM T") (start tt) =
    (Ok ("ERROR: " ++ keyword ++ " statements are not allowed"), start tt).
Proof.
  split.
  - apply (proj1 (run_query_statement_guards PyStr.seven_bit
                    (fixed_connector (Ok sample_tables))
                    "DROP TABLE X" (start tt))).
    + discriminate.
    + intros [rest H]. vm_compute in H. discriminate H.
  - apply (proj2 (run_query_statement_guards PyStr.seven_bit
                    (fixed_connector (Ok sample_tables))
                    "SELECT * FROM T; DELETE FROM T" (start tt))).
    + exists " * FROM T; DELETE FROM T". reflexivity.
    + exists "DELETE". split.
      * simpl. tauto.
      * exists "SELECT * FROM T; ", " FROM T". reflexivity.
Defined.

(** C1 as stated fails at the empty statement: its trimmed, upper-cased form
    does not begin with SELECT, and the answer is the missing-parameter
    error. *)
Lemma run_query_empty_sql_not_select_error :
  ~ begins_with
      (PyStr.upper PyStr.seven_bit (PyStr.strip PyStr.seven_bit EmptyString))
      "SELECT" /\
  Tools.run_query PyStr.seven_bit (fixed_connector (Ok sample_tables))
    (Some EmptyString) (start tt) =
  (Ok "ERROR: sql parameter is required", start tt) /\
  Tools.run_query PyStr.seven_bit (fixed_connector (Ok sample_tables))
    (Some EmptyString) (start tt) <>
  (Ok "ERROR: Only SELECT statements are allowed", start tt).
Proof.
  split; [|split].
  - intros [rest H]. discriminate H.
  - reflexivity.
  - discriminate.
Qed.

(** C9. When the table argument of list-columns is missing ([None]) or empty
    the answer is exactly [ERROR: table parameter is required]; when the sql
    argument of run-query is missing or empty the answer is exactly
    [ERROR: sql parameter is required]. In both cases the connector is not
    called: its attributes and the log of calls are as before. *)
Theorem required_argument_checked_first (py : PyStr.tables) :
  forall (C : Type) (connector : BaseConnector.t C)
         (catalog schema : option string) (w : Tools.world C),
    Tools.get_columns connector None catalog schema w =
    (Ok "ERROR: table parameter is required", w) /\
    Tools.get_columns connector (Some EmptyString) catalog schema w =
    (Ok "ERROR: table parameter is required", w) /\
    Tools.run_query py connector None w =
    (Ok "ERROR: sql parameter is required", w) /\
    Tools.run_query py connector (Some EmptyString) w =
    (Ok "ERROR: sql parameter is required", w).
Proof.
  intros C connector catalog schema w.
  unfold Tools.get_columns, Tools.run_query, ret.
  repeat split.
Qed.

Lemma log_grows (A : Type) (l : list A) (x : A) : (l ++ [x])%list <> l.
Proof.
  intros H. apply (f_equal (@List.length A)) in H.
  rewrite length_app in H. simpl in H. lia.
Qed.

(** C10. A non-empty [sql] made of white space only, by whatever the
    interpreter's tables [py] take as white space, is answered with
    [ERROR: Only SELECT statements are allowed]; and the handler returns the
    missing-parameter error of its first check, without calling the
    connector, exactly when [sql] is the empty string. *)
Theorem run_query_whitespace_sql (py : PyStr.tables) :
  forall (C : Type) (connector : BaseConnector.t C) (sql : string)
         (w : Tools.world C),
    (sql <> EmptyString ->
     PyStr.all_space py sql = true ->
     Tools.run_query py connector (Some sql) w =
     (Ok "ERROR: Only SELECT statements are allowed", w)) /\
    (Tools.run_query py connector (Some sql) w =
     (Ok "ERROR: sql parameter is required", w) <->
     sql = EmptyString).
Proof.
  intros C connector sql w. split.
  - intros Hne Hsp. apply run_query_rejects_non_select; [assumption|].
    now rewrite strip_all_space.
  - split; [|now intros ->].
    intros H. destruct sql as [|c s]; [reflexivity|]. exfalso.
    set (sql := String c s) in *.
    destruct (PyStr.startswith (PyStr.upper py (PyStr.strip py sql)) "SELECT")
      eqn:Hsel.
    + destruct (Tools.first_dangerous Tools.dangerous_keywords
                  (PyStr.upper py (PyStr.strip py sql))) as [keyword|] eqn:Hkw.
      * rewrite (run_query_rejects_keyword _ _ _ _ Hsel Hkw) in H.
        apply first_dangerous_in in Hkw. simpl in Hkw.
        repeat (destruct Hkw as [<- | Hkw]; [discriminate H|]).
        contradiction.
      * rewrite (run_query_dispatch _ _ _ _ Hsel Hkw) in H.
        apply (f_equal (fun r => snd (snd r))) in H. simpl in H.
        now apply log_grows in H.
    + rewrite run_query_rejects_non_select in H;
        [discriminate H | discriminate | assumption].
Qed.

Lemma run_query_whitespace_sql_witness :
  Tools.run_query PyStr.seven_bit (fixed_connector (Ok sample_tables))
    (Some (String PyStr.LF "   ")) (start tt) =
  (Ok "ERROR: Only SELECT statements are allowed", start tt).
Proof.
  apply (proj1 (run_query_whitespace_sql PyStr.seven_bit
                  (fixed_connector (Ok sample_tables))
                  (String PyStr.LF "   ") (start tt))).
  - discriminate.
  - reflexivity.
Defined.

(** ** Trimming does not change which words a statement contains *)

Lemma append_assoc (a b c : string) : (a ++ b) ++ c = a ++ b ++ c.
Proof. induction a as [|x a IH]; simpl; [reflexivity | now rewrite IH]. Qed.

Lemma append_empty_r (a : string) : a ++ EmptyString = a.
Proof. induction a as [|x a IH]; simpl; [reflexivity | now rewrite IH]. Qed.

Lemma upper_append (py : PyStr.tables) (a b : string) :
  PyStr.upper py (a ++ b) = PyStr.upper py a ++ PyStr.upper py b.
Proof.
  induction a as [|c a IH]; simpl; [reflexivity|].
  now rewrite IH, append_assoc.
Qed.

(** The 7-bit tables are lawful. *)
Lemma lawful_seven_bit : PyStr.lawful PyStr.seven_bit.
Proof.
  split; [|split].
  - reflexivity.
  - reflexivity.
  - intros c. destruct c as [[] [] [] [] [] [] [] []];
      solve [reflexivity | discriminate].
Qed.

(** White space is its own upper-case form. *)
Lemma upper_all_space (py : PyStr.tables) (s : string) :
  PyStr.lawful py -> PyStr.all_space py s = true -> PyStr.upper py s = s.
Proof.
  intros (_ & _ & Hspace). induction s as [|c s IH]; [reflexivity|].
  simpl. intros H. apply andb_true_iff in H. destruct H as [Hc Hs].
  now rewrite (Hspace c Hc), IH.
Qed.

Lemma all_space_append (py : PyStr.tables) (a b : string) :
  PyStr.all_space py (a ++ b) = PyStr.all_space py a && PyStr.all_space py b.
Proof.
  induction a as [|c a IH]; simpl; [reflexivity|].
  now rewrite IH, andb_assoc.
Qed.

Lemma lstrip_split (py : PyStr.tables) (s : string) :
  exists pre, s = pre ++ PyStr.lstrip py s /\ PyStr.all_space py pre = true.
Proof.
  induction s as [|c s (pre & H & Hpre)].
  - now exists EmptyString.
  - simpl. destruct (PyStr.isspace py c) eqn:E.
    + exists (String c pre). simpl. rewrite E, Hpre. split; [now f_equal | reflexivity].
    + now exists EmptyString.
Qed.

Lemma rstrip_split (py : PyStr.tables) (s : string) :
  exists post, s = PyStr.rstrip py s ++ post /\ PyStr.all_space py post = true.
Proof.
  induction s as [|c s (post & H & Hpost)].
  - now exists EmptyString.
  - simpl. destruct (PyStr.rstrip py s) as [|d r] eqn:E.
    + simpl in H. destruct (PyStr.isspace py c) eqn:Ec.
      * exists (String c post). simpl. rewrite Ec, Hpost.
        split; [now f_equal | reflexivity].
      * exists post. simpl. split; [now f_equal | assumption].
    + exists post. split; [|assumption].
      change (String c (String d r) ++ post)
        with (String c (String d r ++ post)). now f_equal.
Qed.

Lemma strip_split (py : PyStr.tables) (s : string) :
  exists pre post,
    s = pre ++ PyStr.strip py s ++ post /\
    PyStr.all_space py pre = true /\ PyStr.all_space py post = true.
Proof.
  destruct (lstrip_split py s) as (pre & H1 & Hpre).
  destruct (rstrip_split py (PyStr.lstrip py s)) as (post & H2 & Hpost).
  exists pre, post. unfold PyStr.strip. now rewrite <- H2.
Qed.

Lemma append_split (t q k rest : string) :
  t ++ q = k ++ rest ->
  (exists u, t = k ++ u) \/
  (exists q1 c, k = t ++ String c q1 /\ q = String c q1 ++ rest).
Proof.
  revert k. induction t as [|x t IH]; intros k H.
  - destruct k as [|c k].
    + left. now exists EmptyString.
    + right. exists k, c. simpl in *. now split.
  - destruct k as [|c k].
    + left. now exists (String x t).
    + simpl in H. injection H as -> H. destruct (IH _ H) as [[u ->] | (q1 & d & -> & ->)].
      * left. now exists u.
      * right. now exists q1, d.
Qed.

Lemma substring_drop_space_left (py : PyStr.tables) (k pre t : string) :
  word py k -> PyStr.all_space py pre = true ->
  substring k (pre ++ t) -> substring k t.
Proof.
  intros [(c & rest & -> & Hc) _] Hpre. induction pre as [|p pre IH].
  - trivial.
  - simpl in Hpre. apply andb_true_iff in Hpre. destruct Hpre as [Hp Hpre].
    intros H. apply IH; [assumption|]. apply contains_substring in H.
    apply contains_substring.
    change (String p pre ++ t) with (String p (pre ++ t)) in H.
    rewrite contains_unfold in H. apply orb_true_iff in H.
    destruct H as [H | H]; [|assumption].
    simpl in H. apply andb_true_iff in H. destruct H as [H _].
    apply Ascii.eqb_eq in H. congruence.
Qed.

Lemma substring_drop_space_right (py : PyStr.tables) (k t post : string) :
  word py k -> PyStr.all_space py post = true ->
  substring k (t ++ post) -> substring k t.
Proof.
  intros Hw Hpost (a & b & H).
  assert (Hk : PyStr.all_space py k = false).
  { destruct Hw as [(c & rest & -> & Hc) _]. simpl. now rewrite Hc. }
  destruct (append_split _ _ _ _ H) as [[u ->] | (q1 & c & -> & ->)].
  - (* the occurrence starts inside [t] *)
    assert (H' : u ++ post = k ++ b).
    { clear -H. induction a as [|x a IH]; simpl in H; [assumption|].
      injection H as H. now apply IH. }
    destruct (append_split _ _ _ _ H') as [[v ->] | (q1 & c & -> & ->)].
    + now exists a, v.
    + exfalso. destruct Hw as [_ Hw].
      rewrite all_space_append in Hpost. apply andb_true_iff in Hpost.
      destruct Hpost as [Hpost _].
      specialize (Hw u (String c q1) eq_refl Hpost). discriminate Hw.
  - (* the occurrence starts after [t]: it lies in the white space *)
    exfalso.
    change (String c q1 ++ k ++ b) with (String c (q1 ++ k ++ b)) in Hpost.
    simpl in Hpost. rewrite all_space_append, all_space_append, Hk in Hpost.
    rewrite andb_false_r, andb_false_r in Hpost. discriminate Hpost.
Qed.

Lemma substring_extend (k pre t post : string) :
  substring k t -> substring k (pre ++ t ++ post).
Proof.
  intros (a & b & ->). exists (pre ++ a), (b ++ post).
  now rewrite !append_assoc.
Qed.

Lemma ends_in_space_all_space (py : PyStr.tables) (q : string) :
  q <> EmptyString -> PyStr.all_space py q = true -> ends_in_space py q = true.
Proof.
  induction q as [|c q IH]; [congruence|]. intros _ H.
  simpl in H. apply andb_true_iff in H. destruct H as [Hc Hq].
  destruct q as [|d q]; [exact Hc|]. apply IH; [discriminate | assumption].
Qed.

Lemma ends_in_space_append (py : PyStr.tables) (a q : string) :
  q <> EmptyString -> ends_in_space py (a ++ q) = ends_in_space py q.
Proof.
  intros Hq. induction a as [|x a IH]; [reflexivity|].
  change (String x a ++ q) with (String x (a ++ q)).
  destruct (a ++ q) as [|d r] eqn:E.
  - destruct a; [simpl in E; contradiction | discriminate E].
  - exact IH.
Qed.

Lemma word_intro (py : PyStr.tables) (c : ascii) (rest : string) :
  PyStr.isspace py c = false ->
  ends_in_space py (String c rest) = false ->
  word py (String c rest).
Proof.
  intros Hc Hend. split; [now exists c, rest|].
  intros a q H Hq. destruct q as [|d q]; [reflexivity|]. exfalso.
  rewrite H, ends_in_space_append in Hend by discriminate.
  rewrite ends_in_space_all_space in Hend; [discriminate | discriminate | assumption].
Qed.

(** A word occurs in the trimmed, upper-cased statement exactly when it
    occurs in the upper-cased statement. *)
Lemma substring_upper_strip (py : PyStr.tables) (k s : string) :
  PyStr.lawful py ->
  word py k ->
  substring k (PyStr.upper py (PyStr.strip py s)) <->
  substring k (PyStr.upper py s).
Proof.
  intros Hpy Hw. destruct (strip_split py s) as (pre & post & H & Hpre & Hpost).
  assert (Hs : PyStr.upper py s =
               pre ++ PyStr.upper py (PyStr.strip py s) ++ post).
  { rewrite H at 1. rewrite !upper_append.
    now rewrite (upper_all_space pre Hpy Hpre), (upper_all_space post Hpy Hpost). }
  rewrite Hs. split.
  - apply substring_extend.
  - intros Hk.
    apply substring_drop_space_right with (py := py) (post := post);
      [assumption | assumption |].
    apply substring_drop_space_left with (py := py) (pre := pre);
      [assumption | assumption | assumption].
Qed.

(** On a 7-bit character lawful tables are the 7-bit tables. *)
Lemma lawful_isspace (py : PyStr.tables) (c : ascii) :
  PyStr.lawful py -> (nat_of_ascii c <? 128)%nat = true ->
  PyStr.isspace py c = PyStr.seven_bit_isspace c.
Proof. intros (H & _) Hc. apply H. now apply Nat.ltb_lt. Qed.

Lemma lawful_upper_char (py : PyStr.tables) (c : ascii) :
  PyStr.lawful py -> (nat_of_ascii c <? 128)%nat = true ->
  PyStr.upper_char py c = String (PyStr.seven_bit_upper c) EmptyString.
Proof. intros (_ & H & _) Hc. apply H. now apply Nat.ltb_lt. Qed.

Lemma word_LIMIT (py : PyStr.tables) : PyStr.lawful py -> word py "LIMIT".
Proof.
  intros Hpy. apply word_intro; cbn [ends_in_space];
    rewrite lawful_isspace by (assumption || reflexivity); reflexivity.
Qed.

Lemma word_TOP (py : PyStr.tables) : PyStr.lawful py -> word py "TOP".
Proof.
  intros Hpy. apply word_intro; cbn [ends_in_space];
    rewrite lawful_isspace by (assumption || reflexivity); reflexivity.
Qed.

(** ** The row cap of run-query *)

(** C2. For every [sql] that passes the SELECT-prefix and the denylist guards:
    when its upper-cased form contains neither LIMIT nor TOP, the one call
    made on the connector is [execute_query] with exactly [sql] followed by
    [ LIMIT 50], and on a non-empty row set the response is the row-cap note,
    a blank line, then the formatted table; when LIMIT or TOP does occur, the
    call is made with [sql] unchanged and the response on a non-empty row set
    is the formatted table alone. The guards are the handler's own, on the
    trimmed and upper-cased statement, with the interpreter's tables [py];
    the test for LIMIT and TOP is stated on the upper-cased statement, which
    comes to the same for lawful tables: white space has no case, and L, T
    and P are not white space. *)
Theorem run_query_row_cap (py : PyStr.tables) :
  PyStr.lawful py ->
  forall (C : Type) (connector : BaseConnector.t C) (sql : string)
         (w : Tools.world C),
    let sql_upper := PyStr.upper py (PyStr.strip py sql) in
    begins_with sql_upper "SELECT" ->
    (forall k, In k Tools.dangerous_keywords -> ~ substring k sql_upper) ->
    (~ substring "LIMIT" (PyStr.upper py sql) ->
     ~ substring "TOP" (PyStr.upper py sql) ->
     let sent := sql ++ " LIMIT 50" in
     let answer := BaseConnector.execute_query connector sent (fst w) in
     Tools.run_query py connector (Some sql) w =
     (Ok (query_response Tools.limit_note (fst answer)),
      (snd answer, (snd w ++ [Tools.execute_query_call sent])%list)) /\
     (forall row rows,
         fst answer = Ok (row :: rows) ->
         fst (Tools.run_query py connector (Some sql) w) =
         Ok ("Note: Query result limited to 50 rows for performance. Use explicit LIMIT to change this."
             ++ String PyStr.LF (String PyStr.LF (to_csv (row :: rows) None)))))
    /\
    (substring "LIMIT" (PyStr.upper py sql) \/
     substring "TOP" (PyStr.upper py sql) ->
     let answer := BaseConnector.execute_query connector sql (fst w) in
     Tools.run_query py connector (Some sql) w =
     (Ok (query_response EmptyString (fst answer)),
      (snd answer, (snd w ++ [Tools.execute_query_call sql])%list)) /\
     (forall row rows,
         fst answer = Ok (row :: rows) ->
         fst (Tools.run_query py connector (Some sql) w) =
         Ok (to_csv (row :: rows) None))).
Proof.
  intros Hpy C connector sql w sql_upper Hsel Hkw.
  apply startswith_begins_with in Hsel. apply first_dangerous_none in Hkw.
  pose proof (run_query_dispatch py connector sql w Hsel Hkw) as Hrun.
  cbv zeta in Hrun. fold sql_upper in Hrun. split.
  - intros Hlimit Htop sent answer.
    rewrite <- (substring_upper_strip sql Hpy (word_LIMIT Hpy)) in Hlimit.
    rewrite <- (substring_upper_strip sql Hpy (word_TOP Hpy)) in Htop.
    apply contains_false_iff in Hlimit, Htop. fold sql_upper in Hlimit, Htop.
    rewrite Hlimit, Htop in Hrun. simpl negb in Hrun. cbv iota in Hrun.
    simpl andb in Hrun. cbv iota in Hrun.
    fold sent in Hrun. fold answer in Hrun. split; [exact Hrun|].
    intros row rows Hrows. rewrite Hrun, Hrows. unfold fst at 1.
    unfold query_response, Tools.limit_note.
    now rewrite append_assoc.
  - intros Hcap answer.
    assert (Hc : negb (PyStr.contains "LIMIT" sql_upper)
                 && negb (PyStr.contains "TOP" sql_upper) = false).
    { destruct Hcap as [H | H].
      - rewrite <- (substring_upper_strip sql Hpy (word_LIMIT Hpy)) in H.
        apply contains_substring in H. fold sql_upper in H. now rewrite H.
      - rewrite <- (substring_upper_strip sql Hpy (word_TOP Hpy)) in H.
        apply contains_substring in H. fold sql_upper in H. rewrite H.
        apply andb_false_r. }
    rewrite Hc in Hrun. fold answer in Hrun. split; [exact Hrun|].
    intros row rows Hrows. now rewrite Hrun, Hrows.
Qed.

Lemma run_query_row_cap_witness :
  snd (snd (Tools.run_query PyStr.seven_bit
              (hana_connector PyStr.seven_bit (reachable kwargs sample_result))
              (Some "SELECT * FROM T") (start sample_hana))) =
  [Tools.execute_query_call "SELECT * FROM T LIMIT 50"] /\
  fst (Tools.run_query PyStr.seven_bit
         (hana_connector PyStr.seven_bit (reachable kwargs sample_result))
         (Some "SELECT * FROM T") (start sample_hana)) =
  Ok ("Note: Query result limited to 50 rows for performance. Use explicit LIMIT to change this."
      ++ String PyStr.LF (String PyStr.LF
           (to_csv [[("ItemCode", VStr "A001"); ("ItemName", VStr "Bolt, M8")];
                    [("ItemCode", VStr "A002"); ("ItemName", VNone)]] None))).
Proof.
  assert (Hsel : begins_with
                   (PyStr.upper PyStr.seven_bit
                      (PyStr.strip PyStr.seven_bit "SELECT * FROM T"))
                   "SELECT").
  { exists " * FROM T". reflexivity. }
  assert (Hkw : forall k, In k Tools.dangerous_keywords ->
                  ~ substring k
                      (PyStr.upper PyStr.seven_bit
                         (PyStr.strip PyStr.seven_bit "SELECT * FROM T"))).
  { intros k Hk. apply contains_false_iff. simpl in Hk.
    repeat (destruct Hk as [<- | Hk]; [reflexivity|]). contradiction. }
  destruct (run_query_row_cap lawful_seven_bit
              (hana_connector PyStr.seven_bit (reachable kwargs sample_result))
              "SELECT * FROM T" (start sample_hana) Hsel Hkw) as [Hcap _].
  destruct Hcap as [Hrun Hnote].
  - apply contains_false_iff. reflexivity.
  - apply contains_false_iff. reflexivity.
  - split.
    + rewrite Hrun. reflexivity.
    + apply Hnote. reflexivity.
Defined.

(** ** Rows as dictionaries *)

Lemma dict_lookup_set (k k' : string) (v : value) (d : dict) :
  dict_lookup k (dict_set k' v d) =
  if String.eqb k' k then Some v else dict_lookup k d.
Proof.
  induction d as [|[k0 v0] d IH]; simpl.
  - reflexivity.
  - destruct (String.eqb k0 k') eqn:E0; simpl.
    + apply String.eqb_eq in E0. subst k0.
      now destruct (String.eqb k' k).
    + destruct (String.eqb k0 k) eqn:E1; [|exact IH].
      apply String.eqb_eq in E1. subst k0.
      rewrite String.eqb_sym in E0. now rewrite E0.
Qed.

Lemma keys_dict_set (k k' : string) (v : value) (d : dict) :
  In k (keys (dict_set k' v d)) <-> k = k' \/ In k (keys d).
Proof.
  unfold keys. induction d as [|[k0 v0] d IH]; simpl.
  - intuition.
  - destruct (String.eqb k0 k') eqn:E0; simpl.
    + apply String.eqb_eq in E0. subst k0. intuition.
    + rewrite IH. intuition.
Qed.

Lemma NoDup_keys_dict_set (k : string) (v : value) (d : dict) :
  NoDup (keys d) -> NoDup (keys (dict_set k v d)).
Proof.
  unfold keys. induction d as [|[k0 v0] d IH]; simpl; intros H.
  - constructor; [intros [] | constructor].
  - inversion H as [|? ? Hnotin Hnodup]; subst.
    destruct (String.eqb k0 k) eqn:E0; simpl.
    + now constructor.
    + constructor; [|now apply IH].
      intros Hin. apply (keys_dict_set k0 k v d) in Hin.
      destruct Hin as [-> | Hin]; [|contradiction].
      now rewrite String.eqb_refl in E0.
Qed.

Lemma dict_set_fresh (k : string) (v : value) (d : dict) :
  ~ In k (keys d) -> dict_set k v d = (d ++ [(k, v)])%list.
Proof.
  unfold keys. induction d as [|[k0 v0] d IH]; simpl; intros H.
  - reflexivity.
  - destruct (String.eqb k0 k) eqn:E0.
    + apply String.eqb_eq in E0. subst k0. exfalso. apply H. now left.
    + rewrite IH; [reflexivity|]. intros Hin. apply H. now right.
Qed.

Lemma keys_set_pairs (pairs : list (string * value)) (d : dict) (k : string) :
  In k (keys (fold_left set_pair pairs d)) <->
  In k (keys d) \/ In k (map fst pairs).
Proof.
  revert d. induction pairs as [|[k0 v0] pairs IH]; intros d; simpl.
  - intuition.
  - rewrite IH. unfold set_pair. simpl. rewrite keys_dict_set.
    intuition.
Qed.

Lemma NoDup_keys_set_pairs (pairs : list (string * value)) (d : dict) :
  NoDup (keys d) -> NoDup (keys (fold_left set_pair pairs d)).
Proof.
  revert d. induction pairs as [|p pairs IH]; intros d H; simpl.
  - exact H.
  - apply IH. now apply NoDup_keys_dict_set.
Qed.

Lemma lookup_set_pairs (pairs : list (string * value)) (d : dict) (k : string) :
  dict_lookup k (fold_left set_pair pairs d) =
  fold_left (fun acc p => if String.eqb (fst p) k then Some (snd p) else acc)
    pairs (dict_lookup k d).
Proof.
  revert d. induction pairs as [|p pairs IH]; intros d; simpl.
  - reflexivity.
  - rewrite IH. unfold set_pair. now rewrite dict_lookup_set.
Qed.

Lemma set_pairs_distinct (pairs : list (string * value)) (d : dict) :
  NoDup (keys d ++ map fst pairs) ->
  fold_left set_pair pairs d = (d ++ pairs)%list.
Proof.
  revert d. induction pairs as [|[k0 v0] pairs IH]; intros d H; simpl.
  - now rewrite app_nil_r.
  - change (set_pair d (k0, v0)) with (dict_set k0 v0 d). simpl in H.
    rewrite dict_set_fresh.
    + rewrite IH.
      * now rewrite <- app_assoc.
      * unfold keys. rewrite map_app. simpl. rewrite <- app_assoc. exact H.
    + apply NoDup_remove_2 in H. intros Hin. apply H.
      apply in_or_app. now left.
Qed.

Lemma fill_row_set_pairs (column_names : list string) (row : list value)
    (i : nat) (row_dict : dict) :
  i + List.length row <= List.length column_names ->
  fill_row column_names i row row_dict =
  Ok (fold_left set_pair (combine (skipn i column_names) row) row_dict).
Proof.
  revert i row_dict. induction row as [|v row IH]; intros i row_dict H; simpl.
  - now destruct (skipn i column_names).
  - simpl in H.
    destruct (nth_error column_names i) as [name|] eqn:E.
    + rewrite IH by lia.
      assert (Hs : skipn i column_names = name :: skipn (S i) column_names).
      { clear -E. revert i E.
        induction column_names as [|x l IHl]; intros [|i] E;
          simpl in *; try discriminate.
        - now injection E as ->.
        - now apply IHl. }
      now rewrite Hs.
    + apply nth_error_None in E. lia.
Qed.

Lemma rows_to_dicts_from_pairs (column_names : list string)
    (rows : list (list value)) :
  (forall row, In row rows -> List.length row = List.length column_names) ->
  rows_to_dicts column_names rows =
  Ok (map (fun row => from_pairs (combine column_names row)) rows).
Proof.
  unfold rows_to_dicts.
  induction rows as [|row rows IH]; intros H; simpl.
  - reflexivity.
  - rewrite fill_row_set_pairs by (rewrite (H row); [lia | now left]).
    rewrite IH by (intros r Hr; apply H; now right).
    reflexivity.
Qed.

Lemma from_pairs_row (column_names : list string) (row : list value) :
  List.length row = List.length column_names ->
  let d := from_pairs (combine column_names row) in
  NoDup (keys d) /\
  (forall k, In k (keys d) <-> In k column_names) /\
  (forall k, dict_lookup k d = last_value k (combine column_names row)) /\
  (NoDup column_names -> d = combine column_names row).
Proof.
  intros Hlen d. unfold d, from_pairs.
  assert (Hfst : map fst (combine column_names row) = column_names).
  { clear d. revert row Hlen.
    induction column_names as [|x l IH]; intros [|v row] Hlen;
      simpl in *; try discriminate; [reflexivity|].
    f_equal. apply IH. lia. }
  repeat split.
  - apply NoDup_keys_set_pairs. constructor.
  - rewrite keys_set_pairs, Hfst. simpl. tauto.
  - rewrite keys_set_pairs, Hfst. now right.
  - apply lookup_set_pairs.
  - intros Hnd. rewrite set_pairs_distinct; [reflexivity|].
    simpl. now rewrite Hfst.
Qed.

Lemma Forall2_map_r (A B : Type) (P : A -> B -> Prop) (f : A -> B)
    (l : list A) :
  (forall x, In x l -> P x (f x)) -> Forall2 P l (map f l).
Proof.
  induction l as [|x l IH]; intros H; simpl; constructor.
  - apply H. now left.
  - apply IH. intros y Hy. apply H. now right.
Qed.

Lemma hana_execute_query_rows (hdbcli : Driver kwargs) (sql : string)
    (self self' : HanaConnector.self_t) (conn : Connection) (rs : result_set)
    (names : list string) :
  HanaConnector._get_connection hdbcli self = (Ok conn, self') ->
  cursor conn = Ok tt ->
  execute conn sql [] = Ok rs ->
  description rs = Some names ->
  cursor_close conn = Ok tt ->
  (forall row, In row (fetched rs) -> List.length row = List.length names) ->
  HanaConnector.execute_query hdbcli sql self =
  (Ok (map (fun row => from_pairs (combine names row)) (fetched rs)), self').
Proof.
  intros Hconn Hcur Hexec Hdesc Hclose Hlen.
  unfold HanaConnector.execute_query, bind, lift, column_names_of, ret.
  rewrite Hconn, Hcur, Hexec, Hdesc, (rows_to_dicts_from_pairs _ _ Hlen), Hclose.
  reflexivity.
Qed.

Lemma odbc_execute_query_rows (pyodbc : Driver string) (sql : string)
    (self self' : OdbcConnector.self_t) (conn : Connection) (rs : result_set)
    (names : list string) :
  OdbcConnector._get_connection pyodbc self = (Ok conn, self') ->
  cursor conn = Ok tt ->
  execute conn sql [] = Ok rs ->
  description rs = Some names ->
  cursor_close conn = Ok tt ->
  (forall row, In row (fetched rs) -> List.length row = List.length names) ->
  OdbcConnector.execute_query pyodbc sql self =
  (Ok (map (fun row => from_pairs (combine names row)) (fetched rs)), self').
Proof.
  intros Hconn Hcur Hexec Hdesc Hclose Hlen.
  unfold OdbcConnector.execute_query, bind, lift, column_names_of, ret.
  rewrite Hconn, Hcur, Hexec, Hdesc, (rows_to_dicts_from_pairs _ _ Hlen), Hclose.
  reflexivity.
Qed.

(** C3 (amended). For both connector variants, when the backend runs the
    statement and reports the column names [names] and rows of that width,
    [execute_query] returns one dictionary per row, in order, keyed by the
    reported names as they are, without renaming. The keys of a dictionary
    are the distinct reported names, and the value under a name is the value
    of the last column reported under it. When the reported names are
    distinct, each dictionary has one entry per reported column, in column
    order, with the value unchanged. *)
Theorem execute_query_rows_keyed_by_name :
  forall (conn : Connection) (sql : string) (rs : result_set)
         (names : list string),
    cursor conn = Ok tt ->
    execute conn sql [] = Ok rs ->
    description rs = Some names ->
    cursor_close conn = Ok tt ->
    (forall row, In row (fetched rs) -> List.length row = List.length names) ->
    exists rows,
      (forall hdbcli self self',
          HanaConnector._get_connection hdbcli self = (Ok conn, self') ->
          HanaConnector.execute_query hdbcli sql self = (Ok rows, self')) /\
      (forall pyodbc self self',
          OdbcConnector._get_connection pyodbc self = (Ok conn, self') ->
          OdbcConnector.execute_query pyodbc sql self = (Ok rows, self')) /\
      Forall2
        (fun row d =>
           NoDup (keys d) /\
           (forall k, In k (keys d) <-> In k names) /\
           (forall k, dict_lookup k d = last_value k (combine names row)) /\
           (NoDup names -> d = combine names row))
        (fetched rs) rows.
Proof.
  intros conn sql rs names Hcur Hexec Hdesc Hclose Hlen.
  exists (map (fun row => from_pairs (combine names row)) (fetched rs)).
  split; [|split].
  - intros hdbcli self self' Hconn.
    now apply hana_execute_query_rows with (conn := conn) (rs := rs).
  - intros pyodbc self self' Hconn.
    now apply odbc_execute_query_rows with (conn := conn) (rs := rs).
  - apply Forall2_map_r. intros row Hrow.
    apply from_pairs_row. now apply Hlen.
Qed.

Lemma execute_query_rows_keyed_by_name_witness :
  exists rows,
    (forall hdbcli self self',
        HanaConnector._get_connection hdbcli self =
        (Ok (sample_connection sample_result), self') ->
        HanaConnector.execute_query hdbcli "SELECT * FROM OITM" self =
        (Ok rows, self')) /\
    (forall pyodbc self self',
        OdbcConnector._get_connection pyodbc self =
        (Ok (sample_connection sample_result), self') ->
        OdbcConnector.execute_query pyodbc "SELECT * FROM OITM" self =
        (Ok rows, self')) /\
    Forall2
      (fun row d =>
         NoDup (keys d) /\
         (forall k, In k (keys d) <-> In k ["ItemCode"; "ItemName"]) /\
         (forall k, dict_lookup k d =
                    last_value k (combine ["ItemCode"; "ItemName"] row)) /\
         (NoDup ["ItemCode"; "ItemName"] ->
          d = combine ["ItemCode"; "ItemName"] row))
      (fetched sample_result) rows.
Proof.
  apply (execute_query_rows_keyed_by_name (sample_connection sample_result)
           "SELECT * FROM OITM" (rs := sample_result)
           (names := ["ItemCode"; "ItemName"])).
  - reflexivity.
  - reflexivity.
  - reflexivity.
  - reflexivity.
  - simpl. intros row [<- | [<- | []]]; reflexivity.
Defined.

(** C3 as stated fails when two columns are reported under one name: the row
    [1, 2] under the names [A, A] comes back from both variants as a
    dictionary with the single entry [A: 2]. *)
Lemma execute_query_merges_same_named_columns :
  fst (HanaConnector.execute_query (reachable kwargs duplicate_result)
         "SELECT T0.A, T1.A FROM T0, T1" sample_hana) =
  Ok [[("A", VInt 2)]] /\
  fst (OdbcConnector.execute_query (reachable string duplicate_result)
         "SELECT T0.A, T1.A FROM T0, T1" sample_odbc) =
  Ok [[("A", VInt 2)]] /\
  description duplicate_result = Some ["A"; "A"] /\
  List.length [("A", VInt 2)] <> List.length ["A"; "A"].
Proof.
  repeat split; discriminate.
Qed.

(** ** list-tables on the generic variant *)

(** C4, as the code has it: on the generic (ODBC) variant list-tables never
    reaches the driver's catalog function. The handler passes the keywords
    [search] and [limit], which [OdbcConnector.get_tables] does not take, so
    binding the call raises a [TypeError] and the handler answers with its
    text, whatever the arguments; the connector's attributes are unchanged. *)
Theorem odbc_list_tables_answers_error :
  forall (pyodbc : Driver string) (catalog schema search : option string)
         (limit : Z) (w : Tools.world OdbcConnector.self_t),
    Tools.get_tables (odbc_connector pyodbc) catalog schema search limit w =
    (Ok "ERROR: OdbcConnector.get_tables() got an unexpected keyword argument 'search'",
     (fst w,
      (snd w ++ [Tools.get_tables_call
                   [("catalog", of_optional catalog);
                    ("schema", of_optional schema);
                    ("search", of_optional search);
                    ("limit", VInt limit)]])%list)).
Proof.
  intros pyodbc catalog schema search limit w.
  unfold Tools.get_tables, try_except, bind, Tools.invoke.
  unfold odbc_connector, BaseConnector.get_tables, OdbcConnector.get_tables.
  unfold bind, lift. reflexivity.
Qed.

(** Called with the keywords of its own signature, the generic variant does
    return every row of the driver's catalog function. *)
Lemma odbc_get_tables_unfiltered (pyodbc : Driver string)
    (catalog schema : value) (self self' : OdbcConnector.self_t)
    (conn : Connection) (found : list tables_row) :
  OdbcConnector._get_connection pyodbc self = (Ok conn, self') ->
  cursor conn = Ok tt ->
  tables conn catalog schema = Ok found ->
  cursor_close conn = Ok tt ->
  exists ds,
    OdbcConnector.get_tables pyodbc
      [("catalog", catalog); ("schema", schema)] self = (Ok ds, self') /\
    map (fun d => dict_get "Table" d VNone) ds = map table_name found.
Proof.
  intros Hconn Hcur Htab Hclose. eexists. split.
  - unfold OdbcConnector.get_tables, bind, lift, ret. simpl.
    rewrite Hconn, Hcur. unfold dict_get. simpl. rewrite Htab, Hclose.
    reflexivity.
  - rewrite map_map. reflexivity.
Qed.

(** The vendor variant takes the four keywords the handler passes. *)
Lemma hana_get_tables_binds (catalog schema search : option string) (limit : Z) :
  bind_keywords "HanaConnector.get_tables" HanaConnector.get_tables_signature
    [("catalog", of_optional catalog); ("schema", of_optional schema);
     ("search", of_optional search); ("limit", VInt limit)] =
  Ok [("catalog", of_optional catalog); ("schema", of_optional schema);
      ("search", of_optional search); ("limit", VInt limit)].
Proof. reflexivity. Qed.

(** ** The catch-all boundary of the handlers *)

Section Boundary.

Variable py : PyStr.tables.
Variable C : Type.
Variable connector : BaseConnector.t C.

Lemma get_tables_total (catalog schema search : option string) (limit : Z)
    (w : Tools.world C) :
  exists text w',
    Tools.get_tables connector catalog schema search limit w = (Ok text, w').
Proof.
  unfold Tools.get_tables, try_except, bind, Tools.invoke.
  destruct (BaseConnector.get_tables connector _ (fst w))
    as [[[|t ts]|e] c']; eexists; eexists; reflexivity.
Qed.

Lemma get_columns_total (table catalog schema : option string)
    (w : Tools.world C) :
  exists text w',
    Tools.get_columns connector table catalog schema w = (Ok text, w').
Proof.
  unfold Tools.get_columns.
  destruct table as [[|c s]|]; try (eexists; eexists; reflexivity).
  unfold try_except, bind, Tools.invoke.
  destruct (BaseConnector.get_columns connector _ (fst w))
    as [[[|t ts]|e] c']; eexists; eexists; reflexivity.
Qed.

Lemma run_query_total (sql : option string) (w : Tools.world C) :
  exists text w', Tools.run_query py connector sql w = (Ok text, w').
Proof.
  destruct sql as [sql|]; [|eexists; eexists; reflexivity].
  destruct sql as [|c s]; [eexists; eexists; reflexivity|].
  set (sql := String c s).
  destruct (PyStr.startswith (PyStr.upper py (PyStr.strip py sql)) "SELECT")
    eqn:Hsel.
  - destruct (Tools.first_dangerous Tools.dangerous_keywords
                (PyStr.upper py (PyStr.strip py sql))) as [keyword|] eqn:Hkw.
    + rewrite (run_query_rejects_keyword _ _ _ _ Hsel Hkw).
      eexists; eexists; reflexivity.
    + rewrite (run_query_dispatch _ _ _ _ Hsel Hkw).
      eexists; eexists; reflexivity.
  - rewrite run_query_rejects_non_select; [|discriminate|assumption].
    eexists; eexists; reflexivity.
Qed.

(** A run of run-query that logs a call made that call with the statement
    logged, and answers from what the call returned. *)
Lemma run_query_logged_call (sql statement : string) (w w' : Tools.world C)
    (r : outcome string) :
  Tools.run_query py connector (Some sql) w = (r, w') ->
  snd w' = (snd w ++ [Tools.execute_query_call statement])%list ->
  exists note,
    r = Ok (query_response note
              (fst (BaseConnector.execute_query connector statement (fst w)))) /\
    fst w' = snd (BaseConnector.execute_query connector statement (fst w)).
Proof.
  intros Hrun Hlog.
  destruct sql as [|c s].
  { injection Hrun as _ <-. symmetry in Hlog. now apply log_grows in Hlog. }
  set (sql := String c s) in *.
  destruct (PyStr.startswith (PyStr.upper py (PyStr.strip py sql)) "SELECT")
    eqn:Hsel.
  - destruct (Tools.first_dangerous Tools.dangerous_keywords
                (PyStr.upper py (PyStr.strip py sql))) as [keyword|] eqn:Hkw.
    + rewrite (run_query_rejects_keyword _ _ _ _ Hsel Hkw) in Hrun.
      injection Hrun as _ <-. symmetry in Hlog. now apply log_grows in Hlog.
    + rewrite (run_query_dispatch _ _ _ _ Hsel Hkw) in Hrun.
      injection Hrun as <- <-. simpl in Hlog.
      apply app_inj_tail in Hlog. destruct Hlog as [_ Hlog].
      injection Hlog as Hlog. rewrite Hlog. eexists. split; reflexivity.
  - rewrite run_query_rejects_non_select in Hrun; [|discriminate|assumption].
    injection Hrun as _ <-. symmetry in Hlog. now apply log_grows in Hlog.
Qed.

End Boundary.

(** C5. No handler raises: list-tables, list-columns and run-query return a
    string for every connector, every argument and every state. And when the
    connector call a handler makes raises an exception [e], the handler
    returns [ERROR: ] followed by the text of [e]. *)
Theorem handlers_catch_connector_errors (py : PyStr.tables) :
  forall (C : Type) (connector : BaseConnector.t C) (w : Tools.world C),
    (forall catalog schema search limit,
        exists text w',
          Tools.get_tables connector catalog schema search limit w =
          (Ok text, w')) /\
    (forall table catalog schema,
        exists text w',
          Tools.get_columns connector table catalog schema w = (Ok text, w')) /\
    (forall sql,
        exists text w', Tools.run_query py connector sql w = (Ok text, w')) /\
    (forall catalog schema search limit e c',
        let kw := [("catalog", of_optional catalog);
                   ("schema", of_optional schema);
                   ("search", of_optional search);
                   ("limit", VInt limit)] in
        BaseConnector.get_tables connector kw (fst w) = (Raise e, c') ->
        Tools.get_tables connector catalog schema search limit w =
        (Ok ("ERROR: " ++ exn_text e),
         (c', (snd w ++ [Tools.get_tables_call kw])%list))) /\
    (forall table catalog schema e c',
        let kw := [("table", VStr table);
                   ("catalog", of_optional catalog);
                   ("schema", of_optional schema)] in
        table <> EmptyString ->
        BaseConnector.get_columns connector kw (fst w) = (Raise e, c') ->
        Tools.get_columns connector (Some table) catalog schema w =
        (Ok ("ERROR: " ++ exn_text e),
         (c', (snd w ++ [Tools.get_columns_call kw])%list))) /\
    (forall sql statement r w' e c',
        Tools.run_query py connector (Some sql) w = (r, w') ->
        snd w' = (snd w ++ [Tools.execute_query_call statement])%list ->
        BaseConnector.execute_query connector statement (fst w) =
        (Raise e, c') ->
        r = Ok ("ERROR: " ++ exn_text e) /\ fst w' = c').
Proof.
  intros C connector w.
  split; [|split; [|split; [|split; [|split]]]].
  - intros. apply get_tables_total.
  - intros. apply get_columns_total.
  - intros. apply run_query_total.
  - intros catalog schema search limit e c' kw H.
    unfold Tools.get_tables, try_except, bind, Tools.invoke.
    fold kw. now rewrite H.
  - intros table catalog schema e c' kw Hne H.
    destruct table as [|a s]; [contradiction|].
    unfold Tools.get_columns, try_except, bind, Tools.invoke.
    fold kw. now rewrite H.
  - intros sql statement r w' e c' Hrun Hlog Hraise.
    destruct (run_query_logged_call py connector _ _ _ Hrun Hlog)
      as (note & -> & ->).
    now rewrite Hraise.
Qed.

Lemma handlers_catch_connector_errors_witness :
  Tools.get_tables (fixed_connector (Raise connection_refused))
    None None (Some "ITM") 10 (start tt) =
  (Ok "ERROR: Connection refused",
   (tt, [Tools.get_tables_call
           [("catalog", VNone); ("schema", VNone); ("search", VStr "ITM");
            ("limit", VInt 10)]])) /\
  Tools.get_columns (fixed_connector (Raise connection_refused))
    (Some "OITM") None None (start tt) =
  (Ok "ERROR: Connection refused",
   (tt, [Tools.get_columns_call
           [("table", VStr "OITM"); ("catalog", VNone); ("schema", VNone)]])) /\
  fst (Tools.run_query PyStr.seven_bit
         (fixed_connector (Raise connection_refused))
         (Some "SELECT 1 FROM DUMMY") (start tt)) =
  Ok "ERROR: Connection refused".
Proof.
  destruct (handlers_catch_connector_errors PyStr.seven_bit
              (fixed_connector (Raise connection_refused)) (start tt))
    as (_ & _ & _ & Htables & Hcolumns & Hquery).
  split; [|split].
  - apply (Htables None None (Some "ITM") 10%Z connection_refused tt).
    reflexivity.
  - apply (Hcolumns "OITM" None None connection_refused tt).
    + discriminate.
    + reflexivity.
  - set (run := Tools.run_query PyStr.seven_bit
                  (fixed_connector (Raise connection_refused))
                  (Some "SELECT 1 FROM DUMMY") (start tt)).
    apply (proj1 (Hquery "SELECT 1 FROM DUMMY" "SELECT 1 FROM DUMMY LIMIT 50"
                    (fst run) (snd run) connection_refused tt
                    (surjective_pairing run) eq_refl eq_refl)).
Defined.

(** ** test_connection *)

Lemma hana_test_connection_cases (hdbcli : Driver kwargs)
    (self : HanaConnector.self_t) :
  (exists self',
      HanaConnector.test_connection_try hdbcli self = (Ok true, self') /\
      HanaConnector.test_connection hdbcli self = (Ok true, self')) \/
  (exists e self',
      HanaConnector.test_connection_try hdbcli self = (Raise e, self') /\
      HanaConnector.test_connection hdbcli self =
      (Ok false, HanaConnector.set_last_error (Some (exn_text e)) self')).
Proof.
  unfold HanaConnector.test_connection, try_except.
  destruct (HanaConnector.test_connection_try hdbcli self) as [[b|e] self']
    eqn:E.
  - assert (Hb : b = true).
    { revert E. unfold HanaConnector.test_connection_try, bind, lift, ret.
      destruct (HanaConnector._get_connection hdbcli self) as [[conn|e1] s1];
        [|discriminate].
      destruct (cursor conn); [|discriminate].
      destruct (execute conn _ _); [|discriminate].
      destruct (fetchone conn); [|discriminate].
      destruct (cursor_close conn); [|discriminate].
      now intros [= <- _]. }
    subst b. left. exists self'. now split.
  - right. now exists e, self'.
Qed.

Lemma odbc_test_connection_cases (pyodbc : Driver string)
    (self : OdbcConnector.self_t) :
  (exists self',
      OdbcConnector.test_connection_try pyodbc self = (Ok true, self') /\
      OdbcConnector.test_connection pyodbc self = (Ok true, self')) \/
  (exists e self',
      OdbcConnector.test_connection_try pyodbc self = (Raise e, self') /\
      OdbcConnector.test_connection pyodbc self = (Ok false, self')).
Proof.
  unfold OdbcConnector.test_connection, try_except.
  destruct (OdbcConnector.test_connection_try pyodbc self) as [[b|e] self']
    eqn:E.
  - assert (Hb : b = true).
    { revert E. unfold OdbcConnector.test_connection_try, bind, lift, ret.
      destruct (OdbcConnector._get_connection pyodbc self) as [[conn|e1] s1];
        [|discriminate].
      destruct (cursor conn); [|discriminate].
      destruct (execute conn _ _); [|discriminate].
      destruct (fetchone conn); [|discriminate].
      destruct (cursor_close conn); [|discriminate].
      now intros [= <- _]. }
    subst b. left. exists self'. now split.
  - right. now exists e, self'.
Qed.

(** C6 (amended). For both variants [test_connection] never raises, and a
    failure of anything it tries (connecting, opening a cursor, running the
    probe statement, fetching, closing the cursor) makes it return false. On
    the vendor (HANA) variant the last-error accessor then returns exactly the
    text of that failure. The generic (ODBC) variant has no last-error
    accessor and keeps nothing of the failure. *)
Theorem test_connection_never_raises (py : PyStr.tables) :
  (forall (hdbcli : Driver kwargs) (self : HanaConnector.self_t),
      exists b self',
        BaseConnector.test_connection (hana_connector py hdbcli) self =
        (Ok b, self')) /\
  (forall (pyodbc : Driver string) (self : OdbcConnector.self_t),
      exists b self',
        BaseConnector.test_connection (odbc_connector pyodbc) self =
        (Ok b, self')) /\
  (forall (hdbcli : Driver kwargs) (self self' : HanaConnector.self_t)
          (e : exn),
      HanaConnector.test_connection_try hdbcli self = (Raise e, self') ->
      exists self'' accessor,
        BaseConnector.test_connection (hana_connector py hdbcli) self =
        (Ok false, self'') /\
        BaseConnector.get_last_error (hana_connector py hdbcli) =
        Some accessor /\
        accessor self'' = exn_text e) /\
  (forall (pyodbc : Driver string) (self self' : OdbcConnector.self_t)
          (e : exn),
      OdbcConnector.test_connection_try pyodbc self = (Raise e, self') ->
      BaseConnector.test_connection (odbc_connector pyodbc) self =
      (Ok false, self') /\
      BaseConnector.get_last_error (odbc_connector pyodbc) = None).
Proof.
  split; [|split; [|split]].
  - intros hdbcli self.
    destruct (hana_test_connection_cases hdbcli self)
      as [(s & _ & H) | (e & s & _ & H)]; eexists; eexists; exact H.
  - intros pyodbc self.
    destruct (odbc_test_connection_cases pyodbc self)
      as [(s & _ & H) | (e & s & _ & H)]; eexists; eexists; exact H.
  - intros hdbcli self self' e Htry.
    destruct (hana_test_connection_cases hdbcli self)
      as [(s & H & _) | (e' & s & H & Hfalse)]; rewrite Htry in H.
    + discriminate H.
    + injection H as <- <-.
      exists (HanaConnector.set_last_error (Some (exn_text e)) self'),
             HanaConnector.get_last_error.
      repeat split. exact Hfalse.
  - intros pyodbc self self' e Htry.
    destruct (odbc_test_connection_cases pyodbc self)
      as [(s & H & _) | (e' & s & H & Hfalse)]; rewrite Htry in H.
    + discriminate H.
    + injection H as <- <-. split; [exact Hfalse | reflexivity].
Qed.

(** An unreachable backend, on both variants. *)
Lemma test_connection_never_raises_witness :
  (exists self'' accessor,
      BaseConnector.test_connection
        (hana_connector PyStr.seven_bit (unreachable kwargs))
        sample_hana = (Ok false, self'') /\
      BaseConnector.get_last_error
        (hana_connector PyStr.seven_bit (unreachable kwargs)) =
      Some accessor /\
      accessor self'' = "Connection refused") /\
  BaseConnector.test_connection (odbc_connector (unreachable string))
    sample_odbc = (Ok false, sample_odbc) /\
  BaseConnector.get_last_error (odbc_connector (unreachable string)) = None.
Proof.
  destruct (test_connection_never_raises PyStr.seven_bit)
    as (_ & _ & Hhana & Hodbc).
  split.
  - apply (Hhana (unreachable kwargs) sample_hana sample_hana
             connection_refused).
    reflexivity.
  - apply (Hodbc (unreachable string) sample_odbc sample_odbc
             connection_refused).
    reflexivity.
Defined.

(** C6 as stated fails on the generic variant, which has no last-error
    accessor at all, and on the vendor variant when the failure has no text:
    the accessor then returns the empty string. *)
Lemma test_connection_failure_without_message :
  BaseConnector.test_connection (odbc_connector (unreachable string))
    sample_odbc = (Ok false, sample_odbc) /\
  BaseConnector.get_last_error (odbc_connector (unreachable string)) = None /\
  BaseConnector.test_connection
    (hana_connector PyStr.seven_bit (silent kwargs)) sample_hana =
  (Ok false, HanaConnector.set_last_error (Some EmptyString) sample_hana) /\
  HanaConnector.get_last_error
    (HanaConnector.set_last_error (Some EmptyString) sample_hana) =
  EmptyString.
Proof. repeat split. Qed.

(** ** The tabular formatter *)

Lemma join_append_data_double_quotes (field rec : string) :
  join_append_data field rec = rec ++ double_quotes field.
Proof.
  revert rec. induction field as [|c field IH]; intros rec; simpl.
  - now rewrite append_empty_r.
  - destruct (Ascii.eqb c PyStr.dquote); rewrite IH, append_assoc; reflexivity.
Qed.

Lemma join_append_quoted (field rec : string) (num_fields : nat) :
  join_append field (rec, num_fields) =
  (rec ++ (if (0 <? num_fields)%nat then "," else EmptyString)
       ++ quoted_field field,
   S num_fields).
Proof.
  unfold join_append, quoted_field.
  rewrite join_append_data_double_quotes.
  destruct (0 <? num_fields)%nat; f_equal;
    rewrite ?append_assoc; reflexivity.
Qed.

Lemma join_more_fields (f : string) (fields : list string) :
  PyStr.join "," (map quoted_field (f :: fields)) =
  quoted_field f ++ more_fields fields.
Proof.
  revert f. induction fields as [|g fields IH]; intros f.
  - simpl. now rewrite append_empty_r.
  - change (PyStr.join "," (map quoted_field (f :: g :: fields)))
      with (quoted_field f ++ "," ++
            PyStr.join "," (map quoted_field (g :: fields))).
    now rewrite IH.
Qed.

Lemma fold_join_append_more (fields : list value) (rec : string) (n : nat) :
  fold_left (fun st f => join_append (field_text f) st) fields (rec, S n) =
  (rec ++ more_fields (map field_text fields), (S n + List.length fields)%nat).
Proof.
  revert rec n. induction fields as [|f fields IH]; intros rec n;
    cbn [fold_left map more_fields List.length].
  - now rewrite append_empty_r, Nat.add_0_r.
  - rewrite join_append_quoted, IH. simpl Nat.ltb. cbv iota.
    f_equal; [|lia]. now rewrite !append_assoc.
Qed.

Lemma writer_writerow_line (fields : list value) (output : string) :
  writer_writerow fields output = output ++ csv_line (map field_text fields).
Proof.
  unfold writer_writerow, csv_line. destruct fields as [|f fields].
  - reflexivity.
  - change (map field_text (f :: fields))
      with (field_text f :: map field_text fields).
    rewrite join_more_fields. cbn [fold_left].
    rewrite join_append_quoted, fold_join_append_more.
    reflexivity.
Qed.

Lemma DictWriter_writerow_line (fieldnames : list string) (rowdict : dict)
    (output : string) :
  DictWriter_writerow fieldnames rowdict output =
  output ++ csv_line (row_fields fieldnames rowdict).
Proof.
  unfold DictWriter_writerow, row_fields.
  rewrite writer_writerow_line, map_map. do 2 f_equal.
  apply map_ext. intros key. unfold dict_get.
  now destruct (dict_lookup key rowdict).
Qed.

Lemma DictWriter_writeheader_line (fieldnames : list string) (output : string) :
  DictWriter_writeheader fieldnames output = output ++ csv_line fieldnames.
Proof.
  unfold DictWriter_writeheader.
  rewrite writer_writerow_line, map_map. do 2 f_equal. apply map_id.
Qed.

Lemma fold_writerow_lines (columns : list string) (rows : list dict)
    (output : string) :
  fold_left (fun output row => DictWriter_writerow columns row output)
    rows output =
  output ++ String.concat EmptyString
              (map (fun row => csv_line (row_fields columns row)) rows).
Proof.
  revert output. induction rows as [|row rows IH]; intros output.
  - simpl. now rewrite append_empty_r.
  - cbn [fold_left map]. rewrite IH, DictWriter_writerow_line, append_assoc.
    f_equal. destruct rows as [|row' rows]; simpl.
    + now rewrite append_empty_r.
    + reflexivity.
Qed.

Lemma row_fields_ignores_extras (columns : list string) (row row' : dict) :
  (forall c, In c columns -> dict_lookup c row = dict_lookup c row') ->
  row_fields columns row = row_fields columns row'.
Proof.
  intros H. unfold row_fields. apply map_ext_in. intros c Hc.
  now rewrite (H c Hc).
Qed.

(** C8. On the empty collection the formatter returns the empty string. On a
    non-empty one the output is a header line followed by one line per row,
    in the order of the rows. The header lists the columns asked for, or the
    keys of the first row in their order when none are asked for. Every line
    is its fields separated by commas and ended by the line terminator, every
    field between double quotes with each embedded double quote doubled. The
    field of a row under a column is the text of its value there, empty when
    the row has no such key; keys of the row outside the columns play no
    part. *)
Theorem to_csv_format :
  forall (columns : option (list string)),
    to_csv [] columns = EmptyString /\
    (forall (row0 : dict) (rest : list dict),
        let rows := row0 :: rest in
        let header :=
          match columns with
          | Some cs => cs
          | None => keys row0
          end in
        to_csv rows columns =
        csv_line header ++
        String.concat EmptyString
          (map (fun row => csv_line (row_fields header row)) rows)) /\
    (forall (fields : list string),
        csv_line fields =
        PyStr.join "," (map quoted_field fields) ++ lineterminator) /\
    (forall (field : string),
        quoted_field field =
        String PyStr.dquote (double_quotes field
                               ++ String PyStr.dquote EmptyString)) /\
    (forall (cs : list string) (row : dict),
        List.length (row_fields cs row) = List.length cs /\
        (forall i c,
            nth_error cs i = Some c ->
            nth_error (row_fields cs row) i =
            Some (match dict_lookup c row with
                  | Some v => field_text v
                  | None => EmptyString
                  end))) /\
    (forall (cs : list string) (row row' : dict),
        (forall c, In c cs -> dict_lookup c row = dict_lookup c row') ->
        row_fields cs row = row_fields cs row').
Proof.
  intros columns. repeat split.
  - intros row0 rest rows header. unfold to_csv, rows. fold header.
    now rewrite fold_writerow_lines, DictWriter_writeheader_line.
  - unfold row_fields. apply length_map.
  - intros i c Hc. unfold row_fields. now rewrite nth_error_map, Hc.
  - apply row_fields_ignores_extras.
Qed.

(** The rows of [tests/test_csv_utils.py], and the example of the
    specification: a field with embedded quotes. *)
Lemma to_csv_format_witness :
  to_csv [[("name", VStr ("Say " ++ q ++ "Hello" ++ q)); ("value", VStr "test")]]
    None =
  (q ++ "name" ++ q ++ "," ++ q ++ "value" ++ q ++ lineterminator) ++
  (q ++ "Say " ++ q ++ q ++ "Hello" ++ q ++ q ++ q ++ "," ++
   q ++ "test" ++ q ++ lineterminator) /\
  to_csv [[("b", VStr "2"); ("a", VStr "1"); ("c", VStr "3")]]
    (Some ["a"; "b"; "c"]) =
  (q ++ "a" ++ q ++ "," ++ q ++ "b" ++ q ++ "," ++ q ++ "c" ++ q
     ++ lineterminator) ++
  (q ++ "1" ++ q ++ "," ++ q ++ "2" ++ q ++ "," ++ q ++ "3" ++ q
     ++ lineterminator) /\
  nth_error (row_fields ["a"; "zz"] [("b", VStr "2"); ("a", VInt 1)]) 1 =
  Some EmptyString /\
  row_fields ["a"] [("b", VStr "2"); ("a", VInt 1)] =
  row_fields ["a"] [("a", VInt 1)].
Proof.
  destruct (to_csv_format None) as (_ & Hrows & _ & _ & _ & _).
  destruct (to_csv_format (Some ["a"; "b"; "c"]))
    as (_ & Hcols & _ & _ & Hfields & Hextra).
  split; [|split; [|split]].
  - rewrite Hrows. reflexivity.
  - rewrite Hcols. reflexivity.
  - apply (proj2 (Hfields ["a"; "zz"] [("b", VStr "2"); ("a", VInt 1)])
             1%nat "zz").
    reflexivity.
  - apply Hextra. intros c [<- | []]. reflexivity.
Defined.

(** ** The columns of list-tables and list-columns *)

Lemma truthy_text (v : value) :
  (v = VNone \/ exists s, v = VStr s) ->
  truthy v = true <-> exists s, v = VStr s /\ s <> EmptyString.
Proof.
  intros [-> | [s ->]]; simpl.
  - split; [discriminate | intros (s & H & _); discriminate H].
  - destruct s as [|c s]; simpl; split.
    + discriminate.
    + intros (s' & [= <-] & H). contradiction.
    + intros _. exists (String c s). split; [reflexivity | discriminate].
    + reflexivity.
Qed.

Lemma existsb_filled (k : string) (batch : list dict) :
  existsb (fun r => truthy (dict_get k r VNone)) batch = true <->
  exists r, In r batch /\ filled k r.
Proof.
  rewrite existsb_exists. unfold filled, dict_get. split.
  - intros (r & Hin & H). exists r. split; [assumption|].
    destruct (dict_lookup k r) as [v|]; [now exists v | discriminate H].
  - intros (r & Hin & v & Hv & H). exists r. split; [assumption|].
    now rewrite Hv.
Qed.

Lemma optional_columns_spec (batch : list dict) :
  (In "Catalog" (optional_columns batch) <->
   exists r, In r batch /\ filled "Catalog" r) /\
  (In "Schema" (optional_columns batch) <->
   exists r, In r batch /\ filled "Schema" r) /\
  (optional_columns batch = [] \/
   optional_columns batch = ["Catalog"] \/
   optional_columns batch = ["Schema"] \/
   optional_columns batch = ["Catalog"; "Schema"]).
Proof.
  rewrite <- !existsb_filled. unfold optional_columns.
  destruct (existsb (fun r => truthy (dict_get "Catalog" r VNone)) batch);
    destruct (existsb (fun r => truthy (dict_get "Schema" r VNone)) batch);
    simpl; repeat split; intros; try tauto; try discriminate;
    repeat match goal with
           | H : _ \/ _ |- _ => destruct H
           | H : _ = _ |- _ => discriminate H
           | H : False |- _ => contradiction
           end.
Qed.

(** C7. For a non-empty batch returned by the connector, list-tables formats
    it under the columns [optional ++ [Table, Description]] and list-columns
    under [optional ++ [Table, Column, DataType, Description]], where
    [optional] contains Catalog exactly when some record of the batch has a
    non-empty Catalog value, Schema exactly when some record has a non-empty
    Schema value, nothing else, and Catalog before Schema. *)
Theorem optional_columns_follow_the_batch :
  forall (C : Type) (connector : BaseConnector.t C) (w : Tools.world C)
         (r : dict) (rs : list dict) (c' : C),
    let batch := r :: rs in
    exists optional,
      ((In "Catalog" optional <-> exists r, In r batch /\ filled "Catalog" r) /\
       (In "Schema" optional <-> exists r, In r batch /\ filled "Schema" r) /\
       (optional = [] \/ optional = ["Catalog"] \/ optional = ["Schema"] \/
        optional = ["Catalog"; "Schema"])) /\
      (forall catalog schema search limit,
          BaseConnector.get_tables connector
            [("catalog", of_optional catalog); ("schema", of_optional schema);
             ("search", of_optional search); ("limit", VInt limit)] (fst w) =
          (Ok batch, c') ->
          fst (Tools.get_tables connector catalog schema search limit w) =
          Ok (to_csv batch
                (Some (optional ++ ["Table"; "Description"])%list))) /\
      (forall table catalog schema,
          table <> EmptyString ->
          BaseConnector.get_columns connector
            [("table", VStr table); ("catalog", of_optional catalog);
             ("schema", of_optional schema)] (fst w) =
          (Ok batch, c') ->
          fst (Tools.get_columns connector (Some table) catalog schema w) =
          Ok (to_csv batch
                (Some (optional
                         ++ ["Table"; "Column"; "DataType"; "Description"])%list))).
Proof.
  intros C connector w r rs c' batch.
  exists (optional_columns batch). split; [apply optional_columns_spec|].
  split.
  - intros catalog schema search limit H.
    unfold Tools.get_tables, try_except, bind, Tools.invoke.
    rewrite H. unfold batch, optional_columns.
    destruct (existsb (fun t => truthy (dict_get "Catalog" t VNone)) (r :: rs));
      destruct (existsb (fun t => truthy (dict_get "Schema" t VNone)) (r :: rs));
      reflexivity.
  - intros table catalog schema Hne H. destruct table as [|a s]; [contradiction|].
    unfold Tools.get_columns, try_except, bind, Tools.invoke.
    rewrite H. unfold batch, optional_columns.
    destruct (existsb (fun t => truthy (dict_get "Catalog" t VNone)) (r :: rs));
      destruct (existsb (fun t => truthy (dict_get "Schema" t VNone)) (r :: rs));
      reflexivity.
Qed.

(** A batch of the vendor variant: every record has a schema and none has a
    catalog, so the columns are Schema, Table, Description. *)
Lemma optional_columns_follow_the_batch_witness :
  fst (Tools.get_tables (fixed_connector (Ok sample_tables))
         None None None 50 (start tt)) =
  Ok (to_csv sample_tables (Some ["Schema"; "Table"; "Description"])).
Proof.
  destruct (optional_columns_follow_the_batch
              (fixed_connector (Ok sample_tables)) (start tt)
              [("Schema", VStr "SBODEMO"); ("Table", VStr "OITM");
               ("Description", VStr "Items")]
              [[("Schema", VStr "SBODEMO"); ("Table", VStr "ORDR");
                ("Description", VStr EmptyString)]] tt)
    as (optional & (Hcat & Hsch & Hshape) & Htables & _).
  assert (Hno : ~ In "Catalog" optional).
  { intros Hin. apply Hcat in Hin. destruct Hin as (r & Hr & v & Hv & _).
    simpl in Hr. destruct Hr as [<- | [<- | []]]; discriminate Hv. }
  assert (Hyes : In "Schema" optional).
  { apply Hsch. eexists. split; [now left|].
    exists (VStr "SBODEMO"). split; reflexivity. }
  assert (Hopt : optional = ["Schema"]).
  { destruct Hshape as [-> | [-> | [-> | ->]]].
    - destruct Hyes.
    - exfalso. apply Hno. now left.
    - reflexivity.
    - exfalso. apply Hno. now left. }
  subst optional.
  apply (Htables None None None 50%Z). reflexivity.
Defined.

(** ** The examples of the specification and the tests of the repository *)

Example upper_strip_sample :
  PyStr.upper PyStr.seven_bit (PyStr.strip PyStr.seven_bit (String PyStr.LF "  select * From t  ")) =
  "SELECT * FROM T".
Proof. reflexivity. Qed.

Example of_Z_samples :
  PyStr.of_Z 50 = "50" /\ PyStr.of_Z 0 = "0" /\ PyStr.of_Z (-7) = "-7".
Proof. repeat split. Qed.

Example contains_inside_identifier :
  PyStr.contains "TOP" "SELECT * FROM STOPS" = true /\
  PyStr.contains "LIMIT" "SELECT * FROM STOPS" = false.
Proof. split; reflexivity. Qed.

(** [test_to_csv_basic]: a header and two rows, names in the header. *)
Example test_to_csv_basic :
  to_csv [[("name", VStr "Alice"); ("age", VStr "30")];
          [("name", VStr "Bob"); ("age", VStr "25")]] None =
  csv_line ["name"; "age"] ++ csv_line ["Alice"; "30"]
    ++ csv_line ["Bob"; "25"].
Proof. reflexivity. Qed.

(** [test_to_csv_empty] *)
Example test_to_csv_empty : to_csv [] None = EmptyString.
Proof. reflexivity. Qed.

(** [test_to_csv_with_commas]: the comma stays inside the quoted field. *)
Example test_to_csv_with_commas :
  PyStr.contains (q ++ "Smith, John" ++ q)
    (to_csv [[("name", VStr "Smith, John"); ("value", VStr "test")]] None) =
  true.
Proof. reflexivity. Qed.

(** A statement whose identifier contains TOP gets no row cap. *)
Example run_query_top_inside_identifier :
  snd (snd (Tools.run_query PyStr.seven_bit (fixed_connector (Ok sample_tables))
              (Some "SELECT * FROM STOPS") (start tt))) =
  [Tools.execute_query_call "SELECT * FROM STOPS"].
Proof. reflexivity. Qed.

(** Beyond 7 bits the handler follows the interpreter's tables: a leading
    no-break space is trimmed, and a dotless i counts as I in the denylist
    and in the test for LIMIT. *)
Lemma lawful_with_wide_characters : PyStr.lawful PyStr.with_wide_characters.
Proof.
  split; [|split]; intros c; destruct c as [[] [] [] [] [] [] [] []];
    solve [reflexivity | intros H; vm_compute in H; lia | discriminate].
Qed.

Example run_query_no_break_space :
  snd (snd (Tools.run_query PyStr.with_wide_characters
              (fixed_connector (Ok sample_tables))
              (Some (String "160" "SELECT 1 FROM DUMMY LIMIT 1")) (start tt))) =
  [Tools.execute_query_call (String "160" "SELECT 1 FROM DUMMY LIMIT 1")].
Proof. reflexivity. Qed.

Example run_query_dotless_limit :
  let sql := "SELECT * FROM T l" ++ String "253" "m" ++ String "253" "t 5" in
  snd (snd (Tools.run_query PyStr.with_wide_characters
              (fixed_connector (Ok sample_tables)) (Some sql) (start tt))) =
  [Tools.execute_query_call sql].
Proof. reflexivity. Qed.

Example run_query_dotless_insert :
  let sql :=
    "SELECT 1 FROM T WHERE x = '" ++ String "253" "nsert' LIMIT 1" in
  Tools.run_query PyStr.with_wide_characters
    (fixed_connector (Ok sample_tables)) (Some sql) (start tt) =
  (Ok "ERROR: INSERT statements are not allowed", start tt).
Proof. reflexivity. Qed.

(* ================================================================== *)
(** * More of the code *)

(** ** The formatter: what the text determines *)

Lemma concat_lines_cons (x : string) (xs : list string) :
  String.concat EmptyString (x :: xs) = x ++ String.concat EmptyString xs.
Proof.
  destruct xs as [|y ys]; simpl; [now rewrite append_empty_r | reflexivity].
Qed.

Lemma to_csv_lines (rows : list dict) (columns : option (list string)) :
  rows <> [] ->
  to_csv rows columns =
  String.concat EmptyString
    (map csv_line
       (header_of rows columns
          :: map (row_fields (header_of rows columns)) rows)).
Proof.
  destruct rows as [|row0 rest]; [congruence|]. intros _.
  cbn [map]. rewrite concat_lines_cons, map_map. unfold to_csv.
  replace (match columns with
           | Some cs => cs
           | None => keys row0
           end) with (header_of (row0 :: rest) columns)
    by now destruct columns.
  now rewrite fold_writerow_lines, DictWriter_writeheader_line.
Qed.

Lemma csv_line_cons (f : string) (fields : list string) :
  csv_line (f :: fields) =
  quoted_field f ++ more_fields fields ++ lineterminator.
Proof.
  unfold csv_line. now rewrite join_more_fields, append_assoc.
Qed.

Lemma append_eq_empty (a b : string) :
  a ++ b = EmptyString -> a = EmptyString /\ b = EmptyString.
Proof. destruct a; simpl; [now split | discriminate]. Qed.

Lemma csv_line_not_empty (fields : list string) (rest : string) :
  csv_line fields ++ rest <> EmptyString.
Proof.
  unfold csv_line. rewrite append_assoc. intros H.
  apply append_eq_empty in H. destruct H as [_ H]. discriminate H.
Qed.

Lemma read_quoted_field (field rest : string) :
  no_quote_ahead rest ->
  read_quoted (double_quotes field ++ String PyStr.dquote rest) =
  Some (field, rest).
Proof.
  intros Hrest. induction field as [|c field IH].
  - simpl. destruct rest as [|d rest']; [reflexivity|].
    destruct (Ascii.eqb d PyStr.dquote) eqn:E; [|reflexivity].
    apply Ascii.eqb_eq in E. subst d. now destruct (Hrest rest').
  - cbn [double_quotes]. destruct (Ascii.eqb c PyStr.dquote) eqn:E.
    + apply Ascii.eqb_eq in E. subst c.
      change (read_quoted
                (String PyStr.dquote
                   (String PyStr.dquote
                      (double_quotes field ++ String PyStr.dquote rest))) =
              Some (String PyStr.dquote field, rest)).
      cbn [read_quoted]. rewrite Ascii.eqb_refl. now rewrite IH.
    + change (read_quoted
                (String c (double_quotes field ++ String PyStr.dquote rest)) =
              Some (String c field, rest)).
      cbn [read_quoted]. rewrite E. now rewrite IH.
Qed.

Lemma quoted_field_append (field rest : string) :
  quoted_field field ++ rest =
  String PyStr.dquote (double_quotes field ++ String PyStr.dquote rest).
Proof.
  unfold quoted_field. cbn [append]. now rewrite append_assoc.
Qed.

Lemma string_cons_inj (c : ascii) (a b : string) :
  String c a = String c b -> a = b.
Proof. now intros [= ->]. Qed.

Lemma quoted_field_inj (f g r1 r2 : string) :
  no_quote_ahead r1 -> no_quote_ahead r2 ->
  quoted_field f ++ r1 = quoted_field g ++ r2 -> f = g /\ r1 = r2.
Proof.
  intros H1 H2 H. rewrite !quoted_field_append in H.
  apply string_cons_inj in H.
  apply (f_equal read_quoted) in H.
  rewrite !read_quoted_field in H by assumption.
  now injection H as -> ->.
Qed.

Lemma no_quote_after_field (fields : list string) (rest : string) :
  no_quote_ahead (more_fields fields ++ lineterminator ++ rest).
Proof.
  intros r H. destruct fields; discriminate H.
Qed.

Lemma more_fields_inj (fs gs : list string) (r1 r2 : string) :
  more_fields fs ++ lineterminator ++ r1 =
  more_fields gs ++ lineterminator ++ r2 ->
  fs = gs /\ r1 = r2.
Proof.
  revert gs. induction fs as [|f fs IH]; intros [|g gs] H.
  - injection H as ->. now split.
  - discriminate H.
  - discriminate H.
  - cbn [more_fields] in H. rewrite !append_assoc in H.
    apply string_cons_inj in H.
    apply quoted_field_inj in H; try apply no_quote_after_field.
    destruct H as [-> H]. destruct (IH _ H) as [-> ->]. now split.
Qed.

Lemma csv_line_inj (fs gs : list string) (r1 r2 : string) :
  csv_line fs ++ r1 = csv_line gs ++ r2 -> fs = gs /\ r1 = r2.
Proof.
  destruct fs as [|f fs], gs as [|g gs]; intros H.
  - injection H as ->. now split.
  - rewrite csv_line_cons, quoted_field_append in H. discriminate H.
  - rewrite csv_line_cons, quoted_field_append in H. discriminate H.
  - rewrite !csv_line_cons, !append_assoc in H.
    apply quoted_field_inj in H; try apply no_quote_after_field.
    destruct H as [-> H]. rewrite <- !append_assoc in H.
    rewrite !append_assoc in H.
    destruct (more_fields_inj _ _ _ _ H) as [-> ->]. now split.
Qed.

Lemma csv_lines_inj (ls1 ls2 : list (list string)) :
  String.concat EmptyString (map csv_line ls1) =
  String.concat EmptyString (map csv_line ls2) ->
  ls1 = ls2.
Proof.
  revert ls2. induction ls1 as [|l ls1 IH]; intros [|l' ls2] H.
  - reflexivity.
  - cbn [map] in H. rewrite concat_lines_cons in H. symmetry in H.
    now apply csv_line_not_empty in H.
  - cbn [map] in H. rewrite concat_lines_cons in H.
    now apply csv_line_not_empty in H.
  - cbn [map] in H. rewrite !concat_lines_cons in H.
    apply csv_line_inj in H. destruct H as [-> H]. now rewrite (IH _ H).
Qed.

Lemma to_csv_not_empty (rows : list dict) (columns : option (list string)) :
  rows <> [] -> to_csv rows columns <> EmptyString.
Proof.
  intros Hne H. rewrite to_csv_lines in H by assumption.
  cbn [map] in H. rewrite concat_lines_cons in H.
  now apply csv_line_not_empty in H.
Qed.

(** X1. [to_csv] returns the empty string for the empty collection only:
    for at least one row there is always a header line, even when the rows
    have no keys at all. *)
Theorem to_csv_empty_only_without_rows :
  forall (rows : list dict) (columns : option (list string)),
    to_csv rows columns = EmptyString <-> rows = [].
Proof.
  intros rows columns. split; [|now intros ->].
  destruct rows as [|row0 rest]; [reflexivity|]. intros H.
  now apply to_csv_not_empty in H.
Qed.

(** X2. The text [to_csv] produces determines the header and every field:
    two non-empty collections that format to the same text have the same
    columns and, row by row, the same field texts. Commas, quotes and line
    breaks inside values never shift a field or a row. *)
Theorem to_csv_unambiguous :
  forall (rows rows' : list dict) (columns columns' : option (list string)),
    rows <> [] -> rows' <> [] ->
    to_csv rows columns = to_csv rows' columns' ->
    header_of rows columns = header_of rows' columns' /\
    map (row_fields (header_of rows columns)) rows =
    map (row_fields (header_of rows' columns')) rows'.
Proof.
  intros rows rows' columns columns' Hne Hne' H.
  rewrite !to_csv_lines in H by assumption.
  apply csv_lines_inj in H. now injection H.
Qed.

Lemma to_csv_unambiguous_witness :
  header_of [[("a", VStr "x,y"); ("b", VInt 1)]] (Some ["a"]) =
  header_of [[("a", VStr "x,y")]] None /\
  map (row_fields (header_of [[("a", VStr "x,y"); ("b", VInt 1)]] (Some ["a"])))
    [[("a", VStr "x,y"); ("b", VInt 1)]] =
  map (row_fields (header_of [[("a", VStr "x,y")]] None)) [[("a", VStr "x,y")]].
Proof.
  apply to_csv_unambiguous.
  - discriminate.
  - discriminate.
  - reflexivity.
Defined.

(** ** Cursors: widths, names and positions *)

Lemma fill_row_too_long (column_names : list string) (row : list value)
    (i : nat) (row_dict : dict) :
  (i <= List.length column_names)%nat ->
  (List.length column_names < i + List.length row)%nat ->
  fill_row column_names i row row_dict =
  Raise (IndexError "list index out of range").
Proof.
  revert i row_dict. induction row as [|v row IH]; intros i row_dict Hi Hlen.
  - simpl in Hlen. lia.
  - simpl in Hlen. cbn [fill_row].
    destruct (nth_error column_names i) as [name|] eqn:E; [|reflexivity].
    apply IH; [|lia].
    assert (i < List.length column_names)%nat; [|lia].
    apply nth_error_Some. congruence.
Qed.

Lemma rows_to_dicts_within (column_names : list string)
    (rows : list (list value)) :
  Forall (fun row => (List.length row <= List.length column_names)%nat) rows ->
  rows_to_dicts column_names rows =
  Ok (map (fun row => from_pairs (combine column_names row)) rows).
Proof.
  unfold rows_to_dicts. induction 1 as [|row rows Hrow Hrows IH]; simpl.
  - reflexivity.
  - rewrite fill_row_set_pairs by lia. now rewrite IH.
Qed.

Lemma rows_to_dicts_beyond (column_names : list string)
    (rows : list (list value)) :
  Exists (fun row => (List.length column_names < List.length row)%nat) rows ->
  rows_to_dicts column_names rows =
  Raise (IndexError "list index out of range").
Proof.
  unfold rows_to_dicts. induction rows as [|row rows IH]; intros H.
  - inversion H.
  - cbn [collect].
    destruct (Nat.le_gt_cases (List.length row) (List.length column_names))
      as [Hle | Hgt].
    + rewrite fill_row_set_pairs by lia.
      rewrite IH; [reflexivity|].
      inversion H as [? ? Hhd | ? ? Htl]; subst; [lia | assumption].
    + now rewrite fill_row_too_long by lia.
Qed.

(** X3. [cursor_to_rows] with given column names succeeds exactly when no
    row is wider than the names: each row then becomes the dictionary of its
    values under the first names, and a single wider row makes the whole call
    raise [IndexError]. Without names it reads them off the cursor, and
    raises [TypeError] when the cursor has no description. *)
Theorem cursor_to_rows_widths :
  forall (cursor : result_set) (names : list string),
    (Forall (fun row => (List.length row <= List.length names)%nat)
       (fetched cursor) ->
     cursor_to_rows cursor (Some names) =
     Ok (map (fun row => from_pairs (combine names row)) (fetched cursor))) /\
    (Exists (fun row => (List.length names < List.length row)%nat)
       (fetched cursor) ->
     cursor_to_rows cursor (Some names) =
     Raise (IndexError "list index out of range")) /\
    (description cursor = Some names ->
     cursor_to_rows cursor None = cursor_to_rows cursor (Some names)) /\
    (description cursor = None ->
     cursor_to_rows cursor None =
     Raise (TypeError "'NoneType' object is not iterable")).
Proof.
  intros cursor names. unfold cursor_to_rows, column_names_of.
  split; [|split; [|split]].
  - apply rows_to_dicts_within.
  - apply rows_to_dicts_beyond.
  - now intros ->.
  - now intros ->.
Qed.

Lemma cursor_to_rows_widths_witness :
  cursor_to_rows sample_result (Some ["Code"; "Name"; "Group"]) =
  Ok [[("Code", VStr "A001"); ("Name", VStr "Bolt, M8")];
      [("Code", VStr "A002"); ("Name", VNone)]] /\
  cursor_to_rows sample_result (Some ["Code"]) =
  Raise (IndexError "list index out of range").
Proof.
  destruct (cursor_to_rows_widths sample_result ["Code"; "Name"; "Group"])
    as (Hwithin & _).
  destruct (cursor_to_rows_widths sample_result ["Code"]) as (_ & Hbeyond & _).
  split.
  - rewrite Hwithin; [reflexivity|].
    repeat constructor.
  - apply Hbeyond. constructor. simpl. lia.
Defined.

Lemma lookup_own_keys (l : list (string * value)) :
  NoDup (map fst l) ->
  map (fun k => dict_lookup k l) (map fst l) = map (fun p => Some (snd p)) l.
Proof.
  induction l as [|[k v] l IH]; intros H; [reflexivity|].
  inversion H as [|? ? Hnotin Hnodup]; subst.
  cbn [map fst snd dict_lookup]. rewrite String.eqb_refl. f_equal.
  rewrite <- IH by assumption. apply map_ext_in. intros k' Hk'.
  destruct (String.eqb k k') eqn:E; [|reflexivity].
  apply String.eqb_eq in E. subst k'. contradiction.
Qed.

Lemma map_fst_combine (A B : Type) (l : list A) (l' : list B) :
  List.length l = List.length l' -> map fst (combine l l') = l.
Proof.
  revert l'. induction l as [|x l IH]; intros [|y l'] H;
    simpl in *; try discriminate; [reflexivity|].
  f_equal. apply IH. lia.
Qed.

Lemma map_snd_combine (A B : Type) (l : list A) (l' : list B) :
  List.length l = List.length l' -> map snd (combine l l') = l'.
Proof.
  revert l'. induction l as [|x l IH]; intros [|y l'] H;
    simpl in *; try discriminate; [reflexivity|].
  f_equal. apply IH. lia.
Qed.

(** The fields of a dictionary under its own keys are the texts of its
    values, in order. *)
Lemma row_fields_own_keys (d : dict) :
  NoDup (keys d) -> row_fields (keys d) d = map (fun p => field_text (snd p)) d.
Proof.
  intros H. unfold row_fields, keys.
  change (map (fun c => match dict_lookup c d with
                        | Some v => field_text v
                        | None => EmptyString
                        end) (map fst d))
    with (map (fun c => (fun o => match o with
                                 | Some v => field_text v
                                 | None => EmptyString
                                 end) ((fun k => dict_lookup k d) c))
            (map fst d)).
  rewrite <- (map_map (fun k => dict_lookup k d)).
  rewrite lookup_own_keys by assumption. now rewrite map_map.
Qed.

Lemma row_fields_combine (names : list string) (row : list value) :
  NoDup names -> List.length row = List.length names ->
  row_fields names (combine names row) = map field_text row.
Proof.
  intros Hnd Hlen.
  assert (Hk : keys (combine names row) = names)
    by (apply map_fst_combine; lia).
  rewrite <- Hk at 1. rewrite row_fields_own_keys by now rewrite Hk.
  rewrite <- (map_map snd field_text). now rewrite map_snd_combine by lia.
Qed.

Lemma values_under_own_keys (l : list (string * value)) :
  NoDup (map fst l) ->
  map (fun k => dict_get k l VNone) (map fst l) = map snd l.
Proof.
  intros H. unfold dict_get.
  change (map (fun k => match dict_lookup k l with
                        | Some v => v
                        | None => VNone
                        end) (map fst l))
    with (map (fun k => (fun o => match o with
                                 | Some v => v
                                 | None => VNone
                                 end) ((fun k => dict_lookup k l) k))
            (map fst l)).
  rewrite <- (map_map (fun k => dict_lookup k l)).
  rewrite lookup_own_keys by assumption. now rewrite map_map.
Qed.

Lemma values_by_name_combine (names : list string) (row : list value) :
  NoDup names -> List.length row = List.length names ->
  map (fun k => dict_get k (combine names row) VNone) names = row.
Proof.
  intros Hnd Hlen.
  pose proof (values_under_own_keys (combine names row)) as H.
  rewrite map_fst_combine, map_snd_combine in H by lia. now apply H.
Qed.

Lemma rename_row_pairs (column_mapping : list (string * string)) (row : dict) :
  NoDup (map snd column_mapping) ->
  rename_row column_mapping row =
  map (fun m => (snd m, dict_get (fst m) row VNone)) column_mapping.
Proof.
  intros Hnd. unfold rename_row.
  assert (Hfold : forall l d,
             fold_left
               (fun renamed m =>
                  dict_set (snd m) (dict_get (fst m) row VNone) renamed) l d =
             fold_left set_pair
               (map (fun m => (snd m, dict_get (fst m) row VNone)) l) d).
  { induction l as [|m l IH]; intros d; [reflexivity|]. simpl. apply IH. }
  rewrite Hfold, set_pairs_distinct; [reflexivity|].
  simpl. now rewrite map_map.
Qed.

Lemma to_csv_of_rows (rows : list dict) (header : list string)
    (texts : list (list string)) :
  map (row_fields header) rows = texts ->
  to_csv rows (Some header) =
  match rows with
  | [] => EmptyString
  | _ :: _ => String.concat EmptyString (map csv_line (header :: texts))
  end.
Proof.
  intros <-. destruct rows as [|row0 rest]; [reflexivity|].
  now rewrite to_csv_lines by discriminate.
Qed.

(** X4. [cursor_to_csv] with a column mapping is positional: the database
    names of the mapping are never compared with the cursor's description.
    When the database names are distinct, the display names are distinct and
    every row has as many values as the mapping has pairs, the output is the
    display names as header and, row by row, the values in cursor order; an
    empty cursor gives the empty string, without header. *)
Theorem cursor_to_csv_mapping_positional :
  forall (cursor : result_set) (m : string * string)
         (ms : list (string * string)),
    let column_mapping := m :: ms in
    NoDup (map fst column_mapping) ->
    NoDup (map snd column_mapping) ->
    Forall (fun row => List.length row = List.length column_mapping)
      (fetched cursor) ->
    cursor_to_csv cursor (Some column_mapping) =
    Ok (match fetched cursor with
        | [] => EmptyString
        | _ :: _ =>
            String.concat EmptyString
              (map csv_line
                 (map snd column_mapping
                    :: map (map field_text) (fetched cursor)))
        end).
Proof.
  intros cursor m ms column_mapping Hdb Hdisplay Hwidth.
  subst column_mapping. unfold cursor_to_csv, cursor_to_rows.
  cbv beta iota zeta. set (column_mapping := m :: ms) in *.
  rewrite rows_to_dicts_within.
  2:{ eapply Forall_impl; [|exact Hwidth]. intros row Hrow. cbv beta in Hrow.
      rewrite Hrow, length_map. lia. }
  f_equal. rewrite map_map.
  rewrite to_csv_of_rows
    with (texts := map (map field_text) (fetched cursor)).
  - now destruct (fetched cursor).
  - rewrite map_map. apply map_ext_in. intros row Hrow.
    rewrite Forall_forall in Hwidth. specialize (Hwidth row Hrow).
    assert (Hlen : List.length row = List.length (map fst column_mapping))
      by now rewrite length_map.
    destruct (from_pairs_row (map fst column_mapping) row Hlen)
      as (_ & _ & _ & Heq).
    rewrite (Heq Hdb), rename_row_pairs by assumption.
    set (row_dict := combine (map fst column_mapping) row).
    set (renamed := map (fun m0 : string * string =>
                           (snd m0, dict_get (fst m0) row_dict VNone))
                      column_mapping).
    assert (Hkeys : keys renamed = map snd column_mapping).
    { unfold keys, renamed. now rewrite map_map. }
    rewrite <- Hkeys, row_fields_own_keys by now rewrite Hkeys.
    unfold renamed. rewrite map_map. cbn [snd].
    pose proof (values_by_name_combine row Hdb Hlen) as Hvals.
    etransitivity; [|apply (f_equal (map field_text)); exact Hvals].
    now rewrite !map_map.
Qed.

Lemma cursor_to_csv_mapping_positional_witness :
  cursor_to_csv sample_result (Some [("CardCode", "Code"); ("CardName", "Name")]) =
  Ok (csv_line ["Code"; "Name"] ++ csv_line ["A001"; "Bolt, M8"]
        ++ csv_line ["A002"; EmptyString]).
Proof.
  rewrite (@cursor_to_csv_mapping_positional sample_result
             ("CardCode", "Code") [("CardName", "Name")]).
  - reflexivity.
  - repeat constructor; simpl; intuition discriminate.
  - repeat constructor; simpl; intuition discriminate.
  - repeat constructor.
Defined.

(** X5. [cursor_to_csv] without a mapping (or with an empty one) takes the
    header from the cursor's description: when the reported names are
    distinct and every row has one value per name, the output is the names
    as header and the values row by row; an empty cursor gives the empty
    string although the names are known; a cursor without description makes
    it raise [TypeError]. *)
Theorem cursor_to_csv_description_header :
  forall (cursor : result_set) (column_mapping : option (list (string * string))),
    column_mapping = None \/ column_mapping = Some [] ->
    (forall names,
        description cursor = Some names ->
        NoDup names ->
        Forall (fun row => List.length row = List.length names)
          (fetched cursor) ->
        cursor_to_csv cursor column_mapping =
        Ok (match fetched cursor with
            | [] => EmptyString
            | _ :: _ =>
                String.concat EmptyString
                  (map csv_line
                     (names :: map (map field_text) (fetched cursor)))
            end)) /\
    (description cursor = None ->
     cursor_to_csv cursor column_mapping =
     Raise (TypeError "'NoneType' object is not iterable")).
Proof.
  intros cursor column_mapping Hmapping.
  assert (Hcsv : cursor_to_csv cursor column_mapping =
                 match cursor_to_rows cursor None with
                 | Raise e => Raise e
                 | Ok rows => Ok (to_csv rows None)
                 end).
  { now destruct Hmapping as [-> | ->]. }
  rewrite Hcsv. unfold cursor_to_rows, column_names_of. split.
  - intros names Hdesc Hnd Hwidth. rewrite Hdesc.
    rewrite rows_to_dicts_within.
    2:{ eapply Forall_impl; [|exact Hwidth]. intros row Hrow.
        cbv beta in Hrow. lia. }
    f_equal. destruct (fetched cursor) as [|row0 rest] eqn:Hrows;
      [reflexivity|].
    assert (Hpairs : forall row,
               In row (row0 :: rest) ->
               from_pairs (combine names row) = combine names row).
    { intros row Hrow. rewrite Forall_forall in Hwidth.
      now apply from_pairs_row; [apply Hwidth|]. }
    rewrite to_csv_lines by discriminate. do 2 f_equal.
    assert (Hheader : header_of
                        (map (fun row => from_pairs (combine names row))
                           (row0 :: rest)) None = names).
    { cbn [map header_of]. rewrite Hpairs by now left.
      apply map_fst_combine. rewrite Forall_forall in Hwidth.
      symmetry. apply Hwidth. now left. }
    rewrite Hheader. f_equal. rewrite map_map. apply map_ext_in.
    intros row Hrow. rewrite Hpairs by assumption.
    apply row_fields_combine; [assumption|].
    rewrite Forall_forall in Hwidth. now apply Hwidth.
  - now intros ->.
Qed.

Lemma cursor_to_csv_description_header_witness :
  cursor_to_csv sample_result (Some []) =
  Ok (csv_line ["ItemCode"; "ItemName"] ++ csv_line ["A001"; "Bolt, M8"]
        ++ csv_line ["A002"; EmptyString]).
Proof.
  destruct (@cursor_to_csv_description_header sample_result (Some []))
    as [Hnames _].
  - now right.
  - rewrite (Hnames ["ItemCode"; "ItemName"]).
    + reflexivity.
    + reflexivity.
    + repeat constructor; simpl; intuition discriminate.
    + repeat constructor.
Defined.

(** ** quote_identifier *)

Lemma replace_quote_double_quotes (s : string) :
  replace_char PyStr.dquote
    (String PyStr.dquote (String PyStr.dquote EmptyString)) s =
  double_quotes s.
Proof.
  induction s as [|c s IH]; [reflexivity|]. cbn [replace_char double_quotes].
  destruct (Ascii.eqb c PyStr.dquote); now rewrite IH.
Qed.

Lemma quote_identifier_quoted_field (identifier : string) :
  quote_identifier identifier = quoted_field identifier.
Proof.
  unfold quote_identifier, quoted_field.
  now rewrite replace_quote_double_quotes.
Qed.

(** X6. A quoted identifier reads back: in [quote_identifier name] followed
    by any text that does not start with a double quote, the quotes opened at
    the start close exactly at the end of the identifier, and what is read
    between them is [name]. Hence no name can close its own quotes early,
    and two different names never quote to the same text. *)
Theorem quote_identifier_reads_back :
  forall (identifier : string),
    (forall rest,
        no_quote_ahead rest ->
        exists body,
          quote_identifier identifier ++ rest = String PyStr.dquote body /\
          read_quoted body = Some (identifier, rest)) /\
    (forall other,
        quote_identifier identifier = quote_identifier other ->
        identifier = other).
Proof.
  intros identifier. split.
  - intros rest Hrest. rewrite quote_identifier_quoted_field.
    rewrite quoted_field_append. eexists. split; [reflexivity|].
    now apply read_quoted_field.
  - intros other H. rewrite !quote_identifier_quoted_field in H.
    apply (f_equal (fun s => s ++ EmptyString)) in H.
    apply quoted_field_inj in H; [tauto | |]; intros r Hr; discriminate Hr.
Qed.

Lemma quote_identifier_reads_back_witness :
  exists body,
    quote_identifier ("a" ++ q ++ "; DROP TABLE X --") ++ " FROM T" =
    String PyStr.dquote body /\
    read_quoted body = Some ("a" ++ q ++ "; DROP TABLE X --", " FROM T").
Proof.
  apply (proj1 (quote_identifier_reads_back ("a" ++ q ++ "; DROP TABLE X --"))
           " FROM T").
  intros rest H. discriminate H.
Defined.

(** ** What the handlers return *)

Lemma Ok_inj (A : Type) (a b : A) : Ok a = Ok b -> a = b.
Proof. now intros [=]. Qed.

Section Responses.

Variable py : PyStr.tables.
Variable C : Type.
Variable connector : BaseConnector.t C.

Lemma query_response_not_empty (note : string) (answer : outcome (list dict)) :
  query_response note answer <> EmptyString.
Proof.
  destruct answer as [[|row rows]|e]; unfold query_response;
    try discriminate.
  intros H. apply append_eq_empty in H. destruct H as [_ H].
  now apply to_csv_not_empty in H.
Qed.

Lemma get_tables_not_empty (catalog schema search : option string) (limit : Z)
    (w : Tools.world C) :
  fst (Tools.get_tables connector catalog schema search limit w) <>
  Ok EmptyString.
Proof.
  unfold Tools.get_tables, try_except, bind, Tools.invoke.
  destruct (BaseConnector.get_tables connector _ (fst w))
    as [[[|t ts]|e] c']; cbn [fst ret]; try discriminate.
  intros H. apply Ok_inj in H. now apply to_csv_not_empty in H.
Qed.

Lemma get_columns_not_empty (table catalog schema : option string)
    (w : Tools.world C) :
  fst (Tools.get_columns connector table catalog schema w) <> Ok EmptyString.
Proof.
  unfold Tools.get_columns.
  destruct table as [[|a s]|]; try discriminate.
  unfold try_except, bind, Tools.invoke.
  destruct (BaseConnector.get_columns connector _ (fst w))
    as [[[|t ts]|e] c']; cbn [fst ret]; try discriminate.
  intros H. apply Ok_inj in H. now apply to_csv_not_empty in H.
Qed.

Lemma run_query_not_empty (sql : option string) (w : Tools.world C) :
  fst (Tools.run_query py connector sql w) <> Ok EmptyString.
Proof.
  destruct sql as [sql|]; [|discriminate].
  destruct sql as [|c s]; [discriminate|].
  set (sql := String c s).
  destruct (PyStr.startswith (PyStr.upper py (PyStr.strip py sql)) "SELECT")
    eqn:Hsel.
  - destruct (Tools.first_dangerous Tools.dangerous_keywords
                (PyStr.upper py (PyStr.strip py sql))) as [keyword|] eqn:Hkw.
    + rewrite (run_query_rejects_keyword _ _ _ _ Hsel Hkw). discriminate.
    + rewrite (run_query_dispatch _ _ _ _ Hsel Hkw). cbn [fst].
      intros H. apply Ok_inj in H. now apply query_response_not_empty in H.
  - rewrite run_query_rejects_non_select; [|discriminate|assumption].
    discriminate.
Qed.

End Responses.

(** X7. A handler never answers with the empty string: list-tables,
    list-columns and run-query return a sentinel, an error text or a table
    that has at least its header line, for every connector, argument and
    state. *)
Theorem handlers_never_answer_empty (py : PyStr.tables) :
  forall (C : Type) (connector : BaseConnector.t C) (w : Tools.world C),
    (forall catalog schema search limit,
        fst (Tools.get_tables connector catalog schema search limit w) <>
        Ok EmptyString) /\
    (forall table catalog schema,
        fst (Tools.get_columns connector table catalog schema w) <>
        Ok EmptyString) /\
    (forall sql, fst (Tools.run_query py connector sql w) <> Ok EmptyString).
Proof.
  intros C connector w. split; [|split].
  - intros. apply get_tables_not_empty.
  - intros. apply get_columns_not_empty.
  - intros. apply run_query_not_empty.
Qed.

(** ** What run-query sends to the connector *)

Lemma lstrip_append (py : PyStr.tables) (s t : string) :
  PyStr.lstrip py s <> EmptyString ->
  PyStr.lstrip py (s ++ t) = PyStr.lstrip py s ++ t.
Proof.
  induction s as [|c s IH]; intros H; [now elim H|].
  cbn [append PyStr.lstrip] in *. destruct (PyStr.isspace py c); [now apply IH|].
  reflexivity.
Qed.

Lemma rstrip_append (py : PyStr.tables) (a t : string) :
  PyStr.rstrip py t <> EmptyString ->
  PyStr.rstrip py (a ++ t) = a ++ PyStr.rstrip py t.
Proof.
  intros H. induction a as [|c a IH]; [reflexivity|].
  cbn [append PyStr.rstrip]. rewrite IH.
  destruct (a ++ PyStr.rstrip py t) as [|d r] eqn:E; [|reflexivity].
  apply append_eq_empty in E. now destruct E.
Qed.

Lemma has_char_append (ch : ascii) (a b : string) :
  has_char ch (a ++ b) = has_char ch a || has_char ch b.
Proof.
  induction a as [|c a IH]; [reflexivity|]. cbn [append has_char].
  now rewrite IH, orb_assoc.
Qed.

(** A text without spaces that occurs in [a], a space, [b] occurs in [a] or
    in [b]. *)
Lemma substring_across_space (k a b : string) :
  has_char " " k = false ->
  substring k (a ++ String " " b) -> substring k a \/ substring k b.
Proof.
  intros Hk (x & y & H).
  destruct (append_split _ _ _ _ H) as [[u ->] | (q1 & c & -> & Hb)].
  - assert (H' : u ++ String " " b = k ++ y).
    { clear -H. rewrite append_assoc in H.
      induction x as [|c x IH]; simpl in H; [assumption|].
      apply string_cons_inj in H. now apply IH. }
    destruct (append_split _ _ _ _ H') as [[v ->] | (q2 & c & -> & Hc)].
    + left. now exists x, v.
    + exfalso. injection Hc as <- _.
      rewrite has_char_append in Hk. cbn [has_char] in Hk.
      rewrite Ascii.eqb_refl in Hk. cbn [orb] in Hk.
      now rewrite orb_true_r in Hk.
  - right. injection Hb as _ ->. now exists q1, y.
Qed.

(** On 7-bit text lawful tables are the 7-bit tables. *)
Lemma isascii_upper (py : PyStr.tables) (s : string) :
  PyStr.lawful py -> PyStr.isascii s = true ->
  PyStr.upper py s = PyStr.upper PyStr.seven_bit s.
Proof.
  intros Hpy. induction s as [|c s IH]; [reflexivity|].
  cbn [PyStr.isascii PyStr.upper]. intros H.
  apply andb_true_iff in H. destruct H as [Hc Hs].
  now rewrite (lawful_upper_char c Hpy Hc), IH.
Qed.

Lemma isascii_rstrip (py : PyStr.tables) (s : string) :
  PyStr.lawful py -> PyStr.isascii s = true ->
  PyStr.rstrip py s = PyStr.rstrip PyStr.seven_bit s.
Proof.
  intros Hpy. induction s as [|c s IH]; [reflexivity|].
  cbn [PyStr.isascii PyStr.rstrip]. intros H.
  apply andb_true_iff in H. destruct H as [Hc Hs].
  now rewrite (lawful_isspace c Hpy Hc), IH.
Qed.

Lemma dangerous_keywords_words (py : PyStr.tables) (k : string) :
  PyStr.lawful py ->
  In k Tools.dangerous_keywords -> word py k /\ has_char " " k = false.
Proof.
  intros Hpy. simpl. intros H.
  repeat (destruct H as [<- | H];
          [split; [|reflexivity];
           apply word_intro; cbn [ends_in_space];
           rewrite lawful_isspace by (assumption || reflexivity); reflexivity|]).
  contradiction.
Qed.

Section Dispatch.

Variable py : PyStr.tables.
Hypothesis Hpy : PyStr.lawful py.

Variable sql : string.
Hypothesis Hselect :
  PyStr.startswith (PyStr.upper py (PyStr.strip py sql)) "SELECT" = true.
Hypothesis Hkeywords :
  Tools.first_dangerous Tools.dangerous_keywords
    (PyStr.upper py (PyStr.strip py sql)) = None.

Lemma lstrip_not_empty : PyStr.lstrip py sql <> EmptyString.
Proof using Hselect.
  intros H. unfold PyStr.strip in Hselect. rewrite H in Hselect.
  discriminate Hselect.
Qed.

Lemma strip_with_limit :
  PyStr.strip py (sql ++ " LIMIT 50") = PyStr.lstrip py sql ++ " LIMIT 50".
Proof using Hselect Hpy.
  assert (Hr : PyStr.rstrip py " LIMIT 50" = " LIMIT 50")
    by now rewrite isascii_rstrip.
  unfold PyStr.strip. rewrite lstrip_append by apply lstrip_not_empty.
  rewrite rstrip_append by (rewrite Hr; discriminate).
  now rewrite Hr.
Qed.

Lemma upper_limit : PyStr.upper py " LIMIT 50" = " LIMIT 50".
Proof using Hpy. now rewrite isascii_upper. Qed.

Lemma with_limit_begins_with_select :
  begins_with (PyStr.upper py (PyStr.strip py (sql ++ " LIMIT 50"))) "SELECT".
Proof using Hselect Hpy.
  rewrite strip_with_limit.
  apply startswith_begins_with in Hselect. destruct Hselect as [rest Hrest].
  destruct (rstrip_split py (PyStr.lstrip py sql)) as (post & Hpost & _).
  rewrite Hpost, !upper_append. fold (PyStr.strip py sql). rewrite Hrest.
  exists (rest ++ PyStr.upper py post ++ PyStr.upper py " LIMIT 50").
  now rewrite !append_assoc.
Qed.

Lemma no_keyword_in_upper (k : string) :
  In k Tools.dangerous_keywords -> ~ substring k (PyStr.upper py sql).
Proof using Hkeywords Hpy.
  intros Hk H. destruct (dangerous_keywords_words Hpy Hk) as [Hword _].
  apply (substring_upper_strip sql Hpy Hword) in H.
  rewrite first_dangerous_none in Hkeywords. now apply (Hkeywords k).
Qed.

Lemma no_keyword_with_limit (k : string) :
  In k Tools.dangerous_keywords ->
  ~ substring k (PyStr.upper py (sql ++ " LIMIT 50")).
Proof using Hkeywords Hpy.
  intros Hk H. destruct (dangerous_keywords_words Hpy Hk) as [_ Hspace].
  rewrite upper_append, upper_limit in H.
  change " LIMIT 50" with (String " " "LIMIT 50") in H.
  apply substring_across_space in H; [|assumption].
  destruct H as [H | H].
  - now apply (no_keyword_in_upper Hk).
  - apply contains_substring in H. simpl in Hk.
    repeat (destruct Hk as [<- | Hk]; [discriminate H|]). contradiction.
Qed.

Lemma limit_in_with_limit :
  substring "LIMIT" (PyStr.upper py (sql ++ " LIMIT 50")).
Proof using Hpy.
  rewrite upper_append, upper_limit. exists (PyStr.upper py sql ++ " "), " 50".
  now rewrite append_assoc.
Qed.

End Dispatch.

Lemma run_query_log (py : PyStr.tables) (C : Type)
    (connector : BaseConnector.t C) (sql : string) (w : Tools.world C) :
  PyStr.lawful py ->
  snd (snd (Tools.run_query py connector (Some sql) w)) = snd w \/
  exists statement,
    snd (snd (Tools.run_query py connector (Some sql) w)) =
    (snd w ++ [Tools.execute_query_call statement])%list /\
    guarded py sql statement.
Proof.
  intros Hpy.
  destruct sql as [|c s]; [now left|]. set (sql := String c s).
  destruct (PyStr.startswith (PyStr.upper py (PyStr.strip py sql)) "SELECT")
    eqn:Hsel.
  2:{ left. now rewrite run_query_rejects_non_select. }
  destruct (Tools.first_dangerous Tools.dangerous_keywords
              (PyStr.upper py (PyStr.strip py sql))) as [keyword|] eqn:Hkw.
  { left. now rewrite (run_query_rejects_keyword _ _ _ _ Hsel Hkw). }
  right. rewrite (run_query_dispatch _ _ _ _ Hsel Hkw). cbn [snd].
  destruct (negb (PyStr.contains "LIMIT" (PyStr.upper py (PyStr.strip py sql)))
            && negb (PyStr.contains "TOP" (PyStr.upper py (PyStr.strip py sql))))
    eqn:Hcap.
  - exists (sql ++ " LIMIT 50"). split; [reflexivity|]. repeat split.
    + now right.
    + now apply with_limit_begins_with_select.
    + intros k Hk. now apply no_keyword_with_limit.
    + left. now apply limit_in_with_limit.
  - exists sql. split; [reflexivity|]. repeat split.
    + now left.
    + now apply startswith_begins_with.
    + intros k Hk. now apply no_keyword_in_upper.
    + apply andb_false_iff in Hcap. rewrite !negb_false_iff in Hcap.
      destruct Hcap as [H | H]; apply contains_substring in H.
      * left. now apply (substring_upper_strip sql Hpy (word_LIMIT Hpy)).
      * right. now apply (substring_upper_strip sql Hpy (word_TOP Hpy)).
Qed.

(** X8. run-query calls the connector at most once, and whatever statement it
    sends is [sql] itself or [sql] followed by [ LIMIT 50], begins with
    SELECT once trimmed and upper-cased, contains none of the denylisted
    words and contains LIMIT or TOP: no statement without a row bound in its
    text ever reaches [execute_query]. This holds for every lawful table of
    the interpreter, whatever the upper-case forms of the characters above
    127 are. *)
Theorem run_query_sends_only_guarded (py : PyStr.tables) :
  PyStr.lawful py ->
  forall (C : Type) (connector : BaseConnector.t C) (sql : string)
         (w : Tools.world C),
    let log := snd (snd (Tools.run_query py connector (Some sql) w)) in
    log = snd w \/
    exists statement,
      log = (snd w ++ [Tools.execute_query_call statement])%list /\
      (statement = sql \/ statement = sql ++ " LIMIT 50") /\
      begins_with (PyStr.upper py (PyStr.strip py statement)) "SELECT" /\
      (forall k, In k Tools.dangerous_keywords ->
                 ~ substring k (PyStr.upper py statement)) /\
      (substring "LIMIT" (PyStr.upper py statement) \/
       substring "TOP" (PyStr.upper py statement)).
Proof.
  intros Hpy C connector sql w log.
  destruct (run_query_log connector sql w Hpy) as [H | (statement & H & Hg)].
  - now left.
  - right. exists statement. split; [exact H | exact Hg].
Qed.

Lemma run_query_sends_only_guarded_witness :
  exists statement,
    snd (snd (Tools.run_query PyStr.seven_bit
                (fixed_connector (Ok sample_tables))
                (Some "select ItemCode from OITM") (start tt))) =
    [Tools.execute_query_call statement] /\
    (forall k, In k Tools.dangerous_keywords ->
               ~ substring k (PyStr.upper PyStr.seven_bit statement)) /\
    (substring "LIMIT" (PyStr.upper PyStr.seven_bit statement) \/
     substring "TOP" (PyStr.upper PyStr.seven_bit statement)).
Proof.
  destruct (run_query_sends_only_guarded lawful_seven_bit
              (fixed_connector (Ok sample_tables))
              "select ItemCode from OITM" (start tt))
    as [H | (statement & H & _ & _ & Hkw & Hcap)].
  - discriminate H.
  - exists statement. split; [exact H | split; [exact Hkw | exact Hcap]].
Defined.

(** X9. The row cap is applied once: a statement that run-query sent to the
    connector, submitted again as [sql], is sent unchanged, in any state and
    to any connector, for every lawful table of the interpreter. *)
Theorem run_query_resubmission (py : PyStr.tables) :
  PyStr.lawful py ->
  forall (C D : Type) (connector : BaseConnector.t C)
         (other : BaseConnector.t D) (sql statement : string)
         (w : Tools.world C) (v : Tools.world D),
    snd (snd (Tools.run_query py connector (Some sql) w)) =
    (snd w ++ [Tools.execute_query_call statement])%list ->
    snd (snd (Tools.run_query py other (Some statement) v)) =
    (snd v ++ [Tools.execute_query_call statement])%list.
Proof.
  intros Hpy C D connector other sql statement w v Hsent.
  destruct (run_query_log connector sql w Hpy) as [H | (s' & H & Hg)].
  - rewrite H in Hsent. symmetry in Hsent. now apply log_grows in Hsent.
  - rewrite H in Hsent. apply app_inj_tail in Hsent.
    destruct Hsent as [_ [= ->]].
    destruct Hg as (_ & Hsel & Hkw & Hcap).
    apply startswith_begins_with in Hsel.
    assert (Hnone : Tools.first_dangerous Tools.dangerous_keywords
                      (PyStr.upper py (PyStr.strip py statement)) = None).
    { apply first_dangerous_none. intros k Hk Hin.
      apply (Hkw k Hk).
      now apply (substring_upper_strip statement Hpy
                   (proj1 (dangerous_keywords_words Hpy Hk))). }
    rewrite (run_query_dispatch _ _ _ _ Hsel Hnone). cbn [snd].
    assert (Hbound :
              negb (PyStr.contains "LIMIT"
                      (PyStr.upper py (PyStr.strip py statement)))
              && negb (PyStr.contains "TOP"
                         (PyStr.upper py (PyStr.strip py statement))) = false).
    { destruct Hcap as [Hc | Hc].
      - apply (substring_upper_strip statement Hpy (word_LIMIT Hpy)) in Hc.
        apply contains_substring in Hc. now rewrite Hc.
      - apply (substring_upper_strip statement Hpy (word_TOP Hpy)) in Hc.
        apply contains_substring in Hc. rewrite Hc. apply andb_false_r. }
    now rewrite Hbound.
Qed.

Lemma run_query_resubmission_witness :
  snd (snd (Tools.run_query PyStr.seven_bit
              (fixed_connector (Ok sample_tables))
              (Some "  select * from OITM LIMIT 50") (start tt))) =
  [Tools.execute_query_call "  select * from OITM LIMIT 50"].
Proof.
  apply (@run_query_resubmission PyStr.seven_bit lawful_seven_bit _ _
           (hana_connector PyStr.seven_bit (reachable kwargs sample_result))
           (fixed_connector (Ok sample_tables))
           "  select * from OITM" "  select * from OITM LIMIT 50"
           (start sample_hana) (start tt)).
  reflexivity.
Defined.

(** ** The connection of a connector *)

Lemma keeps_ret (S A : Type) (s : S) (a : A) : keeps s (ret a).
Proof. reflexivity. Qed.

Lemma keeps_lift (S A : Type) (s : S) (o : outcome A) : keeps s (lift o).
Proof. reflexivity. Qed.

Lemma keeps_bind (S A B : Type) (s : S) (m : M S A) (k : A -> M S B) :
  keeps s m -> (forall a, keeps s (k a)) -> keeps s (bind m k).
Proof.
  unfold keeps, bind. intros Hm Hk.
  destruct (m s) as [[a|e] s'] eqn:E; simpl in Hm; subst s'.
  - apply Hk.
  - reflexivity.
Qed.

Ltac keeps_attributes :=
  repeat first
    [ apply keeps_ret
    | apply keeps_lift
    | assumption
    | apply keeps_bind; [|intros ?]
    | match goal with
      | |- context [if ?c then _ else _] => destruct c; cbv beta iota zeta
      end ].

Section HanaConnection.

Variable py : PyStr.tables.
Variable hdbcli : Driver kwargs.
Variable self : HanaConnector.self_t.
Variable conn : Connection.
Hypothesis Hconn : HanaConnector._connection self = Some conn.

Lemma hana_get_connection_cached :
  HanaConnector._get_connection hdbcli self = (Ok conn, self).
Proof using Hconn. unfold HanaConnector._get_connection. now rewrite Hconn. Qed.

Lemma hana_keeps_get_connection :
  keeps self (HanaConnector._get_connection hdbcli).
Proof using Hconn. unfold keeps. now rewrite hana_get_connection_cached. Qed.

Lemma hana_keeps_get_tables (kw : kwargs) :
  keeps self (HanaConnector.get_tables py hdbcli kw).
Proof using Hconn.
  pose proof hana_keeps_get_connection.
  unfold HanaConnector.get_tables. keeps_attributes.
Qed.

Lemma hana_keeps_get_columns (kw : kwargs) :
  keeps self (HanaConnector.get_columns hdbcli kw).
Proof using Hconn.
  pose proof hana_keeps_get_connection.
  unfold HanaConnector.get_columns. keeps_attributes.
Qed.

Lemma hana_keeps_execute_query (sql : string) :
  keeps self (HanaConnector.execute_query hdbcli sql).
Proof using Hconn.
  pose proof hana_keeps_get_connection.
  unfold HanaConnector.execute_query. keeps_attributes.
Qed.

Lemma hana_keeps_test_connection_try :
  keeps self (HanaConnector.test_connection_try hdbcli).
Proof using Hconn.
  pose proof hana_keeps_get_connection.
  unfold HanaConnector.test_connection_try. keeps_attributes.
Qed.

Lemma hana_test_connection_keeps_connection :
  HanaConnector._connection
    (snd (HanaConnector.test_connection hdbcli self)) = Some conn.
Proof using Hconn.
  pose proof hana_keeps_test_connection_try as Hk. unfold keeps in Hk.
  destruct (hana_test_connection_cases hdbcli self)
    as [(s & Htry & ->) | (e & s & Htry & ->)];
    rewrite Htry in Hk; simpl in Hk; subst s; exact Hconn.
Qed.

End HanaConnection.

Lemma hana_methods_ignore_driver (py : PyStr.tables)
    (hdbcli hdbcli' : Driver kwargs)
    (self : HanaConnector.self_t) (conn : Connection) :
  HanaConnector._connection self = Some conn ->
  (forall kw, HanaConnector.get_tables py hdbcli kw self =
              HanaConnector.get_tables py hdbcli' kw self) /\
  (forall kw, HanaConnector.get_columns hdbcli kw self =
              HanaConnector.get_columns hdbcli' kw self) /\
  (forall sql, HanaConnector.execute_query hdbcli sql self =
               HanaConnector.execute_query hdbcli' sql self) /\
  HanaConnector.test_connection hdbcli self =
  HanaConnector.test_connection hdbcli' self.
Proof.
  intros Hconn.
  assert (Hget : forall d, HanaConnector._get_connection d self = (Ok conn, self))
    by (intros d; now apply hana_get_connection_cached).
  split; [|split; [|split]].
  - intros kw. unfold HanaConnector.get_tables, bind, lift.
    destruct (bind_keywords _ _ kw); [|reflexivity]. now rewrite !Hget.
  - intros kw. unfold HanaConnector.get_columns, bind, lift.
    destruct (bind_keywords _ _ kw); [|reflexivity]. now rewrite !Hget.
  - intros sql. unfold HanaConnector.execute_query, bind. now rewrite !Hget.
  - unfold HanaConnector.test_connection, HanaConnector.test_connection_try,
      try_except, bind.
    now rewrite !Hget.
Qed.

(** X10. Vendor variant: once a connection is stored it is the one every
    later call uses. With [_connection] set, list tables, list columns and
    execute query leave every attribute as it is, [test_connection] leaves
    the connection as it is, and none of them asks the driver again: the
    outcome is the same whatever the driver would answer. A connection that
    has gone bad is therefore never replaced by these methods. *)
Theorem hana_connection_is_reused (py : PyStr.tables) :
  forall (hdbcli hdbcli' : Driver kwargs) (self : HanaConnector.self_t)
         (conn : Connection),
    HanaConnector._connection self = Some conn ->
    (forall kw,
        snd (HanaConnector.get_tables py hdbcli kw self) = self /\
        HanaConnector.get_tables py hdbcli kw self =
        HanaConnector.get_tables py hdbcli' kw self) /\
    (forall kw,
        snd (HanaConnector.get_columns hdbcli kw self) = self /\
        HanaConnector.get_columns hdbcli kw self =
        HanaConnector.get_columns hdbcli' kw self) /\
    (forall sql,
        snd (HanaConnector.execute_query hdbcli sql self) = self /\
        HanaConnector.execute_query hdbcli sql self =
        HanaConnector.execute_query hdbcli' sql self) /\
    HanaConnector._connection
      (snd (HanaConnector.test_connection hdbcli self)) = Some conn /\
    HanaConnector.test_connection hdbcli self =
    HanaConnector.test_connection hdbcli' self.
Proof.
  intros hdbcli hdbcli' self conn Hconn.
  destruct (hana_methods_ignore_driver py hdbcli hdbcli' self Hconn)
    as (Ht & Hc & He & Htest).
  repeat split; auto.
  - now apply hana_keeps_get_tables with (conn := conn).
  - now apply hana_keeps_get_columns with (conn := conn).
  - now apply hana_keeps_execute_query with (conn := conn).
  - now apply hana_test_connection_keeps_connection.
Qed.

Lemma hana_connection_is_reused_witness :
  let self :=
    HanaConnector.set_connection (Some (sample_connection sample_result))
      sample_hana in
  snd (HanaConnector.execute_query (unreachable kwargs) "SELECT 1 FROM DUMMY"
         self) = self /\
  HanaConnector.execute_query (unreachable kwargs) "SELECT 1 FROM DUMMY" self =
  HanaConnector.execute_query (reachable kwargs duplicate_result)
    "SELECT 1 FROM DUMMY" self.
Proof.
  intros self.
  destruct (@hana_connection_is_reused PyStr.seven_bit (unreachable kwargs)
              (reachable kwargs duplicate_result) self
              (sample_connection sample_result) eq_refl)
    as (_ & _ & Hquery & _).
  apply Hquery.
Defined.

Section OdbcConnection.

Variable pyodbc : Driver string.
Variable self : OdbcConnector.self_t.
Variable conn : Connection.
Hypothesis Hconn : OdbcConnector._connection self = Some conn.

Lemma odbc_get_connection_cached :
  OdbcConnector._get_connection pyodbc self = (Ok conn, self).
Proof using Hconn. unfold OdbcConnector._get_connection. now rewrite Hconn. Qed.

Lemma odbc_keeps_get_connection :
  keeps self (OdbcConnector._get_connection pyodbc).
Proof using Hconn. unfold keeps. now rewrite odbc_get_connection_cached. Qed.

Lemma odbc_keeps_get_tables (kw : kwargs) :
  keeps self (OdbcConnector.get_tables pyodbc kw).
Proof using Hconn.
  pose proof odbc_keeps_get_connection.
  unfold OdbcConnector.get_tables. keeps_attributes.
Qed.

Lemma odbc_keeps_get_columns (kw : kwargs) :
  keeps self (OdbcConnector.get_columns pyodbc kw).
Proof using Hconn.
  pose proof odbc_keeps_get_connection.
  unfold OdbcConnector.get_columns. keeps_attributes.
Qed.

Lemma odbc_keeps_execute_query (sql : string) :
  keeps self (OdbcConnector.execute_query pyodbc sql).
Proof using Hconn.
  pose proof odbc_keeps_get_connection.
  unfold OdbcConnector.execute_query. keeps_attributes.
Qed.

Lemma odbc_keeps_test_connection :
  keeps self (OdbcConnector.test_connection pyodbc).
Proof using Hconn.
  assert (Hk : keeps self (OdbcConnector.test_connection_try pyodbc)).
  { pose proof odbc_keeps_get_connection.
    unfold OdbcConnector.test_connection_try. keeps_attributes. }
  unfold keeps in *.
  destruct (odbc_test_connection_cases pyodbc self)
    as [(s & Htry & ->) | (e & s & Htry & ->)];
    rewrite Htry in Hk; exact Hk.
Qed.

End OdbcConnection.

Lemma odbc_methods_ignore_driver (pyodbc pyodbc' : Driver string)
    (self : OdbcConnector.self_t) (conn : Connection) :
  OdbcConnector._connection self = Some conn ->
  (forall kw, OdbcConnector.get_tables pyodbc kw self =
              OdbcConnector.get_tables pyodbc' kw self) /\
  (forall kw, OdbcConnector.get_columns pyodbc kw self =
              OdbcConnector.get_columns pyodbc' kw self) /\
  (forall sql, OdbcConnector.execute_query pyodbc sql self =
               OdbcConnector.execute_query pyodbc' sql self) /\
  OdbcConnector.test_connection pyodbc self =
  OdbcConnector.test_connection pyodbc' self.
Proof.
  intros Hconn.
  assert (Hget : forall d, OdbcConnector._get_connection d self = (Ok conn, self))
    by (intros d; now apply odbc_get_connection_cached).
  split; [|split; [|split]].
  - intros kw. unfold OdbcConnector.get_tables, bind, lift.
    destruct (bind_keywords _ _ kw); [|reflexivity]. now rewrite !Hget.
  - intros kw. unfold OdbcConnector.get_columns, bind, lift.
    destruct (bind_keywords _ _ kw); [|reflexivity]. now rewrite !Hget.
  - intros sql. unfold OdbcConnector.execute_query, bind. now rewrite !Hget.
  - unfold OdbcConnector.test_connection, OdbcConnector.test_connection_try,
      try_except, bind.
    now rewrite !Hget.
Qed.

(** X11. Generic variant: once a connection is stored, list tables, list
    columns, execute query and [test_connection] leave the connector exactly
    as it is and never ask the driver again; their outcome is the same
    whatever the driver would answer. *)
Theorem odbc_connection_is_reused :
  forall (pyodbc pyodbc' : Driver string) (self : OdbcConnector.self_t)
         (conn : Connection),
    OdbcConnector._connection self = Some conn ->
    (forall kw,
        snd (OdbcConnector.get_tables pyodbc kw self) = self /\
        OdbcConnector.get_tables pyodbc kw self =
        OdbcConnector.get_tables pyodbc' kw self) /\
    (forall kw,
        snd (OdbcConnector.get_columns pyodbc kw self) = self /\
        OdbcConnector.get_columns pyodbc kw self =
        OdbcConnector.get_columns pyodbc' kw self) /\
    (forall sql,
        snd (OdbcConnector.execute_query pyodbc sql self) = self /\
        OdbcConnector.execute_query pyodbc sql self =
        OdbcConnector.execute_query pyodbc' sql self) /\
    snd (OdbcConnector.test_connection pyodbc self) = self /\
    OdbcConnector.test_connection pyodbc self =
    OdbcConnector.test_connection pyodbc' self.
Proof.
  intros pyodbc pyodbc' self conn Hconn.
  destruct (odbc_methods_ignore_driver pyodbc pyodbc' self Hconn)
    as (Ht & Hc & He & Htest).
  repeat split; auto.
  - now apply odbc_keeps_get_tables with (conn := conn).
  - now apply odbc_keeps_get_columns with (conn := conn).
  - now apply odbc_keeps_execute_query with (conn := conn).
  - now apply odbc_keeps_test_connection with (conn := conn).
Qed.

Lemma odbc_connection_is_reused_witness :
  let self :=
    OdbcConnector.set_connection (Some (sample_connection sample_result))
      sample_odbc in
  snd (OdbcConnector.test_connection (unreachable string) self) = self /\
  OdbcConnector.test_connection (unreachable string) self =
  OdbcConnector.test_connection (not_installed string) self.
Proof.
  intros self.
  destruct (@odbc_connection_is_reused (unreachable string)
              (not_installed string) self
              (sample_connection sample_result) eq_refl)
    as (_ & _ & _ & Htest).
  exact Htest.
Defined.

(** ** Connecting *)

(** X12. What the vendor variant asks of the driver when it connects.
    Without the driver library the attempt raises [ImportError] with the
    install hint and changes nothing. With it, [dbapi.connect] gets address,
    port, user and password; [databaseName] only for a non-empty tenant name;
    [encrypt] and [sslValidateCertificate] only when encryption is on, so
    [ssl_validate] has no effect without it. The connection is stored only
    when the driver returns one; a refusal changes nothing. *)
Theorem hana_connect_parameters :
  forall (hdbcli : Driver kwargs) (self : HanaConnector.self_t),
    (installed hdbcli = false ->
     HanaConnector.connect hdbcli self =
     (Raise (ImportError
        "hdbcli is required for HANA connections. Install with: pip install hdbcli"),
      self)) /\
    (installed hdbcli = true ->
     exists params,
       HanaConnector.connect hdbcli self =
       match driver_connect hdbcli params with
       | Raise e => (Raise e, self)
       | Ok c => (Ok c, HanaConnector.set_connection (Some c) self)
       end /\
       keys params =
       (["address"; "port"; "user"; "password"] ++
        (if truthy (of_optional (HanaConnector.database_name self))
         then ["databaseName"] else []) ++
        (if HanaConnector.encrypt self
         then ["encrypt"; "sslValidateCertificate"] else []))%list /\
       dict_lookup "address" params = Some (VStr (HanaConnector.host self)) /\
       dict_lookup "port" params = Some (VInt (HanaConnector.port self)) /\
       dict_lookup "user" params = Some (VStr (HanaConnector.user self)) /\
       dict_lookup "password" params =
       Some (VStr (HanaConnector.password self)) /\
       (forall name,
           dict_lookup "databaseName" params = Some name ->
           HanaConnector.database_name self = Some (py_str name) /\
           py_str name <> EmptyString) /\
       (forall v,
           dict_lookup "sslValidateCertificate" params = Some v ->
           HanaConnector.encrypt self = true /\
           dict_lookup "encrypt" params = Some (VBool true) /\
           v = VBool (HanaConnector.ssl_validate self))).
Proof.
  intros hdbcli self. unfold HanaConnector.connect. split; intros ->.
  - reflexivity.
  - cbn [negb].
    destruct (HanaConnector.database_name self) as [[|c s]|];
      destruct (HanaConnector.encrypt self);
      (eexists; split; [reflexivity|]);
      cbn; repeat split; intros; try discriminate;
      repeat match goal with
             | H : Some _ = Some _ |- _ => injection H as H; subst
             end;
      try reflexivity; try discriminate.
Qed.

Lemma hana_connect_parameters_witness :
  HanaConnector.connect (not_installed kwargs) sample_hana =
  (Raise (ImportError
     "hdbcli is required for HANA connections. Install with: pip install hdbcli"),
   sample_hana) /\
  exists params,
    HanaConnector.connect (unreachable kwargs)
      (HanaConnector.init "hana.local" 30013 "SYSTEM" "secret" (Some "SBO")
         false false) =
    (Raise connection_refused,
     HanaConnector.init "hana.local" 30013 "SYSTEM" "secret" (Some "SBO")
       false false) /\
    keys params = ["address"; "port"; "user"; "password"; "databaseName"].
Proof.
  split.
  - now apply (proj1 (hana_connect_parameters (not_installed kwargs) sample_hana)).
  - destruct (proj2 (hana_connect_parameters (unreachable kwargs)
                       (HanaConnector.init "hana.local" 30013 "SYSTEM" "secret"
                          (Some "SBO") false false)) eq_refl)
      as (params & Hconnect & Hkeys & _).
    exists params. split; [exact Hconnect | exact Hkeys].
Defined.

Lemma hana_connect_failure (hdbcli : Driver kwargs)
    (self self' : HanaConnector.self_t) (e : exn) :
  HanaConnector.connect hdbcli self = (Raise e, self') -> self' = self.
Proof.
  unfold HanaConnector.connect.
  destruct (negb (installed hdbcli)); [now intros [= _ <-]|].
  destruct (driver_connect hdbcli _); [discriminate|]. now intros [= _ <-].
Qed.

Lemma odbc_connect_failure (pyodbc : Driver string)
    (self self' : OdbcConnector.self_t) (e : exn) :
  OdbcConnector.connect pyodbc self = (Raise e, self') -> self' = self.
Proof.
  unfold OdbcConnector.connect.
  destruct (negb (installed pyodbc)); [now intros [= _ <-]|].
  destruct (driver_connect pyodbc _); [discriminate|]. now intros [= _ <-].
Qed.

(** X13. Vendor variant without a stored connection: when the attempt to
    connect fails with [e], nothing is stored, so the next call tries again,
    and the failure is what the caller sees: list-tables, list-columns and a
    run-query that passes its guards answer [ERROR: ] followed by the text of
    [e], and [test_connection] returns false and keeps that text. The guards
    are the handler's own, read with the interpreter's tables [py]. *)
Theorem hana_connect_failure_reported (py : PyStr.tables) :
  forall (hdbcli : Driver kwargs) (self self' : HanaConnector.self_t)
         (e : exn) (log : list Tools.call),
    HanaConnector._connection self = None ->
    HanaConnector.connect hdbcli self = (Raise e, self') ->
    self' = self /\
    (forall catalog schema search limit,
        fst (Tools.get_tables (hana_connector py hdbcli) catalog schema search
               limit (self, log)) = Ok ("ERROR: " ++ exn_text e) /\
        fst (snd (Tools.get_tables (hana_connector py hdbcli) catalog schema
                    search limit (self, log))) = self) /\
    (forall table catalog schema,
        table <> EmptyString ->
        fst (Tools.get_columns (hana_connector py hdbcli) (Some table) catalog
               schema (self, log)) = Ok ("ERROR: " ++ exn_text e) /\
        fst (snd (Tools.get_columns (hana_connector py hdbcli) (Some table)
                    catalog schema (self, log))) = self) /\
    (forall sql,
        begins_with (PyStr.upper py (PyStr.strip py sql)) "SELECT" ->
        (forall k, In k Tools.dangerous_keywords ->
                   ~ substring k (PyStr.upper py (PyStr.strip py sql))) ->
        fst (Tools.run_query py (hana_connector py hdbcli) (Some sql)
               (self, log)) =
        Ok ("ERROR: " ++ exn_text e) /\
        fst (snd (Tools.run_query py (hana_connector py hdbcli) (Some sql)
                    (self, log))) = self) /\
    HanaConnector.test_connection hdbcli self =
    (Ok false, HanaConnector.set_last_error (Some (exn_text e)) self).
Proof.
  intros hdbcli self self' e log Hnone Hconnect.
  assert (self' = self) by now apply hana_connect_failure in Hconnect.
  subst self'.
  assert (Hget : HanaConnector._get_connection hdbcli self = (Raise e, self)).
  { unfold HanaConnector._get_connection. now rewrite Hnone. }
  split; [reflexivity|]. split; [|split; [|split]].
  - intros catalog schema search limit.
    unfold Tools.get_tables, try_except, bind, Tools.invoke.
    cbn [hana_connector BaseConnector.get_tables fst snd].
    unfold HanaConnector.get_tables, bind, lift.
    rewrite hana_get_tables_binds, Hget. now split.
  - intros table catalog schema Hne. destruct table as [|a s]; [contradiction|].
    unfold Tools.get_columns, try_except, bind, Tools.invoke.
    cbn [hana_connector BaseConnector.get_columns fst snd].
    unfold HanaConnector.get_columns, bind, lift.
    change (bind_keywords "HanaConnector.get_columns"
              HanaConnector.get_columns_signature
              [("table", VStr (String a s)); ("catalog", of_optional catalog);
               ("schema", of_optional schema)])
      with (Ok [("table", VStr (String a s)); ("catalog", of_optional catalog);
                ("schema", of_optional schema)] : outcome dict).
    rewrite Hget. now split.
  - intros sql Hsel Hkw.
    apply startswith_begins_with in Hsel. apply first_dangerous_none in Hkw.
    rewrite (run_query_dispatch _ _ _ _ Hsel Hkw).
    cbn [hana_connector BaseConnector.execute_query fst snd].
    unfold HanaConnector.execute_query, bind. rewrite Hget. now split.
  - unfold HanaConnector.test_connection, HanaConnector.test_connection_try,
      try_except, bind.
    now rewrite Hget.
Qed.

Lemma hana_connect_failure_reported_witness :
  fst (Tools.run_query PyStr.seven_bit
         (hana_connector PyStr.seven_bit (not_installed kwargs))
         (Some "SELECT 1 FROM DUMMY") (start sample_hana)) =
  Ok "ERROR: hdbcli is required for HANA connections. Install with: pip install hdbcli"
  /\
  HanaConnector.test_connection (not_installed kwargs) sample_hana =
  (Ok false,
   HanaConnector.set_last_error
     (Some "hdbcli is required for HANA connections. Install with: pip install hdbcli")
     sample_hana).
Proof.
  destruct (@hana_connect_failure_reported PyStr.seven_bit
              (not_installed kwargs) sample_hana
              sample_hana
              (ImportError
                 "hdbcli is required for HANA connections. Install with: pip install hdbcli")
              [] eq_refl eq_refl)
    as (_ & _ & _ & Hquery & Htest).
  split; [|exact Htest].
  apply Hquery.
  - exists " 1 FROM DUMMY". reflexivity.
  - intros k Hk. apply contains_false_iff. simpl in Hk.
    repeat (destruct Hk as [<- | Hk]; [reflexivity|]). contradiction.
Defined.

(** ** The statements of the vendor variant *)

Lemma count_char_append (ch : ascii) (a b : string) :
  count_char ch (a ++ b) = (count_char ch a + count_char ch b)%nat.
Proof.
  induction a as [|c a IH]; [reflexivity|]. cbn [append count_char].
  rewrite IH. lia.
Qed.

Lemma count_question_digits (d : Decimal.uint) :
  count_char "?" (NilEmpty.string_of_uint d) = 0%nat.
Proof.
  induction d; cbn [NilEmpty.string_of_uint count_char]; try reflexivity;
    now rewrite IHd.
Qed.

Lemma count_question_of_Z (n : Z) : count_char "?" (PyStr.of_Z n) = 0%nat.
Proof.
  unfold PyStr.of_Z, NilZero.string_of_int.
  assert (Hu : forall d, count_char "?" (NilZero.string_of_uint d) = 0%nat).
  { intros d. unfold NilZero.string_of_uint.
    destruct d; try reflexivity; apply count_question_digits. }
  destruct (Z.to_int n) as [d | d]; [apply Hu|].
  cbn [count_char]. now rewrite Hu.
Qed.

(** X14. The vendor variant's table listing never puts a filter value into
    the statement text. There is one fixed text [base] without placeholder;
    the statement is [base], a schema condition when a schema is given, a
    name condition when a search term is given, the ordering and the row
    limit; the schema and the search term, upper-cased by the interpreter's
    tables [py] and put between [%], travel as parameters; and the statement
    has exactly as many placeholders as there are parameters. *)
Theorem hana_get_tables_statement (py : PyStr.tables) :
  exists base,
    count_char "?" base = 0%nat /\
    forall (catalog schema search : option string) (limit : Z),
      let with_schema := truthy (of_optional schema) in
      let with_search := truthy (of_optional search) in
      let sql :=
        base
          ++ (if with_schema then " AND SCHEMA_NAME = ?" else EmptyString)
          ++ (if with_search then " AND upper(TABLE_NAME) LIKE ?"
              else EmptyString)
          ++ " ORDER BY SCHEMA_NAME, TABLE_NAME LIMIT " ++ PyStr.of_Z limit in
      let params :=
        ((if with_schema then [of_optional schema] else []) ++
         (if with_search
          then [VStr ("%" ++ PyStr.upper py (py_str (of_optional search))
                          ++ "%")]
          else []))%list in
      hana_executes
        (fun hdbcli =>
           HanaConnector.get_tables py hdbcli
             [("catalog", of_optional catalog); ("schema", of_optional schema);
              ("search", of_optional search); ("limit", VInt limit)])
        sql params /\
      count_char "?" sql = List.length params.
Proof.
  exists (HanaConnector.nl ++ "            SELECT" ++ HanaConnector.nl ++
          "                SCHEMA_NAME as " ++ HanaConnector.quoted "Schema"
          ++ "," ++ HanaConnector.nl ++
          "                TABLE_NAME as " ++ HanaConnector.quoted "Table"
          ++ "," ++ HanaConnector.nl ++
          "                COMMENTS as " ++ HanaConnector.quoted "Description"
          ++ HanaConnector.nl ++
          "            FROM SYS.TABLES" ++ HanaConnector.nl ++
          "            WHERE 1=1" ++ HanaConnector.nl ++ "        ").
  split; [|intros catalog schema search limit].
  2:{ cbv zeta. split.
      - intros hdbcli self conn e Hconn Hcur Hexec.
        unfold HanaConnector.get_tables, bind, lift.
        rewrite hana_get_tables_binds.
        rewrite (hana_get_connection_cached hdbcli self Hconn), Hcur.
        unfold dict_get. cbn [dict_lookup String.eqb Ascii.eqb Bool.eqb].
        cbv beta iota zeta.
        destruct schema as [[|a s]|], search as [[|b t]|];
          cbn [of_optional truthy PyStr.nonempty] in *; cbv beta iota zeta;
          match goal with
          | |- context [execute conn ?s ?p] =>
              replace (execute conn s p) with (@Raise result_set e)
                by (symmetry; exact Hexec)
          end; reflexivity.
      - destruct schema as [[|a s]|], search as [[|b t]|];
          cbn [of_optional truthy PyStr.nonempty];
          rewrite !count_char_append, count_question_of_Z; reflexivity. }
  reflexivity.
Qed.

Lemma hana_get_tables_statement_witness :
  exists sql,
    HanaConnector.get_tables PyStr.seven_bit (unreachable kwargs)
      [("catalog", VNone); ("schema", VNone); ("search", VStr "itm");
       ("limit", VInt 10)]
      (HanaConnector.set_connection (Some refusing_connection) sample_hana) =
    (Raise (mk_exn "Error" ("1 parameters for:" ++ sql)),
     HanaConnector.set_connection (Some refusing_connection) sample_hana) /\
    count_char "?" sql = 1%nat.
Proof.
  destruct (hana_get_tables_statement PyStr.seven_bit) as (base & _ & H).
  destruct (H None None (Some "itm") 10%Z) as [Hexec Hcount].
  eexists. split; [|exact Hcount].
  apply (Hexec (unreachable kwargs)
           (HanaConnector.set_connection (Some refusing_connection) sample_hana)
           refusing_connection); reflexivity.
Defined.

Lemma hana_get_columns_binds (table : string) (catalog schema : option string) :
  bind_keywords "HanaConnector.get_columns" HanaConnector.get_columns_signature
    [("table", VStr table); ("catalog", of_optional catalog);
     ("schema", of_optional schema)] =
  Ok [("table", VStr table); ("catalog", of_optional catalog);
      ("schema", of_optional schema)].
Proof. reflexivity. Qed.

(** X15. The vendor variant's column listing never puts the table or schema
    name into the statement text: the statement is one fixed text with a
    single placeholder for the table name, a schema condition when a schema
    is given, and the ordering by position; the names travel as parameters,
    and the statement has exactly as many placeholders as there are
    parameters. *)
Theorem hana_get_columns_statement :
  exists base,
    count_char "?" base = 1%nat /\
    forall (table : string) (catalog schema : option string),
      let with_schema := truthy (of_optional schema) in
      let sql :=
        base
          ++ (if with_schema then " AND SCHEMA_NAME = ?" else EmptyString)
          ++ " ORDER BY POSITION" in
      let params :=
        (VStr table :: (if with_schema then [of_optional schema] else []))%list in
      hana_executes
        (fun hdbcli =>
           HanaConnector.get_columns hdbcli
             [("table", VStr table); ("catalog", of_optional catalog);
              ("schema", of_optional schema)])
        sql params /\
      count_char "?" sql = List.length params.
Proof.
  exists (HanaConnector.nl ++ "            SELECT" ++ HanaConnector.nl ++
          "                SCHEMA_NAME as " ++ HanaConnector.quoted "Schema"
          ++ "," ++ HanaConnector.nl ++
          "                TABLE_NAME as " ++ HanaConnector.quoted "Table"
          ++ "," ++ HanaConnector.nl ++
          "                COLUMN_NAME as " ++ HanaConnector.quoted "Column"
          ++ "," ++ HanaConnector.nl ++
          "                DATA_TYPE_NAME as " ++ HanaConnector.quoted "DataType"
          ++ "," ++ HanaConnector.nl ++
          "                COMMENTS as " ++ HanaConnector.quoted "Description"
          ++ HanaConnector.nl ++
          "            FROM SYS.TABLE_COLUMNS" ++ HanaConnector.nl ++
          "            WHERE TABLE_NAME = ?" ++ HanaConnector.nl ++ "        ").
  split; [reflexivity|]. intros table catalog schema. cbv zeta. split.
  - intros hdbcli self conn e Hconn Hcur Hexec.
    unfold HanaConnector.get_columns, bind, lift.
    rewrite hana_get_columns_binds.
    rewrite (hana_get_connection_cached hdbcli self Hconn), Hcur.
    unfold dict_get. cbn [dict_lookup String.eqb Ascii.eqb Bool.eqb].
    cbv beta iota zeta.
    destruct schema as [[|a s]|];
      cbn [of_optional truthy PyStr.nonempty] in *; cbv beta iota zeta;
      match goal with
      | |- context [execute conn ?s ?p] =>
          replace (execute conn s p) with (@Raise result_set e)
            by (symmetry; exact Hexec)
      end; reflexivity.
  - destruct schema as [[|a s]|];
      cbn [of_optional truthy PyStr.nonempty];
      rewrite !count_char_append; reflexivity.
Qed.

Lemma hana_get_columns_statement_witness :
  exists sql,
    HanaConnector.get_columns (unreachable kwargs)
      [("table", VStr "OITM'; DROP TABLE OITM --"); ("catalog", VNone);
       ("schema", VStr "SBODEMO")]
      (HanaConnector.set_connection (Some refusing_connection) sample_hana) =
    (Raise (mk_exn "Error" ("2 parameters for:" ++ sql)),
     HanaConnector.set_connection (Some refusing_connection) sample_hana) /\
    count_char "?" sql = 2%nat.
Proof.
  destruct hana_get_columns_statement as (base & _ & H).
  destruct (H "OITM'; DROP TABLE OITM --" None (Some "SBODEMO"))
    as [Hexec Hcount].
  eexists. split; [|exact Hcount].
  apply (Hexec (unreachable kwargs)
           (HanaConnector.set_connection (Some refusing_connection) sample_hana)
           refusing_connection); reflexivity.
Defined.

(** ** The descriptors of the vendor variant *)

Lemma collect_Forall (A : Type) (f : A -> outcome dict) (P : dict -> Prop)
    (rows : list A) (ds : list dict) :
  (forall row d, f row = Ok d -> P d) ->
  collect f rows = Ok ds -> Forall P ds.
Proof.
  intros Hf. revert ds. induction rows as [|row rows IH]; intros ds; simpl.
  - intros [= <-]. constructor.
  - destruct (f row) as [d|e] eqn:E; [|discriminate].
    destruct (collect f rows) as [ds'|e]; [|discriminate].
    intros [= <-]. constructor; [now apply (Hf row) | now apply IH].
Qed.

Lemma collect_length (A : Type) (f : A -> outcome dict) (rows : list A)
    (ds : list dict) :
  collect f rows = Ok ds -> List.length ds = List.length rows.
Proof.
  revert ds. induction rows as [|row rows IH]; intros ds; simpl.
  - now intros [= <-].
  - destruct (f row) as [d|e]; [|discriminate].
    destruct (collect f rows) as [ds'|e]; [|discriminate].
    intros [= <-]. simpl. f_equal. now apply IH.
Qed.

Lemma hana_get_tables_descriptors (py : PyStr.tables)
    (hdbcli : Driver kwargs) (kw : kwargs)
    (self self' : HanaConnector.self_t) (ds : list dict) :
  HanaConnector.get_tables py hdbcli kw self = (Ok ds, self') ->
  Forall (fun d => keys d = ["Schema"; "Table"; "Description"]) ds.
Proof.
  unfold HanaConnector.get_tables, bind, lift, ret.
  destruct (bind_keywords _ _ kw) as [args|]; [|discriminate].
  destruct (HanaConnector._get_connection hdbcli self) as [[conn|] s1];
    [|discriminate].
  destruct (cursor conn); [|discriminate].
  destruct (truthy (dict_get "schema" args VNone)),
           (truthy (dict_get "search" args VNone));
    cbv beta iota zeta;
    (match goal with
     | |- context [execute conn ?s ?p] => destruct (execute conn s p) as [rs|]
     end; [|discriminate]);
    (match goal with
     | |- context [collect ?f ?l] => destruct (collect f l) as [found|] eqn:E
     end; [|discriminate]);
    (destruct (cursor_close conn); [|discriminate]);
    intros [= <- _]; (eapply collect_Forall; [|exact E]);
    intros row d; cbv beta;
    destruct (row_index row 0), (row_index row 1), (row_index row 2);
    try discriminate; now intros [= <-].
Qed.

Lemma hana_get_columns_descriptors (hdbcli : Driver kwargs) (kw : kwargs)
    (self self' : HanaConnector.self_t) (ds : list dict) :
  HanaConnector.get_columns hdbcli kw self = (Ok ds, self') ->
  Forall
    (fun d => keys d = ["Schema"; "Table"; "Column"; "DataType"; "Description"])
    ds.
Proof.
  unfold HanaConnector.get_columns, bind, lift, ret.
  destruct (bind_keywords _ _ kw) as [args|]; [|discriminate].
  destruct (HanaConnector._get_connection hdbcli self) as [[conn|] s1];
    [|discriminate].
  destruct (cursor conn); [|discriminate].
  destruct (truthy (dict_get "schema" args VNone));
    cbv beta iota zeta;
    (match goal with
     | |- context [execute conn ?s ?p] => destruct (execute conn s p) as [rs|]
     end; [|discriminate]);
    (match goal with
     | |- context [collect ?f ?l] => destruct (collect f l) as [found|] eqn:E
     end; [|discriminate]);
    (destruct (cursor_close conn); [|discriminate]);
    intros [= <- _]; (eapply collect_Forall; [|exact E]);
    intros row d; cbv beta;
    destruct (row_index row 0), (row_index row 1), (row_index row 2),
             (row_index row 3), (row_index row 4);
    try discriminate; now intros [= <-].
Qed.

Lemma dict_lookup_absent (k : string) (d : dict) :
  ~ In k (keys d) -> dict_lookup k d = None.
Proof.
  unfold keys. induction d as [|[k0 v0] d IH]; intros H; [reflexivity|].
  simpl. destruct (String.eqb k0 k) eqn:E.
  - apply String.eqb_eq in E. subst k0. exfalso. apply H. now left.
  - apply IH. intros Hin. apply H. now right.
Qed.

Lemma no_catalog_among (names : list string) (batch : list dict) :
  ~ In "Catalog" names ->
  Forall (fun d => keys d = names) batch ->
  existsb (fun t => truthy (dict_get "Catalog" t VNone)) batch = false.
Proof.
  intros Hnames Hbatch. induction Hbatch as [|d batch Hd _ IH]; [reflexivity|].
  cbn [existsb]. rewrite IH. unfold dict_get.
  rewrite dict_lookup_absent by now rewrite Hd. reflexivity.
Qed.

(** X16. On the vendor variant the listings never have a Catalog column.
    Whatever descriptors [HanaConnector.get_tables] returns for the keywords
    of list-tables, each has exactly the keys Schema, Table, Description, in
    that order, and list-tables answers with its sentinel when there is none
    and otherwise with these descriptors formatted under Schema, Table,
    Description when some descriptor has a non-empty schema, and under
    Table, Description when none has. list-columns likewise, with the keys
    Schema, Table, Column, DataType, Description. *)
Theorem hana_listings_have_no_catalog (py : PyStr.tables) :
  forall (hdbcli : Driver kwargs) (w : Tools.world HanaConnector.self_t),
    (forall catalog schema search limit tables self',
        HanaConnector.get_tables py hdbcli
          [("catalog", of_optional catalog); ("schema", of_optional schema);
           ("search", of_optional search); ("limit", VInt limit)] (fst w) =
        (Ok tables, self') ->
        Forall (fun d => keys d = ["Schema"; "Table"; "Description"]) tables /\
        fst (Tools.get_tables (hana_connector py hdbcli) catalog schema
               search limit w) =
        Ok (match tables with
            | [] => "No tables found."
            | _ :: _ =>
                to_csv tables
                  (Some (if existsb
                              (fun d => truthy (dict_get "Schema" d VNone))
                              tables
                         then ["Schema"; "Table"; "Description"]
                         else ["Table"; "Description"]))
            end)) /\
    (forall table catalog schema found self',
        table <> EmptyString ->
        HanaConnector.get_columns hdbcli
          [("table", VStr table); ("catalog", of_optional catalog);
           ("schema", of_optional schema)] (fst w) =
        (Ok found, self') ->
        Forall
          (fun d =>
             keys d = ["Schema"; "Table"; "Column"; "DataType"; "Description"])
          found /\
        fst (Tools.get_columns (hana_connector py hdbcli) (Some table)
               catalog schema w) =
        Ok (match found with
            | [] => "No columns found for table: " ++ table
            | _ :: _ =>
                to_csv found
                  (Some (if existsb
                              (fun d => truthy (dict_get "Schema" d VNone))
                              found
                         then ["Schema"; "Table"; "Column"; "DataType";
                               "Description"]
                         else ["Table"; "Column"; "DataType"; "Description"]))
            end)).
Proof.
  intros hdbcli w. split.
  - intros catalog schema search limit tables self' Hget.
    pose proof (hana_get_tables_descriptors _ _ _ _ Hget) as Hkeys.
    split; [exact Hkeys|].
    unfold Tools.get_tables, try_except, bind, Tools.invoke.
    cbn [hana_connector BaseConnector.get_tables]. rewrite Hget.
    destruct tables as [|t ts]; cbn [fst ret]; [reflexivity|].
    rewrite (no_catalog_among (names := ["Schema"; "Table"; "Description"]))
      by (try assumption; simpl; intuition discriminate).
    now destruct (existsb _ (t :: ts)).
  - intros table catalog schema found self' Hne Hget.
    pose proof (hana_get_columns_descriptors _ _ _ Hget) as Hkeys.
    split; [exact Hkeys|].
    destruct table as [|a s]; [contradiction|].
    unfold Tools.get_columns, try_except, bind, Tools.invoke.
    cbn [hana_connector BaseConnector.get_columns]. rewrite Hget.
    destruct found as [|t ts]; cbn [fst ret]; [reflexivity|].
    rewrite (no_catalog_among
               (names := ["Schema"; "Table"; "Column"; "DataType";
                          "Description"]))
      by (try assumption; simpl; intuition discriminate).
    now destruct (existsb _ (t :: ts)).
Qed.

Lemma hana_listings_have_no_catalog_witness :
  fst (Tools.get_tables
         (hana_connector PyStr.seven_bit (reachable kwargs sample_listing))
         None None (Some "o") 50 (start sample_hana)) =
  Ok (to_csv
        [[("Schema", VStr "SBODEMO"); ("Table", VStr "OITM");
          ("Description", VStr "Items")];
         [("Schema", VStr "SBODEMO"); ("Table", VStr "ORDR");
          ("Description", VStr EmptyString)]]
        (Some ["Schema"; "Table"; "Description"])).
Proof.
  destruct (hana_listings_have_no_catalog PyStr.seven_bit
              (reachable kwargs sample_listing) (start sample_hana))
    as [Htables _].
  destruct (Htables None None (Some "o") 50%Z
              [[("Schema", VStr "SBODEMO"); ("Table", VStr "OITM");
                ("Description", VStr "Items")];
               [("Schema", VStr "SBODEMO"); ("Table", VStr "ORDR");
                ("Description", VStr EmptyString)]]
              (HanaConnector.set_connection
                 (Some (sample_connection sample_listing)) sample_hana)
              eq_refl) as [_ Hanswer].
  exact Hanswer.
Defined.

(** ** The column listing of the generic variant *)

Lemma odbc_get_columns_rows (pyodbc : Driver string)
    (self : OdbcConnector.self_t) (conn : Connection) (table : string)
    (catalog schema : option string) (found : list columns_row) :
  OdbcConnector._connection self = Some conn ->
  cursor conn = Ok tt ->
  columns conn (VStr table) (of_optional catalog) (of_optional schema) =
  Ok found ->
  cursor_close conn = Ok tt ->
  OdbcConnector.get_columns pyodbc
    [("table", VStr table); ("catalog", of_optional catalog);
     ("schema", of_optional schema)] self =
  (Ok (map (fun row =>
              [("Catalog", py_or (col_table_cat row) (VStr EmptyString));
               ("Schema", py_or (col_table_schem row) (VStr EmptyString));
               ("Table", col_table_name row);
               ("Column", column_name row);
               ("DataType", type_name row);
               ("Description",
                py_or (match col_remarks row with
                       | Some v => v
                       | None => VStr EmptyString
                       end) (VStr EmptyString))]) found),
   self).
Proof.
  intros Hconn Hcur Hfound Hclose.
  unfold OdbcConnector.get_columns, bind, lift, ret.
  change (bind_keywords "OdbcConnector.get_columns"
            OdbcConnector.get_columns_signature
            [("table", VStr table); ("catalog", of_optional catalog);
             ("schema", of_optional schema)])
    with (Ok [("table", VStr table); ("catalog", of_optional catalog);
              ("schema", of_optional schema)] : outcome dict).
  rewrite (odbc_get_connection_cached pyodbc self Hconn), Hcur.
  unfold dict_get. cbn [dict_lookup String.eqb Ascii.eqb Bool.eqb].
  cbv beta iota zeta. now rewrite Hfound, Hclose.
Qed.

(** X17. list-columns works on the generic variant: the keywords the handler
    passes are the ones [OdbcConnector.get_columns] takes, and the table,
    catalog and schema arguments reach the driver's catalog function as
    given ([None] for an absent one). With a stored connection the answer is
    the sentinel when the driver finds no column, and otherwise one
    descriptor per driver row, in the driver's order, with the table name,
    column name and type name as the driver gave them, formatted under the
    optional columns followed by Table, Column, DataType, Description. *)
Theorem odbc_list_columns_from_catalog :
  forall (pyodbc : Driver string) (self : OdbcConnector.self_t)
         (conn : Connection) (table : string)
         (catalog schema : option string) (found : list columns_row)
         (log : list Tools.call),
    OdbcConnector._connection self = Some conn ->
    cursor conn = Ok tt ->
    cursor_close conn = Ok tt ->
    table <> EmptyString ->
    columns conn (VStr table) (of_optional catalog) (of_optional schema) =
    Ok found ->
    exists ds,
      OdbcConnector.get_columns pyodbc
        [("table", VStr table); ("catalog", of_optional catalog);
         ("schema", of_optional schema)] self = (Ok ds, self) /\
      map (fun d => dict_get "Table" d VNone) ds = map col_table_name found /\
      map (fun d => dict_get "Column" d VNone) ds = map column_name found /\
      map (fun d => dict_get "DataType" d VNone) ds = map type_name found /\
      Forall
        (fun d =>
           keys d =
           ["Catalog"; "Schema"; "Table"; "Column"; "DataType"; "Description"])
        ds /\
      fst (Tools.get_columns (odbc_connector pyodbc) (Some table) catalog
             schema (self, log)) =
      Ok (match found with
          | [] => "No columns found for table: " ++ table
          | _ :: _ =>
              to_csv ds
                (Some (optional_columns ds
                         ++ ["Table"; "Column"; "DataType"; "Description"])%list)
          end).
Proof.
  intros pyodbc self conn table catalog schema found log
         Hconn Hcur Hclose Hne Hfound.
  pose proof (odbc_get_columns_rows pyodbc self table catalog schema
                Hconn Hcur Hfound Hclose) as Hrows.
  eexists. split; [exact Hrows|].
  split; [now rewrite map_map|]. split; [now rewrite map_map|].
  split; [now rewrite map_map|]. split.
  - apply Forall_forall. intros d Hd. apply in_map_iff in Hd.
    now destruct Hd as (row & <- & _).
  - destruct table as [|a s]; [contradiction|].
    unfold Tools.get_columns, try_except, bind, Tools.invoke.
    cbn [odbc_connector BaseConnector.get_columns fst snd].
    rewrite Hrows. destruct found as [|row rows]; [reflexivity|].
    cbn [map fst ret]. unfold optional_columns.
    match goal with
    | |- context [existsb ?f ?l] => destruct (existsb f l)
    end;
      match goal with
      | |- context [existsb ?f ?l] => destruct (existsb f l)
      end; reflexivity.
Qed.

Lemma odbc_list_columns_from_catalog_witness :
  exists ds,
    OdbcConnector.get_columns (unreachable string)
      [("table", VStr "OITM"); ("catalog", VNone); ("schema", VNone)]
      (OdbcConnector.set_connection (Some (sample_connection sample_result))
         sample_odbc) =
    (Ok ds,
     OdbcConnector.set_connection (Some (sample_connection sample_result))
       sample_odbc) /\
    fst (Tools.get_columns (odbc_connector (unreachable string)) (Some "OITM")
           None None
           (start (OdbcConnector.set_connection
                     (Some (sample_connection sample_result)) sample_odbc))) =
    Ok "No columns found for table: OITM".
Proof.
  destruct (@odbc_list_columns_from_catalog (unreachable string)
              (OdbcConnector.set_connection
                 (Some (sample_connection sample_result)) sample_odbc)
              (sample_connection sample_result) "OITM" None None [] []
              eq_refl eq_refl eq_refl)
    as (ds & Hds & _ & _ & _ & _ & Htool).
  - discriminate.
  - reflexivity.
  - exists ds. split; [exact Hds | exact Htool].
Defined.

(** ** Configuration *)

Lemma eq_str_true (v : value) (s : string) :
  eq_str v s = true <-> v = VStr s.
Proof.
  destruct v; simpl; try (split; [discriminate | intros H; discriminate H]).
  rewrite String.eqb_eq. split; [now intros -> | now intros [= ->]].
Qed.

Lemma validate_config_empty (config : Config.t) :
  validate_config config = [] <->
  truthy (ServerConfig.name (Config.server config)) = true /\
  truthy (ServerConfig.prefix (Config.server config)) = true /\
  ((Config.connector_type config = VStr "hana" /\
    truthy (dict_get "host" (Config.connector config) (VStr EmptyString)) = true /\
    truthy (dict_get "user" (Config.connector config) (VStr EmptyString)) = true /\
    truthy (dict_get "password" (Config.connector config) (VStr EmptyString))
    = true) \/
   (Config.connector_type config = VStr "odbc" /\
    truthy (dict_get "connection_string" (Config.connector config)
              (VStr EmptyString)) = true)).
Proof.
  unfold validate_config.
  cbn [Config.get_hana_config Config.get_odbc_config HanaConnectorConfig.host
       HanaConnectorConfig.user HanaConnectorConfig.password
       OdbcConnectorConfig.connection_string].
  destruct (eq_str (Config.connector_type config) "hana") eqn:Ehana.
  - apply eq_str_true in Ehana. rewrite Ehana.
    destruct (truthy (ServerConfig.name (Config.server config)));
      destruct (truthy (ServerConfig.prefix (Config.server config)));
      destruct (truthy (dict_get "host" _ _));
      destruct (truthy (dict_get "user" _ _));
      destruct (truthy (dict_get "password" _ _));
      cbn; split; intros H; try discriminate H;
      try (intuition discriminate); try reflexivity.
  - destruct (eq_str (Config.connector_type config) "odbc") eqn:Eodbc.
    + apply eq_str_true in Eodbc. rewrite Eodbc.
      destruct (truthy (ServerConfig.name (Config.server config)));
        destruct (truthy (ServerConfig.prefix (Config.server config)));
        destruct (truthy (dict_get "connection_string" _ _));
        cbn; split; intros H; try discriminate H;
        try (intuition discriminate); try reflexivity.
    + split.
      * intros H. apply app_eq_nil in H. destruct H as [_ H]. discriminate H.
      * intros (_ & _ & [(H & _) | (H & _)]); rewrite H in *; discriminate.
Qed.

(** X18. [validate_config] returns no error exactly when the server name and
    prefix are non-empty and the connector section is either of type hana
    (also when it names no type) with non-empty host, user and password, or
    of type odbc with a non-empty connection string. *)
Theorem validate_config_accepts :
  forall (config : Config.t),
    validate_config config = [] <->
    truthy (ServerConfig.name (Config.server config)) = true /\
    truthy (ServerConfig.prefix (Config.server config)) = true /\
    ((dict_get "type" (Config.connector config) (VStr "hana") = VStr "hana" /\
      truthy (dict_get "host" (Config.connector config) (VStr EmptyString))
      = true /\
      truthy (dict_get "user" (Config.connector config) (VStr EmptyString))
      = true /\
      truthy (dict_get "password" (Config.connector config) (VStr EmptyString))
      = true) \/
     (dict_get "type" (Config.connector config) (VStr "hana") = VStr "odbc" /\
      truthy (dict_get "connection_string" (Config.connector config)
                (VStr EmptyString)) = true)).
Proof. intros config. apply validate_config_empty. Qed.

(** X19. [create_connector] and [validate_config] agree. A configuration
    without validation errors always yields a connector: the vendor one with
    non-empty host, user and password, or the generic one with a non-empty
    connection string. [create_connector] raises only for an unknown type,
    and the text of its [ValueError] is then one of the validation errors.
    The vendor connector never gets an empty tenant name: an empty or
    missing [database_name] is passed as [None]. *)
Theorem validated_config_creates_connector :
  forall (config : Config.t),
    (validate_config config = [] ->
     (exists host port user password database_name encrypt ssl_validate,
         create_connector config =
         Ok (HanaConnector_call host port user password database_name encrypt
               ssl_validate) /\
         truthy host = true /\ truthy user = true /\ truthy password = true) \/
     (exists connection_string,
         create_connector config = Ok (OdbcConnector_call connection_string) /\
         truthy connection_string = true)) /\
    (forall e,
        create_connector config = Raise e ->
        exn_class e = "ValueError" /\
        In (exn_text e) (validate_config config)) /\
    (forall host port user password database_name encrypt ssl_validate,
        create_connector config =
        Ok (HanaConnector_call host port user password database_name encrypt
              ssl_validate) ->
        (database_name = VNone \/ truthy database_name = true) /\
        port = dict_get "port" (Config.connector config) (VInt 30013)).
Proof.
  intros config. split; [|split].
  - intros Hvalid. apply validate_config_empty in Hvalid.
    destruct Hvalid as (_ & _ & [(Htype & Hh & Hu & Hp) | (Htype & Hc)]);
      unfold create_connector; rewrite Htype; cbn [eq_str String.eqb Ascii.eqb
                                                     Bool.eqb].
    + left. do 7 eexists. split; [reflexivity|]. now repeat split.
    + right. eexists. split; [reflexivity|]. exact Hc.
  - intros e. unfold create_connector, validate_config.
    destruct (eq_str (Config.connector_type config) "hana"); [discriminate|].
    destruct (eq_str (Config.connector_type config) "odbc"); [discriminate|].
    intros [= <-]. split; [reflexivity|]. apply in_or_app. right. now left.
  - intros host port user password database_name encrypt ssl_validate.
    unfold create_connector.
    destruct (eq_str (Config.connector_type config) "hana");
      [|destruct (eq_str (Config.connector_type config) "odbc"); discriminate].
    intros [= _ <- _ _ <- _ _]. split; [|reflexivity].
    unfold py_or.
    match goal with
    | |- context [if ?c then _ else _] => destruct c eqn:E
    end; [right; exact E | left; reflexivity].
Qed.

Lemma validated_config_creates_connector_witness :
  (exists host port user password database_name encrypt ssl_validate,
      create_connector
        {| Config.server :=
             {| ServerConfig.name := VStr "test"; ServerConfig.prefix := VStr "test";
                ServerConfig.version := VStr "1.0";
                ServerConfig.http_port := VInt 8088 |};
           Config.connector :=
             [("host", VStr "localhost"); ("user", VStr "user");
              ("password", VStr "pass")];
           Config.tables := []; Config.log_file := VNone |} =
      Ok (HanaConnector_call host port user password database_name encrypt
            ssl_validate) /\
      truthy host = true /\ truthy user = true /\ truthy password = true) \/
  (exists connection_string,
      create_connector
        {| Config.server :=
             {| ServerConfig.name := VStr "test"; ServerConfig.prefix := VStr "test";
                ServerConfig.version := VStr "1.0";
                ServerConfig.http_port := VInt 8088 |};
           Config.connector :=
             [("host", VStr "localhost"); ("user", VStr "user");
              ("password", VStr "pass")];
           Config.tables := []; Config.log_file := VNone |} =
      Ok (OdbcConnector_call connection_string) /\
      truthy connection_string = true).
Proof.
  apply (proj1 (validated_config_creates_connector _)). reflexivity.
Defined.

(** ** The connection test at start-up *)

(** X20. What start-up reports when the connection test fails. For the
    vendor variant the [ConnectionError] carries the text of the failure on a
    Details line; for the generic variant, which has no last-error accessor,
    the text of the failure is lost and only the fixed message remains. When
    the test succeeds nothing is raised. *)
Theorem startup_failure_message (py : PyStr.tables) :
  (forall (hdbcli : Driver kwargs) (self self' : HanaConnector.self_t)
          (e : exn),
      HanaConnector.test_connection_try hdbcli self = (Raise e, self') ->
      test_connection_or_raise (hana_connector py hdbcli) self =
      (Raise (ConnectionError
                ("Failed to connect to database."
                   ++ String PyStr.LF "Details: " ++ exn_text e
                   ++ String PyStr.LF
                        (String PyStr.LF "Please check your configuration."))),
       HanaConnector.set_last_error (Some (exn_text e)) self')) /\
  (forall (pyodbc : Driver string) (self self' : OdbcConnector.self_t)
          (e : exn),
      OdbcConnector.test_connection_try pyodbc self = (Raise e, self') ->
      test_connection_or_raise (odbc_connector pyodbc) self =
      (Raise (ConnectionError
                ("Failed to connect to database."
                   ++ String PyStr.LF
                        (String PyStr.LF "Please check your configuration."))),
       self')) /\
  (forall (hdbcli : Driver kwargs) (self self' : HanaConnector.self_t),
      HanaConnector.test_connection_try hdbcli self = (Ok true, self') ->
      test_connection_or_raise (hana_connector py hdbcli) self =
      (Ok tt, self')) /\
  (forall (pyodbc : Driver string) (self self' : OdbcConnector.self_t),
      OdbcConnector.test_connection_try pyodbc self = (Ok true, self') ->
      test_connection_or_raise (odbc_connector pyodbc) self = (Ok tt, self')).
Proof.
  split; [|split; [|split]].
  - intros hdbcli self self' e Htry.
    unfold test_connection_or_raise, bind.
    cbn [hana_connector BaseConnector.test_connection
         BaseConnector.get_last_error].
    unfold HanaConnector.test_connection, try_except. rewrite Htry.
    cbn [negb]. unfold HanaConnector.get_last_error.
    cbn [HanaConnector.set_last_error HanaConnector._last_error].
    now rewrite !append_assoc.
  - intros pyodbc self self' e Htry.
    unfold test_connection_or_raise, bind.
    cbn [odbc_connector BaseConnector.test_connection
         BaseConnector.get_last_error].
    unfold OdbcConnector.test_connection, try_except. now rewrite Htry.
  - intros hdbcli self self' Htry.
    unfold test_connection_or_raise, bind.
    cbn [hana_connector BaseConnector.test_connection].
    unfold HanaConnector.test_connection, try_except. now rewrite Htry.
  - intros pyodbc self self' Htry.
    unfold test_connection_or_raise, bind.
    cbn [odbc_connector BaseConnector.test_connection].
    unfold OdbcConnector.test_connection, try_except. now rewrite Htry.
Qed.

Lemma startup_failure_message_witness :
  fst (test_connection_or_raise
         (hana_connector PyStr.seven_bit (unreachable kwargs))
         sample_hana) =
  Raise (ConnectionError
           ("Failed to connect to database."
              ++ String PyStr.LF "Details: Connection refused"
              ++ String PyStr.LF
                   (String PyStr.LF "Please check your configuration."))) /\
  fst (test_connection_or_raise (odbc_connector (unreachable string))
         sample_odbc) =
  Raise (ConnectionError
           ("Failed to connect to database."
              ++ String PyStr.LF
                   (String PyStr.LF "Please check your configuration."))).
Proof.
  destruct (startup_failure_message PyStr.seven_bit) as (Hhana & Hodbc & _).
  split.
  - rewrite (Hhana (unreachable kwargs) sample_hana sample_hana
               connection_refused eq_refl).
    reflexivity.
  - rewrite (Hodbc (unreachable string) sample_odbc sample_odbc
               connection_refused eq_refl).
    reflexivity.
Defined.

(** ** Closing *)

Lemma hana_connect_stores (hdbcli : Driver kwargs)
    (self self1 : HanaConnector.self_t) (c : Connection) :
  HanaConnector.connect hdbcli self = (Ok c, self1) ->
  self1 = HanaConnector.set_connection (Some c) self.
Proof.
  unfold HanaConnector.connect.
  destruct (negb (installed hdbcli)); [discriminate|].
  destruct (driver_connect hdbcli _); [|discriminate]. now intros [= <- <-].
Qed.

Lemma odbc_connect_stores (pyodbc : Driver string)
    (self self1 : OdbcConnector.self_t) (c : Connection) :
  OdbcConnector.connect pyodbc self = (Ok c, self1) ->
  self1 = OdbcConnector.set_connection (Some c) self.
Proof.
  unfold OdbcConnector.connect.
  destruct (negb (installed pyodbc)); [discriminate|].
  destruct (driver_connect pyodbc _); [|discriminate]. now intros [= <- <-].
Qed.

(** X21. [close] undoes [connect]. On a connector without connection,
    [close] does nothing; after a successful [connect], a [close] whose
    connection closes brings the connector back to exactly the attributes it
    had before connecting, so the next call connects anew; and when closing
    the connection raises, the exception propagates and the connection stays
    stored. This holds for both variants. *)
Theorem close_undoes_connect :
  forall (connection_close : Connection -> outcome unit),
    (forall (hdbcli : Driver kwargs) (self self1 : HanaConnector.self_t)
            (c : Connection),
        HanaConnector._connection self = None ->
        hana_close connection_close self = (Ok tt, self) /\
        (HanaConnector.connect hdbcli self = (Ok c, self1) ->
         (connection_close c = Ok tt ->
          hana_close connection_close self1 = (Ok tt, self)) /\
         (forall e,
             connection_close c = Raise e ->
             hana_close connection_close self1 = (Raise e, self1) /\
             HanaConnector._connection self1 = Some c))) /\
    (forall (pyodbc : Driver string) (self self1 : OdbcConnector.self_t)
            (c : Connection),
        OdbcConnector._connection self = None ->
        odbc_close connection_close self = (Ok tt, self) /\
        (OdbcConnector.connect pyodbc self = (Ok c, self1) ->
         (connection_close c = Ok tt ->
          odbc_close connection_close self1 = (Ok tt, self)) /\
         (forall e,
             connection_close c = Raise e ->
             odbc_close connection_close self1 = (Raise e, self1) /\
             OdbcConnector._connection self1 = Some c))).
Proof.
  intros connection_close. split.
  - intros hdbcli self self1 c Hnone. unfold hana_close. split.
    + now rewrite Hnone.
    + intros Hconnect. apply hana_connect_stores in Hconnect. subst self1.
      cbn [HanaConnector.set_connection HanaConnector._connection].
      split.
      * intros ->. f_equal. destruct self. simpl in *. now subst.
      * intros e ->. now split.
  - intros pyodbc self self1 c Hnone. unfold odbc_close. split.
    + now rewrite Hnone.
    + intros Hconnect. apply odbc_connect_stores in Hconnect. subst self1.
      cbn [OdbcConnector.set_connection OdbcConnector._connection].
      split.
      * intros ->. f_equal. destruct self. simpl in *. now subst.
      * intros e ->. now split.
Qed.

Lemma close_undoes_connect_witness :
  hana_close (fun _ => Ok tt)
    (snd (HanaConnector.connect (reachable kwargs sample_result) sample_hana)) =
  (Ok tt, sample_hana) /\
  odbc_close (fun _ => Ok tt)
    (snd (OdbcConnector.connect (reachable string sample_result) sample_odbc)) =
  (Ok tt, sample_odbc).
Proof.
  destruct (close_undoes_connect (fun _ => Ok tt)) as [Hhana Hodbc].
  split.
  - apply (proj1 (proj2 (Hhana (reachable kwargs sample_result) sample_hana
                           _ (sample_connection sample_result) eq_refl)
                    eq_refl)).
    reflexivity.
  - apply (proj1 (proj2 (Hodbc (reachable string sample_result) sample_odbc
                           _ (sample_connection sample_result) eq_refl)
                    eq_refl)).
    reflexivity.
Defined.

(** X22. Generic variant without a stored connection: when the attempt to
    connect fails with [e], [e] is the [ImportError] with the install hint
    (no driver library) or what the driver raised for the connection string;
    nothing is stored, so the next call tries again; list-columns and a
    run-query that passes its guards answer [ERROR: ] followed by the text of
    [e]; and [test_connection] returns false and keeps nothing of it. The
    guards are the handler's own, read with the interpreter's tables [py]. *)
Theorem odbc_connect_failure_reported (py : PyStr.tables) :
  forall (pyodbc : Driver string) (self self' : OdbcConnector.self_t)
         (e : exn) (log : list Tools.call),
    OdbcConnector._connection self = None ->
    OdbcConnector.connect pyodbc self = (Raise e, self') ->
    self' = self /\
    (if installed pyodbc
     then driver_connect pyodbc (OdbcConnector.connection_string self) = Raise e
     else e = ImportError
            "pyodbc is required for ODBC connections. Install with: pip install pyodbc") /\
    (forall table catalog schema,
        table <> EmptyString ->
        fst (Tools.get_columns (odbc_connector pyodbc) (Some table) catalog
               schema (self, log)) = Ok ("ERROR: " ++ exn_text e) /\
        fst (snd (Tools.get_columns (odbc_connector pyodbc) (Some table)
                    catalog schema (self, log))) = self) /\
    (forall sql,
        begins_with (PyStr.upper py (PyStr.strip py sql)) "SELECT" ->
        (forall k, In k Tools.dangerous_keywords ->
                   ~ substring k (PyStr.upper py (PyStr.strip py sql))) ->
        fst (Tools.run_query py (odbc_connector pyodbc) (Some sql)
               (self, log)) =
        Ok ("ERROR: " ++ exn_text e) /\
        fst (snd (Tools.run_query py (odbc_connector pyodbc) (Some sql)
                    (self, log))) = self) /\
    OdbcConnector.test_connection pyodbc self = (Ok false, self).
Proof.
  intros pyodbc self self' e log Hnone Hconnect.
  assert (self' = self) by now apply odbc_connect_failure in Hconnect.
  subst self'.
  assert (Hget : OdbcConnector._get_connection pyodbc self = (Raise e, self)).
  { unfold OdbcConnector._get_connection. now rewrite Hnone. }
  split; [reflexivity|]. split; [|split; [|split]].
  - revert Hconnect. unfold OdbcConnector.connect.
    destruct (installed pyodbc); cbn [negb].
    + destruct (driver_connect pyodbc _); [discriminate|]. now intros [= ->].
    + now intros [= <-].
  - intros table catalog schema Hne. destruct table as [|a s]; [contradiction|].
    unfold Tools.get_columns, try_except, bind, Tools.invoke.
    cbn [odbc_connector BaseConnector.get_columns fst snd].
    unfold OdbcConnector.get_columns, bind, lift.
    change (bind_keywords "OdbcConnector.get_columns"
              OdbcConnector.get_columns_signature
              [("table", VStr (String a s)); ("catalog", of_optional catalog);
               ("schema", of_optional schema)])
      with (Ok [("table", VStr (String a s)); ("catalog", of_optional catalog);
                ("schema", of_optional schema)] : outcome dict).
    rewrite Hget. now split.
  - intros sql Hsel Hkw.
    apply startswith_begins_with in Hsel. apply first_dangerous_none in Hkw.
    rewrite (run_query_dispatch _ _ _ _ Hsel Hkw).
    cbn [odbc_connector BaseConnector.execute_query fst snd].
    unfold OdbcConnector.execute_query, bind. rewrite Hget. now split.
  - unfold OdbcConnector.test_connection, OdbcConnector.test_connection_try,
      try_except, bind.
    now rewrite Hget.
Qed.

Lemma odbc_connect_failure_reported_witness :
  fst (Tools.run_query PyStr.seven_bit (odbc_connector (unreachable string))
         (Some "SELECT 1 FROM OITM LIMIT 1") (start sample_odbc)) =
  Ok "ERROR: Connection refused" /\
  OdbcConnector.test_connection (unreachable string) sample_odbc =
  (Ok false, sample_odbc).
Proof.
  destruct (@odbc_connect_failure_reported PyStr.seven_bit
              (unreachable string)
              sample_odbc sample_odbc connection_refused [] eq_refl eq_refl)
    as (_ & _ & _ & Hquery & Htest).
  split; [|exact Htest].
  apply Hquery.
  - exists " 1 FROM OITM LIMIT 1". reflexivity.
  - intros k Hk. apply contains_false_iff. simpl in Hk.
    repeat (destruct Hk as [<- | Hk]; [reflexivity|]). contradiction.
Defined.
